(** * securiti-Esquecimento-DPO-PE: the update-then-verify worker

    A shallow embedding of [securiti-Esquecimento-DPO-PE.py].  The Lambda
    closes the subtasks of a data-subject-request ticket on the Securiti
    platform: [update_subtask] posts the update and polls
    [was_subtask_removed]; [process_subtasks] walks the ticket's subtasks and
    notifies two chat webhooks at the first failure; [main] parses the
    inbound event, fetches two secrets and builds the Lambda response.

    Python values are JSON values here, Python exceptions are an explicit
    outcome, the two module globals [data_dsr] and [data_subtask] are fields
    of the world, every [requests.post] consumes the next reply of a network
    script, and every observable effect (log line, HTTP post, sleep, secret
    fetch) is written to a trace. *)

From Stdlib Require Import ZArith List String Ascii Bool Lia.
From Stdlib Require Import DecimalString.
Import ListNotations.
Local Open Scope string_scope.
Local Open Scope Z_scope.
Local Set Warnings "-register-all".

(* ================================================================== *)
(** ** Python values as they come out of [json.loads] *)
(* ================================================================== *)

(** A Python float: a finite double is the rational [num / den]. *)
Inductive pyfloat :=
| FFinite (num : Z) (den : positive)
| FInf (negative : bool)
| FNaN.

Inductive json :=
| JNull
| JBool (b : bool)
| JInt (n : Z)
| JFloat (f : pyfloat)
| JStr (s : string)
| JArr (items : list json)
| JObj (fields : list (string * json)).

(** Python exception classes, as far as the [except] clauses of the module
    can tell them apart. *)
Inductive exn_class :=
| ReqTimeout        (* requests.exceptions.Timeout and its subclasses *)
| ReqOther          (* any other requests.exceptions.RequestException *)
| ReqJSONDecodeError(* requests.exceptions.JSONDecodeError (requests >= 2.27) *)
| JSONDecodeError   (* json.JSONDecodeError *)
| KeyError
| IndexError
| TypeError
| AttributeError
| RuntimeError
| ClientError.      (* botocore.exceptions.ClientError *)

Record pyexn := { exn_cls : exn_class; exn_text : string }.

(** [except requests.exceptions.Timeout] *)
Definition is_timeout (c : exn_class) : bool :=
  match c with ReqTimeout => true | _ => false end.

(** [except requests.exceptions.RequestException] *)
Definition is_request_exception (c : exn_class) : bool :=
  match c with ReqTimeout | ReqOther | ReqJSONDecodeError => true | _ => false end.

(** [except (KeyError, json.JSONDecodeError)]: the requests decode error
    also derives from [json.JSONDecodeError]. *)
Definition is_key_or_json_error (c : exn_class) : bool :=
  match c with KeyError | JSONDecodeError | ReqJSONDecodeError => true | _ => false end.

Inductive outcome (A : Type) :=
| Ret (a : A)
| Raise (e : pyexn).
Arguments Ret {A} a.
Arguments Raise {A} e.

Definition raise_ {A} (c : exn_class) (text : string) : outcome A :=
  Raise {| exn_cls := c; exn_text := text |}.

(* ------------------------------------------------------------------ *)
(** *** Strings *)

Definition dquote : ascii := "034"%char.

Definition string_of_Z (z : Z) : string := NilZero.string_of_int (Z.to_int z).

(** [s.replace(old, new)] for a non-empty [old]: every non-overlapping
    occurrence, left to right.  [skip] counts the characters of a match
    that are still to be dropped. *)
Fixpoint replace_from (old new : string) (skip : nat) (s : string) : string :=
  match s with
  | EmptyString => EmptyString
  | String c s' =>
      match skip with
      | S k => replace_from old new k s'
      | O =>
          if String.prefix old s
          then new ++ replace_from old new (String.length old - 1) s'
          else String c (replace_from old new O s')
      end
  end.

Definition str_replace (old new s : string) : string := replace_from old new O s.

(** [needle in s] *)
Fixpoint str_contains (needle s : string) : bool :=
  String.prefix needle s ||
  match s with
  | EmptyString => false
  | String _ s' => str_contains needle s'
  end.

(* ------------------------------------------------------------------ *)
(** *** Dictionaries: insertion-ordered association lists *)

Fixpoint assoc (k : string) (d : list (string * json)) : option json :=
  match d with
  | [] => None
  | (k', v) :: d' => if String.eqb k k' then Some v else assoc k d'
  end.

(** [d[k] = v]: overwrite in place, or append. *)
Fixpoint assoc_set (k : string) (v : json) (d : list (string * json))
  : list (string * json) :=
  match d with
  | [] => [(k, v)]
  | (k', v') :: d' =>
      if String.eqb k k' then (k, v) :: d' else (k', v') :: assoc_set k v d'
  end.

(** [type(obj).__name__], as Python's error messages print it. *)
Definition py_type_name (obj : json) : string :=
  match obj with
  | JNull => "NoneType"
  | JBool _ => "bool"
  | JInt _ => "int"
  | JFloat _ => "float"
  | JStr _ => "str"
  | JArr _ => "list"
  | JObj _ => "dict"
  end.

(** [obj[key]] with a string key.  The message for a string subscripted
    by a string is the wording of Python 3.11 and later. *)
Definition py_getitem(obj : json) (key : string) : outcome json :=
  match obj with
  | JObj d =>
      match assoc key d with
      | Some v => Ret v
      | None => raise_ KeyError ("'" ++ key ++ "'")
      end
  | JArr _ => raise_ TypeError "list indices must be integers or slices, not str"
  | JStr _ => raise_ TypeError "string indices must be integers, not 'str'"
  | _ => raise_ TypeError ("'" ++ py_type_name obj ++ "' object is not subscriptable")
  end.

(** [obj[0]] *)
Definition py_getitem0 (obj : json) : outcome json :=
  match obj with
  | JArr (x :: _) => Ret x
  | JArr [] => raise_ IndexError "list index out of range"
  | JObj _ => raise_ KeyError "0"
  | JStr (String c _) => Ret (JStr (String c EmptyString))
  | JStr EmptyString => raise_ IndexError "string index out of range"
  | _ => raise_ TypeError ("'" ++ py_type_name obj ++ "' object is not subscriptable")
  end.

(** [obj.get(key, default)] *)
Definition py_get (obj : json) (key : string) (default : json) : outcome json :=
  match obj with
  | JObj d =>
      match assoc key d with
      | Some v => Ret v
      | None => Ret default
      end
  | _ => raise_ AttributeError
           ("'" ++ py_type_name obj ++ "' object has no attribute 'get'")
  end.

(** [obj[key] = v] *)
Definition py_setitem (obj : json) (key : string) (v : json) : outcome json :=
  match obj with
  | JObj d => Ret (JObj (assoc_set key v d))
  | JArr _ => raise_ TypeError "list indices must be integers or slices, not str"
  | _ => raise_ TypeError
           ("'" ++ py_type_name obj ++ "' object does not support item assignment")
  end.

(** [obj.replace(old, new)] *)
Definition py_replace (obj : json) (old new : string) : outcome string :=
  match obj with
  | JStr s => Ret (str_replace old new s)
  | _ => raise_ AttributeError
           ("'" ++ py_type_name obj ++ "' object has no attribute 'replace'")
  end.

Fixpoint chars (s : string) : list json :=
  match s with
  | EmptyString => []
  | String c s' => JStr (String c EmptyString) :: chars s'
  end.

(** [for x in obj] *)
Definition py_iter (obj : json) : outcome (list json) :=
  match obj with
  | JArr l => Ret l
  | JObj d => Ret (map (fun kv => JStr (fst kv)) d)
  | JStr s => Ret (chars s)
  | _ => raise_ TypeError ("'" ++ py_type_name obj ++ "' object is not iterable")
  end.

(** [v == n] for an int literal [n]: Python compares numbers by value
    across int, float and bool; everything else is unequal. *)
Definition py_eq_int (v : json) (n : Z) : bool :=
  match v with
  | JInt m => m =? n
  | JBool b => (if b then 1 else 0) =? n
  | JFloat (FFinite num den) => num =? n * Z.pos den
  | _ => false
  end.

(* ================================================================== *)
(** ** The runtime, the world and the effects *)
(* ================================================================== *)

(** What the module takes from its process environment and from the
    libraries it imports. *)
Record runtime := {
  (** [int(os.getenv("RETRIES", 3))] *)
  RETRIES : Z;
  (** [int(os.getenv("TIMEOUT", 30))], the [timeout] of the update and
      verification posts *)
  TIMEOUT : Z;
  (** [os.getenv("AWS_LAMBDA_FUNCTION_NAME", "default_lambda")] *)
  lambda_function_name : string;
  (** [json.loads]: the value, or the message of the decode error *)
  json_loads : string -> json + string;
  (** whether [response.json()] raises [requests.exceptions.JSONDecodeError],
      a [RequestException] (requests 2.27 and later), or lets the decoder's
      own error through (earlier versions) *)
  requests_wraps_json_error : bool;
  (** [repr] of a float and of a str *)
  float_repr : pyfloat -> string;
  str_repr : string -> string
}.

(** What [requests.post] does at one call. *)
Inductive net_reply :=
| Response (status_code : Z) (text : string)
| TimedOut (text : string)      (* raises requests.exceptions.Timeout *)
| Failed (text : string).       (* raises another RequestException *)

(** What [sm.get_secret_value] does for one secret id. *)
Inductive sm_reply :=
| SecretValue (response : json)
| SecretClientError (text : string).

Record world := {
  data_dsr : json;
  data_subtask : json;
  network : list net_reply;
  vault : string -> sm_reply
}.

Inductive level := LInfo | LWarning | LError.

(** The dictionary built by [create_log_entry]; [le_extra] holds the
    keyword arguments. *)
Record log_entry := {
  le_event : string;
  le_status : string;
  le_lambda_name : json;
  le_enviroment : json;
  le_form_title : json;
  le_ticket_id : json;
  le_task_id : json;
  le_subtask_id : json;
  le_subtask_title : json;
  le_message : string;
  le_extra : list (string * json)
}.

(** The four [requests.post] calls of the module. *)
Inductive call_site := UpdateCall | VerifyCall | TeamsCall | GoogleChatCall.

(** The body of a post: a JSON payload, or the card that
    [format_teams_notification] / [format_google_chat_notification] render
    from a log entry (the rendering reads only keys that
    [create_log_entry] always sets). *)
Inductive post_body :=
| JsonBody (payload : json)
| Card (entry : log_entry).

Inductive effect :=
| Log (lvl : level) (entry : log_entry)
| Post (site : call_site) (url : json) (headers : json) (body : post_body)
       (timeout : option Z)
| Sleep (seconds : Z)
| GetSecretValue (secret_id : string).

Record response := { status_code : Z; text : string }.

(** The Lambda response; [body] is the dictionary handed to [json.dumps]. *)
Record lambda_response := { statusCode : Z; body : json }.

(* ------------------------------------------------------------------ *)
(** *** The monad: world passing, exceptions, and a trace *)

Definition M (A : Type) : Type := world -> outcome A * world * list effect.

Definition ret {A} (a : A) : M A := fun w => (Ret a, w, []).

Definition bind {A B} (m : M A) (k : A -> M B) : M B :=
  fun w =>
    match m w with
    | (Ret a, w1, t1) =>
        match k a w1 with
        | (r, w2, t2) => (r, w2, (t1 ++ t2)%list)
        end
    | (Raise e, w1, t1) => (Raise e, w1, t1)
    end.

Declare Scope py_scope.
Delimit Scope py_scope with py.
Notation "x <- m ;; k" := (bind m (fun x => k))
  (at level 61, m at next level, right associativity) : py_scope.
Notation "m ;; k" := (bind m (fun _ => k))
  (at level 61, right associativity) : py_scope.
Local Open Scope py_scope.

Definition lift {A} (r : outcome A) : M A := fun w => (r, w, []).

Definition raise {A} (c : exn_class) (msg : string) : M A := lift (raise_ c msg).

Definition emit (e : effect) : M unit := fun w => (Ret tt, w, [e]).

(** The world with another network script. *)
Definition with_network (w : world) (net : list net_reply) : world :=
  {| data_dsr := data_dsr w; data_subtask := data_subtask w;
     network := net; vault := vault w |}.

Definition pop_network (w : world) : world := with_network w (tl (network w)).

(** The world with another current subtask. *)
Definition with_subtask (w : world) (subtask : json) : world :=
  {| data_dsr := data_dsr w; data_subtask := subtask;
     network := network w; vault := vault w |}.

Definition get_data_dsr : M json := fun w => (Ret (data_dsr w), w, []).
Definition get_data_subtask : M json := fun w => (Ret (data_subtask w), w, []).

(** The world with another ticket. *)
Definition with_dsr (w : world) (dsr : json) : world :=
  {| data_dsr := dsr; data_subtask := data_subtask w;
     network := network w; vault := vault w |}.

Definition set_data_dsr (v : json) : M unit :=
  fun w => (Ret tt, with_dsr w v, []).

Definition set_data_subtask (v : json) : M unit :=
  fun w => (Ret tt, with_subtask w v, []).

(** [try: body except ...]: [handler e] is [None] when no clause matches. *)
Definition try_except {A} (body : M A) (handler : pyexn -> option (M A)) : M A :=
  fun w =>
    match body w with
    | (Ret a, w1, t1) => (Ret a, w1, t1)
    | (Raise e, w1, t1) =>
        match handler e with
        | Some h =>
            match h w1 with
            | (r, w2, t2) => (r, w2, (t1 ++ t2)%list)
            end
        | None => (Raise e, w1, t1)
        end
    end.

(** [requests.post(...)]: the post is traced, then the next reply of the
    script decides.  A network that has nothing more to say lets the
    request time out.  [timeout] is the keyword argument, [None] where the
    call passes none. *)
Definition requests_post (site : call_site) (url headers : json) (b : post_body)
    (timeout : option Z) : M response :=
  fun w =>
    let r :=
      match network w with
      | Response c t :: _ => Ret {| status_code := c; text := t |}
      | TimedOut t :: _ => raise_ ReqTimeout t
      | Failed t :: _ => raise_ ReqOther t
      | [] => raise_ ReqTimeout "timed out"
      end in
    (r, pop_network w, [Post site url headers b timeout]).

Definition sleep (seconds : Z) : M unit := emit (Sleep seconds).

(* ================================================================== *)
(** ** The program *)
(* ================================================================== *)

Section Program.

Variable rt : runtime.

(** [repr(v)] and [str(v)], as the f-strings of the module render a
    value. *)
Fixpoint py_repr (v : json) : string :=
  match v with
  | JNull => "None"
  | JBool true => "True"
  | JBool false => "False"
  | JInt n => string_of_Z n
  | JFloat f => float_repr rt f
  | JStr s => str_repr rt s
  | JArr l => "[" ++ String.concat ", " (map py_repr l) ++ "]"
  | JObj d =>
      "{" ++ String.concat ", "
               (map (fun kv => str_repr rt (fst kv) ++ ": " ++ py_repr (snd kv)) d)
          ++ "}"
  end.

Definition py_str (v : json) : string :=
  match v with
  | JStr s => s
  | _ => py_repr v
  end.

(** [json.loads(x)] *)
Definition py_json_loads (x : json) : outcome json :=
  match x with
  | JStr s =>
      match json_loads rt s with
      | inl v => Ret v
      | inr msg => raise_ JSONDecodeError msg
      end
  | _ => raise_ TypeError ("the JSON object must be str, bytes or bytearray, not "
                           ++ py_type_name x)
  end.

(** [response.json()] *)
Definition response_json (r : response) : M json :=
  match json_loads rt (text r) with
  | inl v => ret v
  | inr msg =>
      raise (if requests_wraps_json_error rt
             then ReqJSONDecodeError else JSONDecodeError) msg
  end.

Definition GLOBAL_SECURITI_URL : string := "https://app.securiti.ai".

Definition safe_get (data : json) (key : string) : outcome json :=
  match data with
  | JNull => Ret (JStr "unknown")
  | _ => py_get data key (JStr "unknown")
  end.

Definition create_log_entry (event status message : string)
    (kwargs : list (string * json)) : M log_entry :=
  dsr <- get_data_dsr ;;
  sub <- get_data_subtask ;;
  lambda_name <- lift (safe_get dsr "lambda_name") ;;
  enviroment <- lift (safe_get dsr "enviroment") ;;
  form_title <- lift (safe_get dsr "dsp_form_title") ;;
  ticket_id <- lift (safe_get dsr "ticketId") ;;
  task_id <- lift (safe_get sub "task_id") ;;
  subtask_id <- lift (safe_get sub "subtask_id") ;;
  subtask_title <- lift (safe_get sub "title") ;;
  ret {| le_event := event; le_status := status;
         le_lambda_name := lambda_name; le_enviroment := enviroment;
         le_form_title := form_title; le_ticket_id := ticket_id;
         le_task_id := task_id; le_subtask_id := subtask_id;
         le_subtask_title := subtask_title; le_message := message;
         le_extra := kwargs |}.

Definition log_event (lvl : level) (event status message : string)
    (kwargs : list (string * json)) : M unit :=
  log_entry <- create_log_entry event status message kwargs ;;
  emit (Log lvl log_entry).

(** The level as [log_event] takes it, a string. *)
Definition level_of (name : string) : option level :=
  if String.eqb name "info" then Some LInfo
  else if String.eqb name "warning" then Some LWarning
  else if String.eqb name "error" then Some LError
  else None.

(** [log_event(level, ...)] for any string: the entry is built, and a level
    that is none of the three the [if]/[elif] chain tests writes no line.
    Every call of the module passes one of the three, which is
    [log_event] above. *)
Definition log_event_at (name : string) (event status message : string)
    (kwargs : list (string * json)) : M unit :=
  log_entry <- create_log_entry event status message kwargs ;;
  match level_of name with
  | Some lvl => emit (Log lvl log_entry)
  | None => ret tt
  end.

(** [sm.get_secret_value(SecretId=secret)] *)
Definition get_secret_value (secret : string) : M json :=
  fun w =>
    (match vault w secret with
     | SecretValue r => Ret r
     | SecretClientError msg => raise_ ClientError msg
     end, w, [GetSecretValue secret]).

Definition get_secret (secret : string) : M json :=
  log_event LInfo "collecting_secrets" "started" "Collecting secrets" [] ;;
  try_except
    (get_secret_value_response <- get_secret_value secret ;;
     secret_string <- lift (py_getitem get_secret_value_response "SecretString") ;;
     secret_data <- lift (py_json_loads secret_string) ;;
     log_event LInfo "collecting_secrets" "success" "Secrets collected" [] ;;
     ret secret_data)
    (fun err =>
       match exn_cls err with
       | ClientError =>
           Some (log_event LError "collecting_secrets" "error" (exn_text err) [] ;;
                 raise RuntimeError "Failed to retrieve secrets")
       | _ => None
       end).

Definition verification_payload (ticket_id task_id : json) : json :=
  JObj [("source", JStr "dsr_ticket");
        ("response_config", JObj [("format", JInt 1)]);
        ("fields", JArr [JObj [("name", JStr "task_id")];
                         JObj [("name", JStr "total_subtasks")]]);
        ("order_by", JArr [JStr "datastore_name"]);
        ("filter",
         JObj [("op", JStr "and");
               ("value",
                JArr [JObj [("op", JStr "eq"); ("field", JStr "id");
                            ("value", ticket_id)];
                      JObj [("op", JStr "eq"); ("field", JStr "task_id");
                            ("value", task_id)]])])].

Definition was_subtask_removed (secrets : json) : M (bool * string) :=
  let url := GLOBAL_SECURITI_URL ++ "/reporting/v1/sources/query" in
  dsr <- get_data_dsr ;;
  ticket_id <- lift (py_getitem dsr "ticketId") ;;
  sub <- get_data_subtask ;;
  task_id <- lift (py_getitem sub "task_id") ;;
  let payload := verification_payload ticket_id task_id in
  try_except
    (response <- requests_post VerifyCall (JStr url) secrets (JsonBody payload)
                   (Some (TIMEOUT rt)) ;;
     if negb (status_code response =? 200) then
       log_event LError "was_subtask_removed" "http_error"
         ("Status: " ++ string_of_Z (status_code response)
            ++ " - Response: " ++ text response) [] ;;
       ret (false, text response)
     else
       parsed <- response_json response ;;
       rows <- lift (py_getitem parsed "data") ;;
       row <- lift (py_getitem0 rows) ;;
       total <- lift (py_get row "total_subtasks" (JInt 0)) ;;
       if py_eq_int total 1 then
         log_event LInfo "was_subtask_removed" "success"
           "Subtask was successfully removed" [] ;;
         ret (true, EmptyString)
       else
         again <- response_json response ;;
         log_event LError "was_subtask_removed" "error"
           ("Subtask was not removed. Response data: " ++ py_str again) [] ;;
         ret (false, text response))
    (fun err =>
       if is_timeout (exn_cls err) then
         Some (log_event LWarning "was_subtask_removed" "timeout"
                 "Processing timeout" [] ;;
               ret (false, "Processing timeout"))
       else if is_request_exception (exn_cls err) then
         Some (log_event LError "was_subtask_removed" "exception"
                 (exn_text err) [] ;;
               ret (false, exn_text err))
       else None).

(** What one pass through the body of the outer [for] loop leaves behind:
    the loop goes on with the local [error], or the function has
    returned. *)
Inductive flow :=
| Continue (error : string)
| Return (result : bool * string).

(** [for check_attempt in range(n): ...] of [update_subtask], from
    [check_attempt] on: [true] when a poll returned from the function
    with success, [false] when the loop ran out. *)
Fixpoint verification_polls (n check_attempt : nat) : M bool :=
  match n with
  | O => ret false
  | S n' =>
      dsr <- get_data_dsr ;;
      secrets_header <- lift (py_getitem dsr "secrets_header") ;;
      r <- was_subtask_removed secrets_header ;;
      if fst r then
        log_event LInfo "subtask_removed" "success"
          "Subtask successfully removed" [] ;;
        ret true
      else
        log_event LInfo "subtask_not_removed" "retry"
          ("Update Subtask - retry_attempt: "
             ++ string_of_Z (Z.of_nat check_attempt + 1)) [] ;;
        sleep 5 ;;
        verification_polls n' (S check_attempt)
  end.

(** The [try] statement inside the outer loop.  The only exceptions its
    [except] clauses can see come from the update post and from
    [response.json()], both before any assignment to [error] in this pass,
    so the timeout clause continues with the [error] it started with. *)
Definition update_attempt (update_url : string) (body : json)
    (attempt : nat) (error : string) : M flow :=
  try_except
    (log_event LInfo "update_subtask" "started"
       ("attempt: " ++ string_of_Z (Z.of_nat attempt + 1)) [] ;;
     dsr <- get_data_dsr ;;
     secrets_header <- lift (py_getitem dsr "secrets_header") ;;
     response <- requests_post UpdateCall (JStr update_url) secrets_header
                   (JsonBody body) (Some (TIMEOUT rt)) ;;
     if status_code response =? 200 then
       parsed <- response_json response ;;
       status <- lift (py_get parsed "status" JNull) ;;
       if py_eq_int status 0 then
         log_event LInfo "subtask_update" "started" "Process started" [] ;;
         removed <- verification_polls (Z.to_nat (RETRIES rt)) O ;;
         if removed then ret (Return (true, EmptyString))
         else
           log_event LError "subtask_not_removed" "failure"
             "Unable to remove subtask after retries." [] ;;
           ret (Return (false, "Subtask not removed after retries."))
       else
         again <- response_json response ;;
         status' <- lift (py_get again "status" JNull) ;;
         let error := "API returned unexpected status: " ++ py_str status' in
         log_event LError "subtask_update" "error" error [] ;;
         ret (Return (false, error))
     else
       let error := "Error updating subtask. Status code: "
                      ++ string_of_Z (status_code response)
                      ++ ". Response: " ++ text response in
       log_event LError "subtask_update" "http_error"
         ("status code: " ++ string_of_Z (status_code response)
            ++ " - response: " ++ text response) [] ;;
       ret (Continue error))
    (fun err =>
       if is_timeout (exn_cls err) then
         Some (log_event LError "subtask_update" "timeout" "Timeout" [] ;;
               ret (Continue error))
       else if is_request_exception (exn_cls err) then
         Some (log_event LError "subtask_update" "exception" (exn_text err) [] ;;
               ret (Return (false, exn_text err)))
       else None).

(** [for attempt in range(n): ...] from [attempt] on, and the two lines
    after the loop. *)
Fixpoint update_attempts (update_url : string) (body : json)
    (n attempt : nat) (error : string) : M (bool * string) :=
  match n with
  | O =>
      log_event LError "subtask_update" "failure" "All retries failed." [] ;;
      ret (false, error)
  | S n' =>
      f <- update_attempt update_url body attempt error ;;
      match f with
      | Return result => ret result
      | Continue error' => update_attempts update_url body n' (S attempt) error'
      end
  end.

Definition update_subtask : M (bool * string) :=
  sub <- get_data_subtask ;;
  subtask_id <- lift (py_getitem sub "subtask_id") ;;
  let update_url := GLOBAL_SECURITI_URL ++ "/privaci/v1/admin/dsr/subtasks/"
                      ++ py_str subtask_id ++ "/response/" in
  let body := JObj [("status", JInt 5)] in
  update_attempts update_url body (Z.to_nat (RETRIES rt)) O EmptyString.

Definition content_type_json : json :=
  JObj [("Content-Type", JStr "application/json")].

Definition send_google_chat_notification (log_entry : log_entry) : M unit :=
  dsr <- get_data_dsr ;;
  url <- lift (py_getitem dsr "googleChat") ;;
  response <- requests_post GoogleChatCall url content_type_json (Card log_entry)
                None ;;
  if negb (status_code response =? 200) then
    log_event LError "send_google_chat_notification" "error"
      "Failed to send notification to Google Chat." []
  else
    log_event LInfo "send_google_chat_notification" "success"
      "Notification successfully sent to Google Chat." [].

Definition send_teams_notification (log_entry : log_entry) : M unit :=
  dsr <- get_data_dsr ;;
  url <- lift (py_getitem dsr "microsoftTeams") ;;
  response <- requests_post TeamsCall url content_type_json (Card log_entry)
                None ;;
  if negb (status_code response =? 202) then
    log_event LError "send_teams_notification" "error"
      "Failed to send notification to Teams." []
  else
    log_event LInfo "send_teams_notification" "success"
      "Notification successfully sent to Teams." [].

(** The body of the loop of [process_subtasks] up to the test of
    [success]. *)
Definition resolve_subtask (subtask : json) : M (bool * string) :=
  set_data_subtask subtask ;;
  log_event LInfo "update_subtask" "started" "Subtask update started" [] ;;
  update_subtask.

Definition notify_failure (reason : string) : M unit :=
  log_event LError "subtask_update" "failed" reason [] ;;
  message <- create_log_entry "subtask_update" "failed" reason [] ;;
  send_teams_notification message ;;
  send_google_chat_notification message.

Fixpoint process_loop (subtasks : list json) : M bool :=
  match subtasks with
  | [] => ret true
  | subtask :: rest =>
      r <- resolve_subtask subtask ;;
      if negb (fst r) then
        notify_failure (snd r) ;;
        ret false
      else process_loop rest
  end.

Definition process_subtasks : M bool :=
  dsr <- get_data_dsr ;;
  task_subtask <- lift (py_getitem dsr "task_subtask") ;;
  subtasks <- lift (py_iter task_subtask) ;;
  process_loop subtasks.

(** [data_dsr[key] = v] *)
Definition set_dsr_item (key : string) (v : json) : M unit :=
  dsr <- get_data_dsr ;;
  dsr' <- lift (py_setitem dsr key v) ;;
  set_data_dsr dsr'.

(** [data_dsr["sm"].replace("{type}", kind)] *)
Definition secret_path (kind : string) : M string :=
  dsr <- get_data_dsr ;;
  sm <- lift (py_getitem dsr "sm") ;;
  lift (py_replace sm "{type}" kind).

(** The first [try] of [main]: [Some] is the early 400 response. *)
Definition load_event (event : json) : M (option lambda_response) :=
  try_except
    (data <- lift (py_getitem event "data") ;;
     normalized <- lift (py_replace data "'" (String dquote EmptyString)) ;;
     parsed <- lift (py_json_loads (JStr normalized)) ;;
     set_data_dsr parsed ;;
     ret None)
    (fun e =>
       if is_key_or_json_error (exn_cls e) then
         Some (log_event LError "main" "error" (exn_text e) [] ;;
               ret (Some {| statusCode := 400;
                            body := JObj [("message", JStr "Invalid input data");
                                          ("error", JStr (exn_text e))] |}))
       else None).

(** The second [try] of [main]: [Some] is the early 401 response. *)
Definition load_secrets : M (option lambda_response) :=
  try_except
    (set_dsr_item "lambda_name" (JStr (lambda_function_name rt)) ;;
     sm_dsr <- secret_path "dsr" ;;
     (if str_contains "uat" sm_dsr
      then set_dsr_item "enviroment" (JStr "UAT")
      else set_dsr_item "enviroment" (JStr "PROD")) ;;
     token_base <- secret_path "dsr" ;;
     let secret_path_token := token_base ++ "token" in
     channel_base <- secret_path "global" ;;
     let secret_path_channel := channel_base ++ "channel" in
     secret_data_channel <- get_secret secret_path_channel ;;
     secret_data_token <- get_secret secret_path_token ;;
     google_chat <- lift (py_get secret_data_channel "googleChat" JNull) ;;
     set_dsr_item "googleChat" google_chat ;;
     microsoft_teams <- lift (py_get secret_data_channel "microsoftTeams" JNull) ;;
     set_dsr_item "microsoftTeams" microsoft_teams ;;
     api_key <- lift (py_get secret_data_token "X-API-KEY" JNull) ;;
     api_secret <- lift (py_get secret_data_token "X-API-SECRET" JNull) ;;
     tident <- lift (py_get secret_data_token "X-TIDENT" JNull) ;;
     set_dsr_item "secrets_header"
       (JObj [("X-API-KEY", api_key); ("X-API-SECRET", api_secret);
              ("X-TIDENT", tident)]) ;;
     ret None)
    (fun e =>
       match exn_cls e with
       | RuntimeError =>
           Some (ret (Some {| statusCode := 401;
                              body := JObj [("message", JStr (exn_text e))] |}))
       | _ => None
       end).

(** [context] is [str(context)]. *)
Definition main (event : json) (context : string) : M lambda_response :=
  log_event LInfo "main" "started" "Main function started"
    [("context", JStr context); ("event_data", event)] ;;
  bad_input <- load_event event ;;
  match bad_input with
  | Some resp => ret resp
  | None =>
      no_secrets <- load_secrets ;;
      match no_secrets with
      | Some resp => ret resp
      | None =>
          result <- process_subtasks ;;
          dsr <- get_data_dsr ;;
          dsr_id <- lift (py_getitem dsr "ticketId") ;;
          if (result : bool) then
            ret {| statusCode := 200;
                   body := JObj [("message",
                                  JStr "All subtasks processed with notifications sent for failures.");
                                 ("dsr_id", dsr_id)] |}
          else
            ret {| statusCode := 500;
                   body := JObj [("message",
                                  JStr "Failed to process the DSR. Notifications sent.");
                                 ("dsr_id", dsr_id)] |}
      end
  end.

End Program.

(* ================================================================== *)
(** ** Observations on worlds, replies and traces *)
(* ================================================================== *)

(** The trace without its log lines and without payloads. *)
Inductive step :=
| DidPost (site : call_site)
| Slept (seconds : Z)
| FetchedSecret (secret_id : string).

Fixpoint view (t : list effect) : list step :=
  match t with
  | [] => []
  | Log _ _ :: t' => view t'
  | Post site _ _ _ _ :: t' => DidPost site :: view t'
  | Sleep s :: t' => Slept s :: view t'
  | GetSecretValue id :: t' => FetchedSecret id :: view t'
  end.

Definition call_site_eqb (a b : call_site) : bool :=
  match a, b with
  | UpdateCall, UpdateCall | VerifyCall, VerifyCall
  | TeamsCall, TeamsCall | GoogleChatCall, GoogleChatCall => true
  | _, _ => false
  end.

(** How many posts a trace holds for one call site. *)
Fixpoint posts_at (site : call_site) (t : list effect) : nat :=
  match t with
  | [] => O
  | Post site' _ _ _ _ :: t' =>
      if call_site_eqb site site' then S (posts_at site t') else posts_at site t'
  | _ :: t' => posts_at site t'
  end.

(** The same count on a view. *)
Fixpoint steps_at (site : call_site) (v : list step) : nat :=
  match v with
  | [] => O
  | DidPost site' :: v' =>
      if call_site_eqb site site' then S (steps_at site v') else steps_at site v'
  | _ :: v' => steps_at site v'
  end.

(** [n] rounds of the verification loop that all miss. *)
Fixpoint missed_rounds (n : nat) : list step :=
  match n with
  | O => []
  | S n' => DidPost VerifyCall :: Slept 5 :: missed_rounds n'
  end.

Definition result_of {A} (x : outcome A * world * list effect) : outcome A := fst (fst x).
Definition world_of {A} (x : outcome A * world * list effect) : world := snd (fst x).
Definition trace_of {A} (x : outcome A * world * list effect) : list effect := snd x.

Definition has_key (key : string) (v : json) : bool :=
  match v with
  | JObj d => match assoc key d with Some _ => true | None => false end
  | _ => false
  end.

(** [safe_get] does not raise on a dictionary or on [None]. *)
Definition dictish (v : json) : bool :=
  match v with JObj _ | JNull => true | _ => false end.

Definition loggable (w : world) : bool :=
  dictish (data_dsr w) && dictish (data_subtask w).

(** The global whose [.get] fails where the world is not loggable:
    [create_log_entry] reads [data_dsr] first. *)
Definition unreadable_global (w : world) : json :=
  if dictish (data_dsr w) then data_subtask w else data_dsr w.

(** The globals carry what [update_subtask] and [was_subtask_removed]
    subscript: the ticket its id and the credential headers, the current
    subtask its id and its task id. *)
Definition resolvable (w : world) : bool :=
  has_key "ticketId" (data_dsr w) && has_key "secrets_header" (data_dsr w)
  && has_key "subtask_id" (data_subtask w) && has_key "task_id" (data_subtask w).

Definition field (data : json) (key : string) : json :=
  match safe_get data key with
  | Ret v => v
  | Raise _ => JStr "unknown"
  end.

(** The entry [create_log_entry] builds in a loggable world. *)
Definition entry_of (w : world) (event status message : string)
    (kwargs : list (string * json)) : log_entry :=
  {| le_event := event; le_status := status;
     le_lambda_name := field (data_dsr w) "lambda_name";
     le_enviroment := field (data_dsr w) "enviroment";
     le_form_title := field (data_dsr w) "dsp_form_title";
     le_ticket_id := field (data_dsr w) "ticketId";
     le_task_id := field (data_subtask w) "task_id";
     le_subtask_id := field (data_subtask w) "subtask_id";
     le_subtask_title := field (data_subtask w) "title";
     le_message := message; le_extra := kwargs |}.

Section Observers.

Variable rt : runtime.

(** [response.json().get("status")] of an update response body, when the
    body decodes to a dictionary. *)
Definition update_status (body_text : string) : option json :=
  match json_loads rt body_text with
  | inl parsed =>
      match py_get parsed "status" JNull with
      | Ret v => Some v
      | Raise _ => None
      end
  | inr _ => None
  end.

(** [response.json()["data"][0].get("total_subtasks", 0)] of a
    verification response body, when every step of it succeeds. *)
Definition reported_total (body_text : string) : option json :=
  match json_loads rt body_text with
  | inl parsed =>
      match py_getitem parsed "data" with
      | Ret rows =>
          match py_getitem0 rows with
          | Ret row =>
              match py_get row "total_subtasks" (JInt 0) with
              | Ret v => Some v
              | Raise _ => None
              end
          | Raise _ => None
          end
      | Raise _ => None
      end
  | inr _ => None
  end.

(** The update reply is HTTP 200 with a body status equal to 0. *)
Definition accepted (r : net_reply) : bool :=
  match r with
  | Response c t =>
      (c =? 200) &&
      match update_status t with
      | Some st => py_eq_int st 0
      | None => false
      end
  | _ => false
  end.

(** Acceptance in the words of the specification: an HTTP status in
    200..299 with a body status equal to 0. *)
Definition two_xx_status_0 (r : net_reply) : bool :=
  match r with
  | Response c t =>
      (200 <=? c) && (c <=? 299) &&
      match update_status t with
      | Some st => py_eq_int st 0
      | None => false
      end
  | _ => false
  end.

(** The update reply sends the outer loop round again: a timeout, or an
    HTTP status other than 200. *)
Definition retried (r : net_reply) : bool :=
  match r with
  | Response c _ => negb (c =? 200)
  | TimedOut _ => true
  | Failed _ => false
  end.

(** The update reply is a timeout or carries an HTTP status outside
    200..299. *)
Definition timeout_or_non_2xx (r : net_reply) : bool :=
  match r with
  | Response c _ => (c <? 200) || (299 <? c)
  | TimedOut _ => true
  | Failed _ => false
  end.

(** The verification reply is HTTP 200 and reports a count equal to 1. *)
Definition confirms (r : net_reply) : bool :=
  match r with
  | Response c t =>
      (c =? 200) &&
      match reported_total t with
      | Some v => py_eq_int v 1
      | None => false
      end
  | _ => false
  end.

(** The verification reply is HTTP 200 and reports another count. *)
Definition other_count (r : net_reply) : bool :=
  match r with
  | Response c t =>
      (c =? 200) &&
      match reported_total t with
      | Some v => negb (py_eq_int v 1)
      | None => false
      end
  | _ => false
  end.

(** The verification reply is a transport failure: a timeout or another
    request exception. *)
Definition transport_failure (r : net_reply) : bool :=
  match r with
  | Response _ _ => false
  | TimedOut _ | Failed _ => true
  end.

(** A verification reply that [was_subtask_removed] turns into
    [(False, detail)]. *)
Definition misses (r : net_reply) : bool :=
  match r with
  | Response c _ => negb (c =? 200) || other_count r
  | TimedOut _ | Failed _ => true
  end.

(** The decoded body of a verification reply has a first data row to
    read: [body["data"]] is a non-empty list. *)
Definition has_data_rows (parsed : json) : bool :=
  match parsed with
  | JObj d =>
      match assoc "data" d with
      | Some (JArr (_ :: _)) => true
      | _ => false
      end
  | _ => false
  end.

(** Every subtask of [subs], resolved in order from [w], returns success:
    the world and the trace after the last one. *)
Fixpoint resolves_ok (subs : list json) (w : world) : option (world * list effect) :=
  match subs with
  | [] => Some (w, [])
  | s :: rest =>
      match resolve_subtask rt s w with
      | (Ret (true, _), w1, t1) =>
          match resolves_ok rest w1 with
          | Some (w2, t2) => Some (w2, (t1 ++ t2)%list)
          | None => None
          end
      | _ => None
      end
  end.

End Observers.

(* ================================================================== *)
(** ** A concrete runtime and concrete worlds *)
(* ================================================================== *)

(** JSON text written with single quotes, normalized the way [main]
    normalizes its inbound payload. *)
Definition js (s : string) : string := str_replace "'" (String dquote EmptyString) s.

Definition subtask_1 : json :=
  JObj [("subtask_id", JInt 501); ("task_id", JInt 10); ("title", JStr "Remove CRM record")].
Definition subtask_2 : json :=
  JObj [("subtask_id", JInt 502); ("task_id", JInt 10); ("title", JStr "Remove billing record")].
Definition subtask_3 : json :=
  JObj [("subtask_id", JInt 503); ("task_id", JInt 11); ("title", JStr "Remove mail record")].

Definition ticket_text : string :=
  "{'ticketId': 77, 'sm': 'prod/{type}/securiti/', 'dsp_form_title': 'Esquecimento', 'task_subtask': [{'subtask_id': 501, 'task_id': 10, 'title': 'Remove CRM record'}, {'subtask_id': 502, 'task_id': 10, 'title': 'Remove billing record'}, {'subtask_id': 503, 'task_id': 11, 'title': 'Remove mail record'}]}".

Definition ticket : json :=
  JObj [("ticketId", JInt 77); ("sm", JStr "prod/{type}/securiti/");
        ("dsp_form_title", JStr "Esquecimento");
        ("task_subtask", JArr [subtask_1; subtask_2; subtask_3])].

Definition channel_text : string :=
  "{'googleChat': 'https://chat.example/hook', 'microsoftTeams': 'https://teams.example/hook'}".
Definition token_text : string :=
  "{'X-API-KEY': 'key', 'X-API-SECRET': 'secret', 'X-TIDENT': 'tenant'}".

Definition status_0_text : string := "{'status': 0}".
Definition status_7_text : string := "{'status': 7}".
Definition one_left_text : string := "{'data': [{'task_id': 10, 'total_subtasks': 1}]}".
Definition two_left_text : string := "{'data': [{'task_id': 10, 'total_subtasks': 2}]}".
Definition no_rows_text : string := "{'data': []}".
Definition no_data_text : string := "{'message': 'ok'}".

(** The texts the concrete runs decode; every other text is refused. *)
Definition demo_table : list (string * json) :=
  [ (js ticket_text, ticket);
    (js channel_text,
     JObj [("googleChat", JStr "https://chat.example/hook");
           ("microsoftTeams", JStr "https://teams.example/hook")]);
    (js token_text,
     JObj [("X-API-KEY", JStr "key"); ("X-API-SECRET", JStr "secret");
           ("X-TIDENT", JStr "tenant")]);
    (js status_0_text, JObj [("status", JInt 0)]);
    (js status_7_text, JObj [("status", JInt 7)]);
    (js one_left_text,
     JObj [("data", JArr [JObj [("task_id", JInt 10); ("total_subtasks", JInt 1)]])]);
    (js two_left_text,
     JObj [("data", JArr [JObj [("task_id", JInt 10); ("total_subtasks", JInt 2)]])]);
    (js no_rows_text, JObj [("data", JArr [])]);
    (js no_data_text, JObj [("message", JStr "ok")]) ].

(** A ticket text cut off after its first pair. *)
Definition cut_ticket_text : string := "{'ticketId': 77".

(** The message of [json.JSONDecodeError] for a text that is not in the
    table: the one for the cut ticket text, and for every other text the
    message of a text that begins with no JSON value (the only other
    kind the concrete runs decode). *)
Definition demo_decode_error (s : string) : string :=
  if String.eqb s (js cut_ticket_text)
  then "Expecting ',' delimiter: line 1 column 16 (char 15)"
  else "Expecting value: line 1 column 1 (char 0)".

Definition demo_loads (s : string) : json + string :=
  match assoc s demo_table with
  | Some v => inl v
  | None => inr (demo_decode_error s)
  end.

Definition demo_float_repr (f : pyfloat) : string :=
  match f with
  | FFinite num den => string_of_Z num ++ "/" ++ string_of_Z (Z.pos den)
  | FInf false => "inf"
  | FInf true => "-inf"
  | FNaN => "nan"
  end.

(** The defaults of the module ([RETRIES] 3, [TIMEOUT] 30) on a current
    [requests]. *)
Definition demo_runtime : runtime :=
  {| RETRIES := 3; TIMEOUT := 30;
     lambda_function_name := "default_lambda";
     json_loads := demo_loads;
     requests_wraps_json_error := true;
     float_repr := demo_float_repr;
     str_repr := fun s => "'" ++ s ++ "'" |}.

(** The same on a [requests] older than 2.27. *)
Definition legacy_runtime : runtime :=
  {| RETRIES := 3; TIMEOUT := 30;
     lambda_function_name := "default_lambda";
     json_loads := demo_loads;
     requests_wraps_json_error := false;
     float_repr := demo_float_repr;
     str_repr := fun s => "'" ++ s ++ "'" |}.

Definition demo_vault (secret_id : string) : sm_reply :=
  if String.eqb secret_id "prod/global/securiti/channel"
  then SecretValue (JObj [("SecretString", JStr (js channel_text))])
  else if String.eqb secret_id "prod/dsr/securiti/token"
  then SecretValue (JObj [("SecretString", JStr (js token_text))])
  else SecretClientError "ResourceNotFoundException".

(** A vault that refuses every secret. *)
Definition locked_vault (secret_id : string) : sm_reply :=
  SecretClientError "AccessDeniedException".

(** The globals of a freshly imported module. *)
Definition cold_world (net : list net_reply) (v : string -> sm_reply) : world :=
  {| data_dsr := JObj []; data_subtask := JObj []; network := net; vault := v |}.

(** The ticket once [main] has loaded the secrets. *)
Definition loaded_ticket : json :=
  JObj [("ticketId", JInt 77); ("sm", JStr "prod/{type}/securiti/");
        ("dsp_form_title", JStr "Esquecimento");
        ("task_subtask", JArr [subtask_1; subtask_2; subtask_3]);
        ("lambda_name", JStr "default_lambda"); ("enviroment", JStr "PROD");
        ("googleChat", JStr "https://chat.example/hook");
        ("microsoftTeams", JStr "https://teams.example/hook");
        ("secrets_header",
         JObj [("X-API-KEY", JStr "key"); ("X-API-SECRET", JStr "secret");
               ("X-TIDENT", JStr "tenant")])].

(** The world in which [update_subtask] runs for the first subtask. *)
Definition resolving_world (net : list net_reply) : world :=
  {| data_dsr := loaded_ticket; data_subtask := subtask_1;
     network := net; vault := demo_vault |}.

(** The world in which [process_subtasks] starts. *)
Definition loaded_world (net : list net_reply) : world :=
  {| data_dsr := loaded_ticket; data_subtask := JObj [];
     network := net; vault := demo_vault |}.

Definition demo_event : json := JObj [("data", JStr ticket_text)].

Definition update_ok : net_reply := Response 200 (js status_0_text).
Definition created_status_0 : net_reply := Response 201 (js status_0_text).
Definition created_status_7 : net_reply := Response 201 (js status_7_text).
Definition bad_gateway : net_reply := Response 200 "<html>502 Bad Gateway</html>".
Definition no_rows : net_reply := Response 200 (js no_rows_text).
Definition demo_headers : json :=
  JObj [("X-API-KEY", JStr "key"); ("X-API-SECRET", JStr "secret");
        ("X-TIDENT", JStr "tenant")].
Definition ticket_fields : list (string * json) :=
  [("ticketId", JInt 77); ("sm", JStr "prod/{type}/securiti/");
   ("dsp_form_title", JStr "Esquecimento");
   ("task_subtask", JArr [subtask_1; subtask_2; subtask_3])].
Definition channel_fields : list (string * json) :=
  [("googleChat", JStr "https://chat.example/hook");
   ("microsoftTeams", JStr "https://teams.example/hook")].
Definition token_fields : list (string * json) :=
  [("X-API-KEY", JStr "key"); ("X-API-SECRET", JStr "secret");
   ("X-TIDENT", JStr "tenant")].
Definition update_rejected : net_reply := Response 200 (js status_7_text).
Definition one_left : net_reply := Response 200 (js one_left_text).
Definition two_left : net_reply := Response 200 (js two_left_text).

(** [m], started in [w], ends with [r] in [w'] after the effects [t]. *)
Definition runs {A} (m : M A) (w : world) (r : outcome A) (w' : world)
    (t : list effect) : Prop :=
  m w = (r, w', t).

(** [m] leaves the two globals alone and never posts at [site]. *)
Definition inert {A} (site : call_site) (m : M A) : Prop :=
  forall w,
    data_dsr (world_of (m w)) = data_dsr w
    /\ data_subtask (world_of (m w)) = data_subtask w
    /\ posts_at site (trace_of (m w)) = O.

(** [m] posts at most [n] times at [site]. *)
Definition posts_bounded {A} (site : call_site) (n : nat) (m : M A) : Prop :=
  forall w, (posts_at site (trace_of (m w)) <= n)%nat.

(** [d.get(key)] on a dictionary. *)
Definition dict_get (d : list (string * json)) (key : string) : json :=
  match assoc key d with
  | Some v => v
  | None => JNull
  end.

(** The ticket [d] after [main] has loaded the secrets: the five keys the
    second [try] of [main] sets, in the order it sets them. *)
Definition loaded_dsr (rt : runtime) (d : list (string * json)) (sm : string)
    (channel token : list (string * json)) : list (string * json) :=
  assoc_set "secrets_header"
    (JObj [("X-API-KEY", dict_get token "X-API-KEY");
           ("X-API-SECRET", dict_get token "X-API-SECRET");
           ("X-TIDENT", dict_get token "X-TIDENT")])
    (assoc_set "microsoftTeams" (dict_get channel "microsoftTeams")
       (assoc_set "googleChat" (dict_get channel "googleChat")
          (assoc_set "enviroment"
             (JStr (if str_contains "uat" (str_replace "{type}" "dsr" sm)
                    then "UAT" else "PROD"))
             (assoc_set "lambda_name" (JStr (lambda_function_name rt)) d)))).

(** The secret at [path] holds the JSON text of the dictionary [d]. *)
Definition secret_is (rt : runtime) (w : world) (path : string)
    (d : list (string * json)) : Prop :=
  exists response secret_string,
    vault w path = SecretValue response
    /\ py_getitem response "SecretString" = Ret (JStr secret_string)
    /\ json_loads rt secret_string = inl (JObj d).

(** The inbound event carries the text of the ticket [d], whose secret
    path template is [sm]. *)
Definition event_is (rt : runtime) (event : json) (d : list (string * json))
    (sm : string) : Prop :=
  exists data,
    py_getitem event "data" = Ret (JStr data)
    /\ json_loads rt (str_replace "'" (String dquote EmptyString) data) = inl (JObj d)
    /\ assoc "sm" d = Some (JStr sm).

(** What [requests.post] hands back for a reply. *)
Definition reply_outcome (r : net_reply) : outcome response :=
  match r with
  | Response c t => Ret {| status_code := c; text := t |}
  | TimedOut t => raise_ ReqTimeout t
  | Failed t => raise_ ReqOther t
  end.

(** What [was_subtask_removed] hands back for a reply, in a world where
    it can build its payload. *)
Definition poll_outcome (rt : runtime) (r : net_reply) : outcome (bool * string) :=
  match r with
  | TimedOut _ => Ret (false, "Processing timeout")
  | Failed msg => Ret (false, msg)
  | Response c body_text =>
      if negb (c =? 200) then Ret (false, body_text)
      else
        match json_loads rt body_text with
        | inr msg =>
            if requests_wraps_json_error rt then Ret (false, msg)
            else raise_ JSONDecodeError msg
        | inl parsed =>
            match py_getitem parsed "data" with
            | Raise e => Raise e
            | Ret rows =>
                match py_getitem0 rows with
                | Raise e => Raise e
                | Ret row =>
                    match py_get row "total_subtasks" (JInt 0) with
                    | Raise e => Raise e
                    | Ret v =>
                        if py_eq_int v 1 then Ret (true, EmptyString)
                        else Ret (false, body_text)
                    end
                end
            end
        end
  end.

(** The exceptions of subscripting and attribute access. *)
Definition is_lookup_error (c : exn_class) : bool :=
  match c with
  | KeyError | IndexError | TypeError | AttributeError => true
  | _ => false
  end.

(* ------------------------------------------------------------------ *)
(** *** Further observations *)

Definition is_dict (v : json) : bool :=
  match v with JObj _ => true | _ => false end.

Definition is_str (v : json) : bool :=
  match v with JStr _ => true | _ => false end.


(** The local [error] of [update_subtask] after the retried replies
    [pre]: an HTTP error overwrites it, a timeout leaves it. *)
Fixpoint error_after (error : string) (pre : list net_reply) : string :=
  match pre with
  | [] => error
  | Response c body_text :: pre' =>
      error_after ("Error updating subtask. Status code: " ++ string_of_Z c
                     ++ ". Response: " ++ body_text) pre'
  | _ :: pre' => error_after error pre'
  end.

(** A ticket whose payload names a webhook of its own. *)
Definition meddling_world : world :=
  {| data_dsr := JObj [("sm", JStr "prod/{type}/securiti/");
                       ("googleChat", JStr "https://elsewhere.example/hook");
                       ("ticketId", JInt 78)];
     data_subtask := JObj []; network := []; vault := demo_vault |}.

(** A ticket with no subtask. *)
Definition idle_ticket_text : string :=
  "{'ticketId': 78, 'sm': 'prod/{type}/securiti/', 'task_subtask': []}".

Definition idle_ticket_fields : list (string * json) :=
  [("ticketId", JInt 78); ("sm", JStr "prod/{type}/securiti/");
   ("task_subtask", JArr [])].

(** The demo runtime with a decoder that also knows two texts that are
    no JSON object, and the ticket with no subtask. *)
Definition extra_loads (s : string) : json + string :=
  match assoc s [("[]", JArr []); ("null", JNull);
                 (js idle_ticket_text, JObj idle_ticket_fields)] with
  | Some v => inl v
  | None => demo_loads s
  end.

Definition extra_runtime : runtime :=
  {| RETRIES := 3; TIMEOUT := 30;
     lambda_function_name := "default_lambda";
     json_loads := extra_loads;
     requests_wraps_json_error := true;
     float_repr := demo_float_repr;
     str_repr := fun s => "'" ++ s ++ "'" |}.

(** Every exception [m] raises has a class in [P]. *)
Definition escapes_only {A} (P : exn_class -> bool) (m : M A) : Prop :=
  forall w e, result_of (m w) = Raise e -> P (exn_cls e) = true.

(** The classes that leave [update_subtask]: the lookup errors, and
    [json.JSONDecodeError] where [response.json()] raises it unwrapped. *)
Definition may_escape (rt : runtime) (c : exn_class) : bool :=
  is_lookup_error c
  || (negb (requests_wraps_json_error rt)
      && match c with JSONDecodeError => true | _ => false end).

(** The classes raised inside its [try] statements. *)
Definition may_raise_inside (rt : runtime) (c : exn_class) : bool :=
  may_escape rt c || is_request_exception c.

(** What the verification loop with [n] rounds left can show: nothing,
    or a poll that ends it, or a poll, the 5 second sleep, and what the
    rounds after it show. *)
Inductive polls_view : nat -> list step -> Prop :=
| polls_view_nil n : polls_view n []
| polls_view_last n : polls_view (S n) [DidPost VerifyCall]
| polls_view_round n v :
    polls_view n v -> polls_view (S n) (DidPost VerifyCall :: Slept 5 :: v).

(** What the outer loop with [n] passes left can show, when the
    verification loop has [r] rounds: nothing, or an update post followed
    by the verification loop, or an update post followed by the passes
    after it. *)
Inductive attempts_view (r : nat) : nat -> list step -> Prop :=
| attempts_view_nil n : attempts_view r n []
| attempts_view_polls n v :
    polls_view r v -> attempts_view r (S n) (DidPost UpdateCall :: v)
| attempts_view_again n v :
    attempts_view r n v -> attempts_view r (S n) (DidPost UpdateCall :: v).

(** The seconds slept in a view. *)
Fixpoint slept (v : list step) : Z :=
  match v with
  | [] => 0
  | Slept seconds :: v' => seconds + slept v'
  | _ :: v' => slept v'
  end.

(** What a post to the platform looks like while the ticket is [dsr] and
    the current subtask is [sub]: the headers are the ticket's
    [secrets_header], the timeout is [TIMEOUT], and it is the update of
    [sub] with the status 5 as body, or the query for the pair of ticket
    and task.  Other effects pass; a post to a webhook does not. *)
Definition platform_post (rt : runtime) (dsr sub : json) (e : effect) : Prop :=
  match e with
  | Post site url headers b timeout =>
      py_getitem dsr "secrets_header" = Ret headers
      /\ timeout = Some (TIMEOUT rt)
      /\ ((site = UpdateCall
           /\ exists subtask_id,
                py_getitem sub "subtask_id" = Ret subtask_id
                /\ url = JStr (GLOBAL_SECURITI_URL ++ "/privaci/v1/admin/dsr/subtasks/"
                                 ++ py_str rt subtask_id ++ "/response/")
                /\ b = JsonBody (JObj [("status", JInt 5)]))
          \/ (site = VerifyCall
              /\ exists ticket_id task_id,
                   py_getitem dsr "ticketId" = Ret ticket_id
                   /\ py_getitem sub "task_id" = Ret task_id
                   /\ url = JStr (GLOBAL_SECURITI_URL ++ "/reporting/v1/sources/query")
                   /\ b = JsonBody (verification_payload ticket_id task_id)))
  | _ => True
  end.

(** The demo runtime with the retry bound set to 0. *)
Definition impatient_runtime : runtime :=
  {| RETRIES := 0; TIMEOUT := 30;
     lambda_function_name := "default_lambda";
     json_loads := demo_loads;
     requests_wraps_json_error := true;
     float_repr := demo_float_repr;
     str_repr := fun s => "'" ++ s ++ "'" |}.

(* ================================================================== *)
(** ** Running the monad *)
(* ================================================================== *)

Section Running.

Context {A B : Type}.

Lemma runs_ret (a : A) w : runs (ret a) w (Ret a) w [].
Proof. reflexivity. Qed.

Lemma runs_lift (r : outcome A) w : runs (lift r) w r w [].
Proof. reflexivity. Qed.

Lemma runs_bind (m : M A) (k : A -> M B) w a w1 t1 r w2 t2 :
  runs m w (Ret a) w1 t1 ->
  runs (k a) w1 r w2 t2 ->
  runs (bind m k) w r w2 (t1 ++ t2)%list.
Proof.
  unfold runs, bind. intros Hm Hk. rewrite Hm, Hk. reflexivity.
Qed.

Lemma runs_bind_raise (m : M A) (k : A -> M B) w e w1 t1 :
  runs m w (Raise e) w1 t1 ->
  runs (bind m k) w (Raise e) w1 t1.
Proof.
  unfold runs, bind. intros Hm. rewrite Hm. reflexivity.
Qed.

Lemma runs_try_ret (m : M A) h w a w1 t1 :
  runs m w (Ret a) w1 t1 ->
  runs (try_except m h) w (Ret a) w1 t1.
Proof.
  unfold runs, try_except. intros Hm. rewrite Hm. reflexivity.
Qed.

Lemma runs_try_caught (m : M A) h k w e w1 t1 r w2 t2 :
  runs m w (Raise e) w1 t1 ->
  h e = Some k ->
  runs k w1 r w2 t2 ->
  runs (try_except m h) w r w2 (t1 ++ t2)%list.
Proof.
  unfold runs, try_except. intros Hm Hh Hk. rewrite Hm, Hh, Hk. reflexivity.
Qed.

Lemma runs_try_uncaught (m : M A) h w e w1 t1 :
  runs m w (Raise e) w1 t1 ->
  h e = None ->
  runs (try_except m h) w (Raise e) w1 t1.
Proof.
  unfold runs, try_except. intros Hm Hh. rewrite Hm, Hh. reflexivity.
Qed.

End Running.

Lemma view_app t1 t2 : view (t1 ++ t2) = (view t1 ++ view t2)%list.
Proof.
  induction t1 as [|e t1 IH]; simpl; [reflexivity|].
  destruct e; simpl; rewrite IH; reflexivity.
Qed.

Lemma posts_at_app site t1 t2 :
  posts_at site (t1 ++ t2) = (posts_at site t1 + posts_at site t2)%nat.
Proof.
  induction t1 as [|e t1 IH]; simpl; [reflexivity|].
  destruct e; simpl; try assumption.
  destruct (call_site_eqb site site0); simpl; rewrite IH; reflexivity.
Qed.

Lemma posts_at_view site t : posts_at site t = steps_at site (view t).
Proof.
  induction t as [|e t IH]; simpl; [reflexivity|].
  destruct e; simpl; try assumption.
  destruct (call_site_eqb site site0); rewrite IH; reflexivity.
Qed.

Lemma steps_at_repeat site site' n :
  call_site_eqb site site' = false ->
  steps_at site (repeat (DidPost site') n) = O.
Proof.
  intros H. induction n as [|n IH]; simpl; [reflexivity|].
  rewrite H. exact IH.
Qed.

Lemma timeout_or_non_2xx_retried r :
  timeout_or_non_2xx r = true -> retried r = true.
Proof.
  destruct r as [c body_text| |]; simpl; auto.
  intros H. apply negb_true_iff, Z.eqb_neq.
  apply orb_prop in H. destruct H as [H|H]; apply Z.ltb_lt in H; lia.
Qed.

Lemma has_key_getitem key v :
  has_key key v = true -> exists x, py_getitem v key = Ret x.
Proof.
  destruct v; simpl; try discriminate.
  destruct (assoc key fields); [eauto | discriminate].
Qed.

Lemma has_key_dictish key v : has_key key v = true -> dictish v = true.
Proof. destruct v; simpl; auto. Qed.

Lemma resolvable_loggable w : resolvable w = true -> loggable w = true.
Proof.
  unfold resolvable, loggable. intros H.
  repeat (apply andb_prop in H; destruct H as [H ?]).
  apply andb_true_intro; split; eapply has_key_dictish; eassumption.
Qed.

Section Primitives.

Variable rt : runtime.

Lemma safe_get_dictish d key : dictish d = true -> safe_get d key = Ret (field d key).
Proof.
  destruct d; simpl; try discriminate; intros _; [reflexivity|].
  unfold field; simpl. destruct (assoc key fields); reflexivity.
Qed.

Lemma runs_create_log_entry event status message kwargs w :
  loggable w = true ->
  runs (create_log_entry event status message kwargs) w
       (Ret (entry_of w event status message kwargs)) w [].
Proof.
  unfold loggable. intros H. apply andb_prop in H. destruct H as [Hd Hs].
  unfold runs, create_log_entry, bind, get_data_dsr, get_data_subtask, lift, ret.
  rewrite !(safe_get_dictish _ _ Hd), !(safe_get_dictish _ _ Hs).
  reflexivity.
Qed.

Lemma runs_log_event lvl event status message kwargs w :
  loggable w = true ->
  runs (log_event lvl event status message kwargs) w (Ret tt) w
       [Log lvl (entry_of w event status message kwargs)].
Proof.
  intros H. unfold log_event.
  change [Log lvl (entry_of w event status message kwargs)]
    with ([] ++ [Log lvl (entry_of w event status message kwargs)])%list.
  eapply runs_bind; [apply runs_create_log_entry; assumption | reflexivity].
Qed.

Lemma runs_requests_post site url headers b timeout w r rest :
  network w = r :: rest ->
  runs (requests_post site url headers b timeout) w (reply_outcome r) (pop_network w)
       [Post site url headers b timeout].
Proof.
  unfold runs, requests_post. intros H. rewrite H.
  destruct r; reflexivity.
Qed.

Lemma runs_response_json resp v w :
  json_loads rt (text resp) = inl v ->
  runs (response_json rt resp) w (Ret v) w [].
Proof.
  unfold runs, response_json. intros H. rewrite H. reflexivity.
Qed.

Lemma runs_response_json_wrapped resp msg w :
  json_loads rt (text resp) = inr msg ->
  requests_wraps_json_error rt = true ->
  runs (response_json rt resp) w (raise_ ReqJSONDecodeError msg) w [].
Proof.
  unfold runs, response_json. intros H Hw. rewrite H, Hw. reflexivity.
Qed.

Lemma runs_response_json_legacy resp msg w :
  json_loads rt (text resp) = inr msg ->
  requests_wraps_json_error rt = false ->
  runs (response_json rt resp) w (raise_ JSONDecodeError msg) w [].
Proof.
  unfold runs, response_json. intros H Hw. rewrite H, Hw. reflexivity.
Qed.

End Primitives.

(* ================================================================== *)
(** ** The verification client *)
(* ================================================================== *)

Lemma loggable_pop w : loggable (pop_network w) = loggable w.
Proof. reflexivity. Qed.

Lemma resolvable_pop w : resolvable (pop_network w) = resolvable w.
Proof. reflexivity. Qed.

Lemma runs_get_data_dsr w : runs get_data_dsr w (Ret (data_dsr w)) w [].
Proof. reflexivity. Qed.

Lemma runs_get_data_subtask w : runs get_data_subtask w (Ret (data_subtask w)) w [].
Proof. reflexivity. Qed.

Lemma runs_emit e w : runs (emit e) w (Ret tt) w [e].
Proof. reflexivity. Qed.

(** One step of a run: the head of a [bind] is a primitive whose run is
    known. *)
Ltac run_prim :=
  lazymatch goal with
  | |- runs (ret _) _ _ _ _ => apply runs_ret
  | |- runs (lift _) _ _ _ _ => apply runs_lift
  | |- runs get_data_dsr _ _ _ _ => apply runs_get_data_dsr
  | |- runs get_data_subtask _ _ _ _ => apply runs_get_data_subtask
  | |- runs (emit _) _ _ _ _ => apply runs_emit
  | |- runs (set_data_dsr _) _ _ _ _ => reflexivity
  | |- runs (set_data_subtask _) _ _ _ _ => reflexivity
  | |- runs (sleep _) _ _ _ _ => apply runs_emit
  | |- runs (log_event _ _ _ _ _) _ _ _ _ =>
      apply runs_log_event; rewrite ?loggable_pop; assumption
  | |- runs (create_log_entry _ _ _ _) _ _ _ _ =>
      apply runs_create_log_entry; rewrite ?loggable_pop; assumption
  | |- runs (requests_post _ _ _ _ _) ?w0 _ _ _ =>
      match goal with
      | Hn : network w0 = _ :: _ |- _ =>
          apply (runs_requests_post _ _ _ _ _ w0 _ _ Hn)
      end
  | |- runs (response_json _ _) _ _ _ _ =>
      eapply runs_response_json; eassumption
  end.

Ltac run_step :=
  cbv beta zeta;
  lazymatch goal with
  | |- runs (bind _ _) _ _ _ _ =>
      first [ eapply runs_bind; [ solve [run_prim] | cbv beta zeta ]
            | eapply runs_bind_raise; solve [run_prim] ]
  | |- _ => run_prim
  end.

Lemma lookup_error_uncaught c :
  is_lookup_error c = true ->
  is_timeout c = false /\ is_request_exception c = false.
Proof. destruct c; simpl; intros; try discriminate; auto. Qed.

Lemma py_getitem_raises v key e :
  py_getitem v key = Raise e -> is_lookup_error (exn_cls e) = true.
Proof.
  destruct v; simpl; try (intros [= <-]; reflexivity).
  destruct (assoc key fields); intros [= <-]; reflexivity.
Qed.

Lemma py_getitem0_raises v e :
  py_getitem0 v = Raise e -> is_lookup_error (exn_cls e) = true.
Proof.
  destruct v as [| | | |s|l|d]; simpl; try (intros [= <-]; reflexivity).
  - destruct s; intros [= <-]; reflexivity.
  - destruct l; intros [= <-]; reflexivity.
Qed.

Lemma py_get_raises v key d e :
  py_get v key d = Raise e -> is_lookup_error (exn_cls e) = true.
Proof.
  destruct v; simpl; try (intros [= <-]; reflexivity).
  destruct (assoc key fields); discriminate.
Qed.

Section Verification.

Variable rt : runtime.
Variables (w : world) (secrets : json) (r : net_reply) (rest : list net_reply).
Hypothesis Hticket : has_key "ticketId" (data_dsr w) = true.
Hypothesis Htask : has_key "task_id" (data_subtask w) = true.
Hypothesis Hnet : network w = r :: rest.

Let Hlog : loggable w = true.
Proof.
  unfold loggable. apply andb_true_intro.
  split; eapply has_key_dictish; eassumption.
Qed.

(** [was_subtask_removed] posts once, and what it hands back is
    [poll_outcome] of the reply. *)
Lemma poll_run :
  exists t, runs (was_subtask_removed rt secrets) w (poll_outcome rt r)
                 (with_network w rest) t
            /\ view t = [DidPost VerifyCall].
Proof.
  replace (with_network w rest) with (pop_network w)
    by (unfold pop_network; rewrite Hnet; reflexivity).
  destruct (has_key_getitem _ _ Hticket) as [tid Htid].
  destruct (has_key_getitem _ _ Htask) as [tk Htk].
  unfold was_subtask_removed.
  cbv zeta.
  destruct r as [c body_text | msg | msg]; simpl poll_outcome.
  - (* a response *)
    destruct (c =? 200) eqn:Hc; simpl negb; cbv iota.
    + destruct (json_loads rt body_text) as [parsed | msg] eqn:Hparse.
      * destruct (py_getitem parsed "data") as [rows | e] eqn:Hrows.
        -- destruct (py_getitem0 rows) as [row | e] eqn:Hrow.
           ++ destruct (py_get row "total_subtasks" (JInt 0)) as [v | e] eqn:Hv.
              ** destruct (py_eq_int v 1) eqn:Hone.
                 --- eexists. split.
                     +++ run_step. rewrite Htid. run_step. run_step. rewrite Htk. run_step.
                         apply runs_try_ret. run_step. simpl status_code. rewrite Hc.
                         simpl negb. cbv iota. simpl text. run_step. rewrite Hrows. run_step.
                         rewrite Hrow. run_step. rewrite Hv. run_step. rewrite Hone.
                         run_step. run_step.
                     +++ reflexivity.
                 --- eexists. split.
                     +++ run_step. rewrite Htid. run_step. run_step. rewrite Htk. run_step.
                         apply runs_try_ret. run_step. simpl status_code. rewrite Hc.
                         simpl negb. cbv iota. simpl text. run_step. rewrite Hrows. run_step.
                         rewrite Hrow. run_step. rewrite Hv. run_step. rewrite Hone.
                         run_step. run_step. run_step.
                     +++ reflexivity.
              ** destruct (lookup_error_uncaught _ (py_get_raises _ _ _ _ Hv)) as [Ht Hr].
                 eexists. split.
                 --- run_step. rewrite Htid. run_step. run_step. rewrite Htk. run_step.
                     apply runs_try_uncaught.
                     +++ run_step. simpl status_code. rewrite Hc.
                         simpl negb. cbv iota. simpl text. run_step. rewrite Hrows. run_step.
                         rewrite Hrow. run_step. rewrite Hv. run_step.
                     +++ rewrite Ht, Hr. reflexivity.
                 --- reflexivity.
           ++ destruct (lookup_error_uncaught _ (py_getitem0_raises _ _ Hrow)) as [Ht Hr].
              eexists. split.
              ** run_step. rewrite Htid. run_step. run_step. rewrite Htk. run_step.
                 apply runs_try_uncaught.
                 --- run_step. simpl status_code. rewrite Hc.
                     simpl negb. cbv iota. simpl text. run_step. rewrite Hrows. run_step.
                     rewrite Hrow. run_step.
                 --- rewrite Ht, Hr. reflexivity.
              ** reflexivity.
        -- destruct (lookup_error_uncaught _ (py_getitem_raises _ _ _ Hrows)) as [Ht Hr].
           eexists. split.
           ++ run_step. rewrite Htid. run_step. run_step. rewrite Htk. run_step.
              apply runs_try_uncaught.
              ** run_step. simpl status_code. rewrite Hc.
                 simpl negb. cbv iota. simpl text. run_step. rewrite Hrows. run_step.
              ** rewrite Ht, Hr. reflexivity.
           ++ reflexivity.
      * (* the body does not decode *)
        destruct (requests_wraps_json_error rt) eqn:Hwrap.
        -- eexists. split.
           ++ run_step. rewrite Htid. run_step. run_step. rewrite Htk. run_step.
              eapply runs_try_caught.
              ** run_step. simpl status_code. rewrite Hc. simpl negb. cbv iota.
                 eapply runs_bind_raise.
                 apply runs_response_json_wrapped; [exact Hparse | exact Hwrap].
              ** reflexivity.
              ** simpl exn_text. run_step. run_step.
           ++ reflexivity.
        -- eexists. split.
           ++ run_step. rewrite Htid. run_step. run_step. rewrite Htk. run_step.
              apply runs_try_uncaught.
              ** run_step. simpl status_code. rewrite Hc. simpl negb. cbv iota.
                 eapply runs_bind_raise.
                 apply runs_response_json_legacy; [exact Hparse | exact Hwrap].
              ** reflexivity.
           ++ reflexivity.
    + eexists. split.
      * run_step. rewrite Htid. run_step. run_step. rewrite Htk. run_step.
        apply runs_try_ret. run_step. simpl status_code. rewrite Hc.
        simpl negb. cbv iota. run_step. run_step.
      * reflexivity.
  - (* a timeout *)
    eexists. split.
    + run_step. rewrite Htid. run_step. run_step. rewrite Htk. run_step.
      eapply runs_try_caught.
      * run_step.
      * reflexivity.
      * run_step. run_step.
    + reflexivity.
  - (* another request exception *)
    eexists. split.
    + run_step. rewrite Htid. run_step. run_step. rewrite Htk. run_step.
      eapply runs_try_caught.
      * run_step.
      * reflexivity.
      * simpl exn_text. run_step. run_step.
    + reflexivity.
Qed.

End Verification.

Section PollOutcome.

Variable rt : runtime.

Lemma reported_total_outcome body_text v :
  reported_total rt body_text = Some v ->
  poll_outcome rt (Response 200 body_text)
  = if py_eq_int v 1 then Ret (true, EmptyString) else Ret (false, body_text).
Proof.
  unfold reported_total, poll_outcome. simpl.
  destruct (json_loads rt body_text) as [parsed|]; [|discriminate].
  destruct (py_getitem parsed "data") as [rows|]; [|discriminate].
  destruct (py_getitem0 rows) as [row|]; [|discriminate].
  destruct (py_get row "total_subtasks" (JInt 0)); [|discriminate].
  intros [= ->]. reflexivity.
Qed.

Lemma poll_outcome_confirms r :
  confirms rt r = true -> poll_outcome rt r = Ret (true, EmptyString).
Proof.
  intros H. destruct r as [c body_text| |]; simpl in H; try discriminate.
  apply andb_prop in H. destruct H as [Hc H].
  apply Z.eqb_eq in Hc. subst c.
  destruct (reported_total rt body_text) as [v|] eqn:Hv; [|discriminate].
  rewrite (reported_total_outcome _ _ Hv), H. reflexivity.
Qed.

Lemma poll_outcome_true r detail :
  poll_outcome rt r = Ret (true, detail) ->
  confirms rt r = true /\ detail = EmptyString.
Proof.
  destruct r as [c body_text| |]; simpl; try discriminate.
  destruct (c =? 200); simpl; [|discriminate].
  unfold reported_total.
  destruct (json_loads rt body_text) as [parsed|].
  - destruct (py_getitem parsed "data") as [rows|]; [|discriminate].
    destruct (py_getitem0 rows) as [row|]; [|discriminate].
    destruct (py_get row "total_subtasks" (JInt 0)) as [v|]; [|discriminate].
    destruct (py_eq_int v 1); [|discriminate].
    intros [= <-]. auto.
  - destruct (requests_wraps_json_error rt); discriminate.
Qed.

Lemma poll_outcome_misses r :
  misses rt r = true -> exists detail, poll_outcome rt r = Ret (false, detail).
Proof.
  intros H. destruct r as [c body_text| |]; simpl in H; [|simpl; eauto..].
  destruct (c =? 200) eqn:Hc; simpl in H.
  - apply Z.eqb_eq in Hc. subst c.
    destruct (reported_total rt body_text) as [v|] eqn:Hv; [|discriminate].
    rewrite (reported_total_outcome _ _ Hv).
    destruct (py_eq_int v 1); [discriminate | eauto].
  - unfold poll_outcome. rewrite Hc. simpl. eauto.
Qed.

End PollOutcome.

(** C6 -- one call of the verification query posts exactly once and
    classifies the reply: it returns [(True, empty)] if and only if the
    response status is 200 and the first data row's [total_subtasks] equals
    1; another count returns [(False, response text)]; a status other than
    200 returns [(False, response text)]; a timeout returns
    [(False, "Processing timeout")]; another transport exception returns
    [(False, exception text)].  The trace holds no second request and no
    sleep: nothing is retried at this layer. *)
Theorem C6_verification_query_contract rt w secrets r rest :
  has_key "ticketId" (data_dsr w) = true ->
  has_key "task_id" (data_subtask w) = true ->
  network w = r :: rest ->
  let run := was_subtask_removed rt secrets w in
  view (trace_of run) = [DidPost VerifyCall]
  /\ network (world_of run) = rest
  /\ (result_of run = Ret (true, EmptyString) <->
      exists body_text v,
        r = Response 200 body_text /\ reported_total rt body_text = Some v
        /\ py_eq_int v 1 = true)
  /\ (forall body_text v,
        r = Response 200 body_text -> reported_total rt body_text = Some v ->
        py_eq_int v 1 = false -> result_of run = Ret (false, body_text))
  /\ (forall c body_text,
        r = Response c body_text -> c <> 200 ->
        result_of run = Ret (false, body_text))
  /\ (forall msg, r = TimedOut msg ->
        result_of run = Ret (false, "Processing timeout"))
  /\ (forall msg, r = Failed msg -> result_of run = Ret (false, msg)).
Proof.
  intros Hticket Htask Hnet run.
  destruct (poll_run rt w secrets r rest Hticket Htask Hnet) as [t [Hrun Hview]].
  unfold runs in Hrun. subst run. rewrite Hrun.
  unfold trace_of, world_of, result_of. simpl.
  split; [exact Hview|]. split; [reflexivity|].
  split; [|split; [|split; [|split]]].
  - split.
    + intros H. apply poll_outcome_true in H. destruct H as [H _].
      destruct r as [c body_text| |]; simpl in H; try discriminate.
      apply andb_prop in H. destruct H as [Hc H]. apply Z.eqb_eq in Hc. subst c.
      destruct (reported_total rt body_text) as [v|] eqn:Hv; [|discriminate].
      exists body_text, v. auto.
    + intros [body_text [v [-> [Hv Hone]]]].
      rewrite (reported_total_outcome _ _ _ Hv), Hone. reflexivity.
  - intros body_text v -> Hv Hone.
    rewrite (reported_total_outcome _ _ _ Hv), Hone. reflexivity.
  - intros c body_text -> Hc. simpl. apply Z.eqb_neq in Hc. rewrite Hc. reflexivity.
  - intros msg ->. reflexivity.
  - intros msg ->. reflexivity.
Qed.

(* ================================================================== *)
(** ** The resolver: one pass of the outer loop *)
(* ================================================================== *)

(** Rewrite with the lookups that are known to succeed, then take one
    step. *)
Ltac run :=
  repeat match goal with
         | H : ?x = Ret _ |- context [lift ?x] => rewrite H
         end;
  run_step.

(** Push [view] through the appends of a trace. *)
Ltac view_norm :=
  repeat (rewrite view_app; simpl); simpl; rewrite ?app_nil_r.

Lemma resolvable_inv w :
  resolvable w = true ->
  loggable w = true
  /\ has_key "ticketId" (data_dsr w) = true
  /\ has_key "task_id" (data_subtask w) = true
  /\ (exists hdr, py_getitem (data_dsr w) "secrets_header" = Ret hdr)
  /\ (exists sid, py_getitem (data_subtask w) "subtask_id" = Ret sid).
Proof.
  intros H. pose proof (resolvable_loggable _ H) as Hlog.
  unfold resolvable in H.
  repeat (apply andb_prop in H; destruct H as [H ?]).
  repeat split; auto using has_key_getitem.
Qed.

Lemma pop_network_cons w r rest :
  network w = r :: rest -> pop_network w = with_network w rest.
Proof. unfold pop_network. intros ->. reflexivity. Qed.

Lemma update_status_inv rt body_text st :
  update_status rt body_text = Some st ->
  exists parsed, json_loads rt body_text = inl parsed
                 /\ py_get parsed "status" JNull = Ret st.
Proof.
  unfold update_status.
  destruct (json_loads rt body_text) as [parsed|]; [|discriminate].
  destruct (py_get parsed "status" JNull) eqn:Hst; [|discriminate].
  intros [= ->]. eauto.
Qed.

Section Attempt.

Variable rt : runtime.
Variables (w : world) (update_url : string) (body : json).
Variables (attempt : nat) (error : string).
Variables (r : net_reply) (rest : list net_reply).
Hypothesis Hres : resolvable w = true.
Hypothesis Hnet : network w = r :: rest.

Let Hlog : loggable w = true.
Proof. apply resolvable_loggable, Hres. Qed.

Let Hlog' : loggable (with_network w rest) = true.
Proof. apply Hlog. Qed.

(** A timeout on the update post: the pass ends and the loop goes on with
    the [error] it had. *)
Lemma attempt_timeout msg :
  r = TimedOut msg ->
  exists t, runs (update_attempt rt update_url body attempt error) w
                 (Ret (Continue error)) (with_network w rest) t
            /\ view t = [DidPost UpdateCall].
Proof.
  intros Hr. subst r.
  destruct (resolvable_inv _ Hres) as (_ & _ & _ & [hdr Hhdr] & _).
  rewrite <- (pop_network_cons _ _ _ Hnet) in *.
  eexists. split.
  - unfold update_attempt. eapply runs_try_caught.
    + run. run. run. run.
    + reflexivity.
    + run. run.
  - reflexivity.
Qed.

(** An HTTP status other than 200: the pass ends and the loop goes on with
    the status and the response text as [error]. *)
Lemma attempt_http_error c body_text :
  r = Response c body_text -> c <> 200 ->
  exists t, runs (update_attempt rt update_url body attempt error) w
                 (Ret (Continue ("Error updating subtask. Status code: "
                                   ++ string_of_Z c ++ ". Response: " ++ body_text)))
                 (with_network w rest) t
            /\ view t = [DidPost UpdateCall].
Proof.
  intros Hr Hc. subst r. apply Z.eqb_neq in Hc.
  destruct (resolvable_inv _ Hres) as (_ & _ & _ & [hdr Hhdr] & _).
  rewrite <- (pop_network_cons _ _ _ Hnet) in *.
  eexists. split.
  - unfold update_attempt. apply runs_try_ret.
    run. run. run. run. simpl status_code. rewrite Hc. cbv iota.
    run. run.
  - reflexivity.
Qed.

(** A request exception that is no timeout: the function returns failure
    with the exception text. *)
Lemma attempt_failed msg :
  r = Failed msg ->
  exists t, runs (update_attempt rt update_url body attempt error) w
                 (Ret (Return (false, msg))) (with_network w rest) t
            /\ view t = [DidPost UpdateCall].
Proof.
  intros Hr. subst r.
  destruct (resolvable_inv _ Hres) as (_ & _ & _ & [hdr Hhdr] & _).
  rewrite <- (pop_network_cons _ _ _ Hnet) in *.
  eexists. split.
  - unfold update_attempt. eapply runs_try_caught.
    + run. run. run. run.
    + reflexivity.
    + simpl exn_text. run. run.
  - reflexivity.
Qed.

(** HTTP 200 with a body status that is not 0: the function returns
    failure with the status in the detail, and nothing is polled. *)
Lemma attempt_rejected body_text st :
  r = Response 200 body_text ->
  update_status rt body_text = Some st -> py_eq_int st 0 = false ->
  exists t, runs (update_attempt rt update_url body attempt error) w
                 (Ret (Return (false, "API returned unexpected status: "
                                        ++ py_str rt st)))
                 (with_network w rest) t
            /\ view t = [DidPost UpdateCall].
Proof.
  intros Hr Hst Hzero. subst r.
  destruct (update_status_inv _ _ _ Hst) as (parsed & Hparse & Hget).
  destruct (resolvable_inv _ Hres) as (_ & _ & _ & [hdr Hhdr] & _).
  rewrite <- (pop_network_cons _ _ _ Hnet) in *.
  eexists. split.
  - unfold update_attempt. apply runs_try_ret.
    run. run. run. run. simpl status_code. change (200 =? 200) with true. cbv iota.
    run. run. rewrite Hzero. run. run. run. run.
  - reflexivity.
Qed.

Section Accepted.

Variables (body_text : string) (st : json).
Hypothesis Hr : r = Response 200 body_text.
Hypothesis Hst : update_status rt body_text = Some st.
Hypothesis Hzero : py_eq_int st 0 = true.
Variables (w' : world) (t' : list effect).

(** HTTP 200 with body status 0, and a poll of the verification loop
    confirms: the function returns success. *)
Lemma attempt_verified :
  runs (verification_polls rt (Z.to_nat (RETRIES rt)) O) (with_network w rest)
       (Ret true) w' t' ->
  exists t, runs (update_attempt rt update_url body attempt error) w
                 (Ret (Return (true, EmptyString))) w' t
            /\ view t = DidPost UpdateCall :: view t'.
Proof.
  intros Hpolls. subst r.
  destruct (update_status_inv _ _ _ Hst) as (parsed & Hparse & Hget).
  destruct (resolvable_inv _ Hres) as (_ & _ & _ & [hdr Hhdr] & _).
  pose proof (pop_network_cons _ _ _ Hnet) as Hpop.
  eexists. split.
  - unfold update_attempt. apply runs_try_ret.
    run. run. run. run. simpl status_code. change (200 =? 200) with true. cbv iota.
    run. run. rewrite Hzero. run.
    eapply runs_bind; [rewrite Hpop; exact Hpolls|]. cbv beta iota.
    run.
  - view_norm. reflexivity.
Qed.

(** HTTP 200 with body status 0, and the verification loop runs out: the
    function returns failure with the fixed detail. *)
Lemma attempt_exhausted :
  runs (verification_polls rt (Z.to_nat (RETRIES rt)) O) (with_network w rest)
       (Ret false) w' t' ->
  loggable w' = true ->
  exists t, runs (update_attempt rt update_url body attempt error) w
                 (Ret (Return (false, "Subtask not removed after retries."))) w' t
            /\ view t = DidPost UpdateCall :: view t'.
Proof.
  intros Hpolls Hlogw'. subst r.
  destruct (update_status_inv _ _ _ Hst) as (parsed & Hparse & Hget).
  destruct (resolvable_inv _ Hres) as (_ & _ & _ & [hdr Hhdr] & _).
  pose proof (pop_network_cons _ _ _ Hnet) as Hpop.
  eexists. split.
  - unfold update_attempt. apply runs_try_ret.
    run. run. run. run. simpl status_code. change (200 =? 200) with true. cbv iota.
    run. run. rewrite Hzero. run.
    eapply runs_bind; [rewrite Hpop; exact Hpolls|]. cbv beta iota.
    run. run.
  - view_norm. reflexivity.
Qed.

(** HTTP 200 with body status 0, and a poll raises an exception that is
    no request exception: no [except] clause of the resolver takes it. *)
Lemma attempt_poll_raises e :
  runs (verification_polls rt (Z.to_nat (RETRIES rt)) O) (with_network w rest)
       (Raise e) w' t' ->
  is_request_exception (exn_cls e) = false ->
  exists t, runs (update_attempt rt update_url body attempt error) w
                 (Raise e) w' t
            /\ view t = DidPost UpdateCall :: view t'.
Proof.
  intros Hpolls He. subst r.
  assert (is_timeout (exn_cls e) = false) as Ht
    by (destruct (exn_cls e); simpl in *; congruence).
  destruct (update_status_inv _ _ _ Hst) as (parsed & Hparse & Hget).
  destruct (resolvable_inv _ Hres) as (_ & _ & _ & [hdr Hhdr] & _).
  pose proof (pop_network_cons _ _ _ Hnet) as Hpop.
  eexists. split.
  - unfold update_attempt. apply runs_try_uncaught.
    + run. run. run. run. simpl status_code. change (200 =? 200) with true. cbv iota.
      run. run. rewrite Hzero. run.
      eapply runs_bind_raise. rewrite Hpop. exact Hpolls.
    + rewrite Ht, He. reflexivity.
  - view_norm. reflexivity.
Qed.

End Accepted.

End Attempt.

(* ================================================================== *)
(** ** The two loops of the resolver *)
(* ================================================================== *)

Section Loops.

Variable rt : runtime.

(** A poll that misses: log, sleep 5, next round. *)
Lemma polls_step_miss w r rest n k res w' t :
  resolvable w = true -> network w = r :: rest -> misses rt r = true ->
  runs (verification_polls rt n (S k)) (with_network w rest) res w' t ->
  exists t0, runs (verification_polls rt (S n) k) w res w' t0
             /\ view t0 = DidPost VerifyCall :: Slept 5 :: view t.
Proof.
  intros Hres Hnet Hmiss Hrest.
  destruct (resolvable_inv _ Hres) as (Hlog & Hticket & Htask & [hdr Hhdr] & _).
  destruct (poll_outcome_misses _ _ Hmiss) as [detail Hout].
  destruct (poll_run rt w hdr r rest Hticket Htask Hnet) as [tp [Hpoll Hvp]].
  rewrite Hout in Hpoll.
  assert (loggable (with_network w rest) = true) as Hlog' by exact Hlog.
  eexists. split.
  - simpl verification_polls. run. run.
    eapply runs_bind; [exact Hpoll|]. cbv beta. simpl fst. cbv iota.
    run. run. exact Hrest.
  - view_norm. rewrite Hvp. reflexivity.
Qed.

(** A poll that confirms: the loop ends with success. *)
Lemma polls_step_confirm w r rest n k :
  resolvable w = true -> network w = r :: rest -> confirms rt r = true ->
  exists t, runs (verification_polls rt (S n) k) w (Ret true)
                 (with_network w rest) t
            /\ view t = [DidPost VerifyCall].
Proof.
  intros Hres Hnet Hconf.
  destruct (resolvable_inv _ Hres) as (Hlog & Hticket & Htask & [hdr Hhdr] & _).
  destruct (poll_run rt w hdr r rest Hticket Htask Hnet) as [tp [Hpoll Hvp]].
  rewrite (poll_outcome_confirms _ _ Hconf) in Hpoll.
  assert (loggable (with_network w rest) = true) as Hlog' by exact Hlog.
  eexists. split.
  - simpl verification_polls. run. run.
    eapply runs_bind; [exact Hpoll|]. cbv beta. simpl fst. cbv iota.
    run. run.
  - view_norm. rewrite Hvp. reflexivity.
Qed.

(** A poll that raises: the loop raises. *)
Lemma polls_step_raise w r rest n k e :
  resolvable w = true -> network w = r :: rest ->
  poll_outcome rt r = Raise e ->
  exists t, runs (verification_polls rt (S n) k) w (Raise e)
                 (with_network w rest) t
            /\ view t = [DidPost VerifyCall].
Proof.
  intros Hres Hnet Hout.
  destruct (resolvable_inv _ Hres) as (Hlog & Hticket & Htask & [hdr Hhdr] & _).
  destruct (poll_run rt w hdr r rest Hticket Htask Hnet) as [tp [Hpoll Hvp]].
  rewrite Hout in Hpoll.
  eexists. split.
  - simpl verification_polls. run. run.
    eapply runs_bind_raise. exact Hpoll.
  - view_norm. rewrite Hvp. reflexivity.
Qed.

(** A run of misses in front of the loop. *)
Lemma polls_misses_then polls : forall w k rest n res w' t,
  resolvable w = true -> forallb (misses rt) polls = true ->
  network w = (polls ++ rest)%list ->
  runs (verification_polls rt n (k + List.length polls)%nat) (with_network w rest) res w' t ->
  exists t0, runs (verification_polls rt (List.length polls + n)%nat k) w res w' t0
             /\ view t0 = (missed_rounds (List.length polls) ++ view t)%list.
Proof.
  induction polls as [|r polls IH]; intros w k rest n res w' t Hres Hall Hnet Hrest.
  - simpl in *. rewrite Nat.add_0_r in Hrest.
    destruct w as [d s net v]. simpl in Hnet. subst net.
    exists t. split; [exact Hrest | reflexivity].
  - simpl in Hall. apply andb_prop in Hall. destruct Hall as [Hmiss Hall].
    simpl in Hnet. simpl List.length in *.
    rewrite Nat.add_succ_r in Hrest.
    destruct (IH (with_network w (polls ++ rest)%list) (S k) rest n res w' t)
      as [t1 [Hrun1 Hv1]]; auto.
    destruct (polls_step_miss w r (polls ++ rest)%list (List.length polls + n)%nat k
                res w' t1 Hres Hnet Hmiss Hrun1) as [t0 [Hrun0 Hv0]].
    exists t0. split; [exact Hrun0|].
    rewrite Hv0, Hv1. reflexivity.
Qed.

Variables (update_url : string) (body : json).

(** One retried reply in front of the outer loop. *)
Lemma attempts_step_retried w r rest a error :
  resolvable w = true -> network w = r :: rest -> retried r = true ->
  exists error', forall n res w' t,
    runs (update_attempts rt update_url body n (S a) error')
         (with_network w rest) res w' t ->
    exists t0, runs (update_attempts rt update_url body (S n) a error) w res w' t0
               /\ view t0 = DidPost UpdateCall :: view t.
Proof.
  intros Hres Hnet Hretry.
  destruct r as [c body_text | msg | msg]; simpl in Hretry; try discriminate.
  - apply negb_true_iff, Z.eqb_neq in Hretry.
    destruct (attempt_http_error rt w update_url body a error _ rest Hres Hnet
                c body_text eq_refl Hretry) as [ta [Ha Hva]].
    eexists. intros n res w' t Hrest. eexists. split.
    + simpl update_attempts. eapply runs_bind; [exact Ha|]. cbv beta iota.
      exact Hrest.
    + view_norm. rewrite Hva. reflexivity.
  - destruct (attempt_timeout rt w update_url body a error _ rest Hres Hnet
                msg eq_refl) as [ta [Ha Hva]].
    eexists. intros n res w' t Hrest. eexists. split.
    + simpl update_attempts. eapply runs_bind; [exact Ha|]. cbv beta iota.
      exact Hrest.
    + view_norm. rewrite Hva. reflexivity.
Qed.

(** A run of retried replies in front of the outer loop. *)
Lemma attempts_retried_then pre : forall w a error rest,
  resolvable w = true -> forallb retried pre = true ->
  network w = (pre ++ rest)%list ->
  exists error', forall n res w' t,
    runs (update_attempts rt update_url body n (a + List.length pre)%nat error')
         (with_network w rest) res w' t ->
    exists t0, runs (update_attempts rt update_url body (List.length pre + n)%nat a error)
                    w res w' t0
               /\ view t0 = (repeat (DidPost UpdateCall) (List.length pre) ++ view t)%list.
Proof.
  induction pre as [|r pre IH]; intros w a error rest Hres Hall Hnet.
  - exists error. intros n res w' t Hrest.
    simpl in *. rewrite Nat.add_0_r in Hrest.
    destruct w as [d s net v]. simpl in Hnet. subst net.
    exists t. split; [exact Hrest | reflexivity].
  - simpl in Hall. apply andb_prop in Hall. destruct Hall as [Hretry Hall].
    simpl in Hnet.
    destruct (attempts_step_retried w r (pre ++ rest)%list a error Hres Hnet Hretry)
      as [error1 Hstep].
    destruct (IH (with_network w (pre ++ rest)%list) (S a) error1 rest)
      as [error' Hrec]; auto.
    exists error'. intros n res w' t Hrest.
    simpl List.length in *. rewrite Nat.add_succ_r in Hrest.
    destruct (Hrec n res w' t Hrest) as [t1 [Hrun1 Hv1]].
    destruct (Hstep (List.length pre + n)%nat res w' t1 Hrun1) as [t0 [Hrun0 Hv0]].
    exists t0. split; [exact Hrun0|].
    rewrite Hv0, Hv1. reflexivity.
Qed.

End Loops.

(** [update_subtask] after a run of retried replies that leaves [n] more
    passes. *)
Lemma update_subtask_retried_then rt pre w rest n :
  resolvable w = true -> forallb retried pre = true ->
  network w = (pre ++ rest)%list ->
  Z.to_nat (RETRIES rt) = (List.length pre + n)%nat ->
  exists url error', forall res w' t,
    runs (update_attempts rt url (JObj [("status", JInt 5)]) n (List.length pre) error')
         (with_network w rest) res w' t ->
    exists t0, runs (update_subtask rt) w res w' t0
               /\ view t0 = (repeat (DidPost UpdateCall) (List.length pre) ++ view t)%list.
Proof.
  intros Hres Hall Hnet Hn.
  destruct (resolvable_inv _ Hres) as (Hlog & _ & _ & _ & [sid Hsid]).
  exists (GLOBAL_SECURITI_URL ++ "/privaci/v1/admin/dsr/subtasks/"
            ++ py_str rt sid ++ "/response/").
  destruct (attempts_retried_then rt
              (GLOBAL_SECURITI_URL ++ "/privaci/v1/admin/dsr/subtasks/"
                 ++ py_str rt sid ++ "/response/")
              (JObj [("status", JInt 5)]) pre w O EmptyString rest Hres Hall Hnet)
    as [error' Hrec].
  exists error'. intros res w' t Hrest.
  destruct (Hrec n res w' t Hrest) as [t0 [Hrun0 Hv0]].
  eexists. split.
  - unfold update_subtask. run. run. rewrite Hn. exact Hrun0.
  - view_norm. exact Hv0.
Qed.

Section Resolver.

Variable rt : runtime.

Lemma accepted_inv r :
  accepted rt r = true ->
  exists body_text st,
    r = Response 200 body_text /\ update_status rt body_text = Some st
    /\ py_eq_int st 0 = true.
Proof.
  intros H. destruct r as [c body_text| |]; simpl in H; try discriminate.
  apply andb_prop in H. destruct H as [Hc H].
  apply Z.eqb_eq in Hc. subst c.
  destruct (update_status rt body_text) as [st|] eqn:Hst; [|discriminate].
  exists body_text, st. auto.
Qed.

Lemma other_count_misses r : other_count rt r = true -> misses rt r = true.
Proof.
  intros H. destruct r; simpl in *; auto. rewrite H. apply orb_true_r.
Qed.

Lemma transport_failure_misses r : transport_failure r = true -> misses rt r = true.
Proof. destruct r; simpl; auto; discriminate. Qed.

Lemma forallb_impl {X} (p q : X -> bool) l :
  (forall x, p x = true -> q x = true) ->
  forallb p l = true -> forallb q l = true.
Proof.
  intros Hpq. induction l as [|x l IH]; simpl; [reflexivity|].
  intros H. apply andb_prop in H. destruct H as [Hx Hl].
  rewrite (Hpq _ Hx), (IH Hl). reflexivity.
Qed.

Variables (update_url : string) (body : json).

(** The pass returned from the function. *)
Lemma attempts_return w n a error result w' t :
  runs (update_attempt rt update_url body a error) w (Ret (Return result)) w' t ->
  runs (update_attempts rt update_url body (S n) a error) w (Ret result) w' (t ++ [])%list.
Proof.
  intros H. simpl update_attempts.
  eapply runs_bind; [exact H|]. apply runs_ret.
Qed.

(** The pass raised. *)
Lemma attempts_raise w n a error e w' t :
  runs (update_attempt rt update_url body a error) w (Raise e) w' t ->
  runs (update_attempts rt update_url body (S n) a error) w (Raise e) w' t.
Proof.
  intros H. simpl update_attempts. apply runs_bind_raise. exact H.
Qed.

(** No pass is left: the two lines after the loop. *)
Lemma attempts_none w a error :
  loggable w = true ->
  exists t, runs (update_attempts rt update_url body O a error) w
                 (Ret (false, error)) w t
            /\ view t = [].
Proof.
  intros Hlog. eexists. split.
  - simpl update_attempts. run. run.
  - reflexivity.
Qed.

End Resolver.

(** From a run to the three projections of it. *)
Lemma runs_projections {A} (m : M A) w r w' t :
  runs m w r w' t ->
  result_of (m w) = r /\ world_of (m w) = w' /\ trace_of (m w) = t.
Proof. unfold runs. intros ->. auto. Qed.

(** C5, for HTTP 200 where the specification says 2xx -- when the update call
    returns HTTP 200 with body status 0 and the first verification poll
    reports [total_subtasks] equal to 1, [update_subtask] returns success
    with an empty detail after exactly one update post and one verification
    post, and it never sleeps. *)
Theorem C5_first_poll_confirms rt w update poll rest :
  resolvable w = true ->
  0 < RETRIES rt ->
  network w = update :: poll :: rest ->
  accepted rt update = true ->
  confirms rt poll = true ->
  let run := update_subtask rt w in
  result_of run = Ret (true, EmptyString)
  /\ view (trace_of run) = [DidPost UpdateCall; DidPost VerifyCall]
  /\ network (world_of run) = rest.
Proof.
  intros Hres Hretries Hnet Hacc Hconf run.
  destruct (accepted_inv _ _ Hacc) as (body_text & st & -> & Hst & Hzero).
  destruct (Z.to_nat (RETRIES rt)) as [|n] eqn:Hn; [lia|].
  destruct (update_subtask_retried_then rt [] w (Response 200 body_text :: poll :: rest)
              (S n) Hres eq_refl Hnet Hn) as (url & error' & Hthen).
  set (w0 := with_network w (Response 200 body_text :: poll :: rest)) in *.
  assert (resolvable w0 = true) as Hres0 by exact Hres.
  assert (resolvable (with_network w0 (poll :: rest)) = true) as Hres1 by exact Hres.
  destruct (polls_step_confirm rt (with_network w0 (poll :: rest)) poll rest n O
              Hres1 eq_refl Hconf) as [tp [Hpolls Hvp]].
  rewrite <- Hn in Hpolls.
  destruct (attempt_verified rt w0 url (JObj [("status", JInt 5)]) O error'
              _ (poll :: rest) Hres0 eq_refl body_text st eq_refl Hst Hzero
              _ _ Hpolls) as [ta [Ha Hva]].
  destruct (Hthen _ _ _ (attempts_return rt url _ w0 n O error' _ _ _ Ha))
    as [t0 [Hrun Hv0]].
  apply runs_projections in Hrun. destruct Hrun as (Hr & Hw & Ht).
  subst run. rewrite Hr, Hw, Ht, Hv0. view_norm. rewrite Hva, Hvp.
  repeat split.
Qed.

Lemma repeat_snoc_app {X} (x : X) n l :
  (repeat x n ++ x :: l)%list = (repeat x (S n) ++ l)%list.
Proof.
  induction n as [|n IH]; simpl; [reflexivity|]. rewrite IH. reflexivity.
Qed.

Section Resolutions.

Variable rt : runtime.
Variables (w : world) (pre : list net_reply) (update : net_reply).
Hypothesis Hres : resolvable w = true.
Hypothesis Hpre : forallb retried pre = true.
Hypothesis Hlen : (List.length pre < Z.to_nat (RETRIES rt))%nat.
Hypothesis Hacc : accepted rt update = true.

(** Accepted after the retried replies [pre], then every poll misses. *)
Lemma resolve_exhausted polls rest :
  forallb (misses rt) polls = true ->
  List.length polls = Z.to_nat (RETRIES rt) ->
  network w = (pre ++ update :: polls ++ rest)%list ->
  exists t, runs (update_subtask rt) w
                 (Ret (false, "Subtask not removed after retries."))
                 (with_network w rest) t
            /\ view t = (repeat (DidPost UpdateCall) (S (List.length pre))
                           ++ missed_rounds (Z.to_nat (RETRIES rt)))%list.
Proof.
  intros Hmiss Hpolls Hnet.
  destruct (accepted_inv _ _ Hacc) as (body_text & st & -> & Hst & Hzero).
  assert (exists n, Z.to_nat (RETRIES rt) = (List.length pre + S n)%nat) as [n Hn]
    by (exists (Z.to_nat (RETRIES rt) - List.length pre - 1)%nat; lia).
  destruct (update_subtask_retried_then rt pre w _ (S n) Hres Hpre Hnet Hn)
    as (url & error' & Hthen).
  set (w0 := with_network w (Response 200 body_text :: polls ++ rest)%list) in *.
  set (w1 := with_network w0 (polls ++ rest)%list).
  assert (resolvable w0 = true) as Hres0 by exact Hres.
  assert (resolvable w1 = true) as Hres1 by exact Hres.
  destruct (polls_misses_then rt polls w1 O rest O (Ret false) (with_network w1 rest) []
              Hres1 Hmiss eq_refl (runs_ret _ _)) as [tp [Hp Hvp]].
  rewrite Nat.add_0_r, Hpolls in Hp.
  destruct (attempt_exhausted rt w0 url (JObj [("status", JInt 5)]) (List.length pre)
              error' _ (polls ++ rest)%list Hres0 eq_refl body_text st eq_refl
              Hst Hzero _ _ Hp (resolvable_loggable _ Hres)) as [ta [Ha Hva]].
  destruct (Hthen _ _ _ (attempts_return rt url _ w0 n _ error' _ _ _ Ha))
    as [t0 [Hrun Hv0]].
  exists t0. split; [exact Hrun|].
  rewrite Hv0. view_norm. rewrite Hva, Hvp, Hpolls. simpl. rewrite app_nil_r.
  apply (repeat_snoc_app (DidPost UpdateCall)).
Qed.

(** Accepted after the retried replies [pre], then the polls [polls] miss
    and the next one, still within the bound, answers. *)
Section NextPoll.

Variables (polls : list net_reply) (poll : net_reply) (rest : list net_reply).
Hypothesis Hmiss : forallb (misses rt) polls = true.
Hypothesis Hpolls : (List.length polls < Z.to_nat (RETRIES rt))%nat.
Hypothesis Hnet : network w = (pre ++ update :: polls ++ poll :: rest)%list.

Lemma resolve_confirmed :
  confirms rt poll = true ->
  exists t, runs (update_subtask rt) w (Ret (true, EmptyString))
                 (with_network w rest) t
            /\ view t = (repeat (DidPost UpdateCall) (S (List.length pre))
                           ++ missed_rounds (List.length polls)
                           ++ [DidPost VerifyCall])%list.
Proof.
  intros Hconf.
  destruct (accepted_inv _ _ Hacc) as (body_text & st & -> & Hst & Hzero).
  assert (exists n, Z.to_nat (RETRIES rt) = (List.length pre + S n)%nat) as [n Hn]
    by (exists (Z.to_nat (RETRIES rt) - List.length pre - 1)%nat; lia).
  assert (exists m, Z.to_nat (RETRIES rt) = (List.length polls + S m)%nat) as [m Hm]
    by (exists (Z.to_nat (RETRIES rt) - List.length polls - 1)%nat; lia).
  destruct (update_subtask_retried_then rt pre w _ (S n) Hres Hpre Hnet Hn)
    as (url & error' & Hthen).
  set (w0 := with_network w (Response 200 body_text :: polls ++ poll :: rest)%list) in *.
  set (w1 := with_network w0 (polls ++ poll :: rest)%list).
  set (w2 := with_network w1 (poll :: rest)).
  assert (resolvable w0 = true) as Hres0 by exact Hres.
  assert (resolvable w1 = true) as Hres1 by exact Hres.
  assert (resolvable w2 = true) as Hres2 by exact Hres.
  destruct (polls_step_confirm rt w2 poll rest m (0 + List.length polls)
              Hres2 eq_refl Hconf) as [tc [Hc Hvc]].
  destruct (polls_misses_then rt polls w1 O (poll :: rest) (S m) _ _ _
              Hres1 Hmiss eq_refl Hc) as [tp [Hp Hvp]].
  rewrite <- Hm in Hp.
  destruct (attempt_verified rt w0 url (JObj [("status", JInt 5)]) (List.length pre)
              error' _ (polls ++ poll :: rest)%list Hres0 eq_refl body_text st eq_refl
              Hst Hzero _ _ Hp) as [ta [Ha Hva]].
  destruct (Hthen _ _ _ (attempts_return rt url _ w0 n _ error' _ _ _ Ha))
    as [t0 [Hrun Hv0]].
  exists t0. split; [exact Hrun|].
  rewrite Hv0. view_norm. rewrite Hva, Hvp, Hvc.
  apply (repeat_snoc_app (DidPost UpdateCall)).
Qed.

Lemma resolve_poll_raises e :
  poll_outcome rt poll = Raise e ->
  is_request_exception (exn_cls e) = false ->
  exists t, runs (update_subtask rt) w (Raise e) (with_network w rest) t
            /\ view t = (repeat (DidPost UpdateCall) (S (List.length pre))
                           ++ missed_rounds (List.length polls)
                           ++ [DidPost VerifyCall])%list.
Proof.
  intros Hout He.
  destruct (accepted_inv _ _ Hacc) as (body_text & st & -> & Hst & Hzero).
  assert (exists n, Z.to_nat (RETRIES rt) = (List.length pre + S n)%nat) as [n Hn]
    by (exists (Z.to_nat (RETRIES rt) - List.length pre - 1)%nat; lia).
  assert (exists m, Z.to_nat (RETRIES rt) = (List.length polls + S m)%nat) as [m Hm]
    by (exists (Z.to_nat (RETRIES rt) - List.length polls - 1)%nat; lia).
  destruct (update_subtask_retried_then rt pre w _ (S n) Hres Hpre Hnet Hn)
    as (url & error' & Hthen).
  set (w0 := with_network w (Response 200 body_text :: polls ++ poll :: rest)%list) in *.
  set (w1 := with_network w0 (polls ++ poll :: rest)%list).
  set (w2 := with_network w1 (poll :: rest)).
  assert (resolvable w0 = true) as Hres0 by exact Hres.
  assert (resolvable w1 = true) as Hres1 by exact Hres.
  assert (resolvable w2 = true) as Hres2 by exact Hres.
  destruct (polls_step_raise rt w2 poll rest m (0 + List.length polls) e
              Hres2 eq_refl Hout) as [tc [Hc Hvc]].
  destruct (polls_misses_then rt polls w1 O (poll :: rest) (S m) _ _ _
              Hres1 Hmiss eq_refl Hc) as [tp [Hp Hvp]].
  rewrite <- Hm in Hp.
  destruct (attempt_poll_raises rt w0 url (JObj [("status", JInt 5)]) (List.length pre)
              error' _ (polls ++ poll :: rest)%list Hres0 eq_refl body_text st eq_refl
              Hst Hzero _ _ e Hp He) as [ta [Ha Hva]].
  destruct (Hthen _ _ _ (attempts_raise rt url _ w0 n _ error' _ _ _ Ha))
    as [t0 [Hrun Hv0]].
  exists t0. split; [exact Hrun|].
  rewrite Hv0, Hva, Hvp, Hvc.
  apply (repeat_snoc_app (DidPost UpdateCall)).
Qed.

End NextPoll.

End Resolutions.

Section UpdateFailures.

Variable rt : runtime.
Variables (w : world) (pre rest : list net_reply).
Hypothesis Hres : resolvable w = true.
Hypothesis Hpre : forallb retried pre = true.

(** Every pass of the outer loop is retried: the loop runs out. *)
Lemma resolve_all_retried :
  List.length pre = Z.to_nat (RETRIES rt) ->
  network w = (pre ++ rest)%list ->
  exists detail t,
    runs (update_subtask rt) w (Ret (false, detail)) (with_network w rest) t
    /\ view t = repeat (DidPost UpdateCall) (Z.to_nat (RETRIES rt)).
Proof.
  intros Hlen Hnet.
  assert (Z.to_nat (RETRIES rt) = (List.length pre + 0)%nat) as Hn by lia.
  destruct (update_subtask_retried_then rt pre w rest O Hres Hpre Hnet Hn)
    as (url & error' & Hthen).
  destruct (attempts_none rt url (JObj [("status", JInt 5)]) (with_network w rest)
              (List.length pre) error' (resolvable_loggable _ Hres)) as [tn [Hrun Hvn]].
  destruct (Hthen _ _ _ Hrun) as [t0 [Hrun0 Hv0]].
  exists error', t0. split; [exact Hrun0|].
  rewrite Hv0, Hvn, app_nil_r, Hlen. reflexivity.
Qed.

Hypothesis Hlen : (List.length pre < Z.to_nat (RETRIES rt))%nat.

(** A request exception that is no timeout ends the function at once. *)
Lemma resolve_failed msg :
  network w = (pre ++ Failed msg :: rest)%list ->
  exists t, runs (update_subtask rt) w (Ret (false, msg)) (with_network w rest) t
            /\ view t = repeat (DidPost UpdateCall) (S (List.length pre)).
Proof.
  intros Hnet.
  assert (exists n, Z.to_nat (RETRIES rt) = (List.length pre + S n)%nat) as [n Hn]
    by (exists (Z.to_nat (RETRIES rt) - List.length pre - 1)%nat; lia).
  destruct (update_subtask_retried_then rt pre w _ (S n) Hres Hpre Hnet Hn)
    as (url & error' & Hthen).
  set (w0 := with_network w (Failed msg :: rest)) in *.
  assert (resolvable w0 = true) as Hres0 by exact Hres.
  destruct (attempt_failed rt w0 url (JObj [("status", JInt 5)]) (List.length pre)
              error' _ rest Hres0 eq_refl msg eq_refl) as [ta [Ha Hva]].
  destruct (Hthen _ _ _ (attempts_return rt url _ w0 n _ error' _ _ _ Ha))
    as [t0 [Hrun Hv0]].
  exists t0. split; [exact Hrun|].
  rewrite Hv0. view_norm. rewrite Hva.
  rewrite (repeat_snoc_app (DidPost UpdateCall)). apply app_nil_r.
Qed.

(** HTTP 200 with a body status that is not 0 ends the function at once. *)
Lemma resolve_rejected body_text st :
  network w = (pre ++ Response 200 body_text :: rest)%list ->
  update_status rt body_text = Some st -> py_eq_int st 0 = false ->
  exists t, runs (update_subtask rt) w
                 (Ret (false, "API returned unexpected status: " ++ py_str rt st))
                 (with_network w rest) t
            /\ view t = repeat (DidPost UpdateCall) (S (List.length pre)).
Proof.
  intros Hnet Hst Hzero.
  assert (exists n, Z.to_nat (RETRIES rt) = (List.length pre + S n)%nat) as [n Hn]
    by (exists (Z.to_nat (RETRIES rt) - List.length pre - 1)%nat; lia).
  destruct (update_subtask_retried_then rt pre w _ (S n) Hres Hpre Hnet Hn)
    as (url & error' & Hthen).
  set (w0 := with_network w (Response 200 body_text :: rest)) in *.
  assert (resolvable w0 = true) as Hres0 by exact Hres.
  destruct (attempt_rejected rt w0 url (JObj [("status", JInt 5)]) (List.length pre)
              error' _ rest Hres0 eq_refl body_text st eq_refl Hst Hzero)
    as [ta [Ha Hva]].
  destruct (Hthen _ _ _ (attempts_return rt url _ w0 n _ error' _ _ _ Ha))
    as [t0 [Hrun Hv0]].
  exists t0. split; [exact Hrun|].
  rewrite Hv0. view_norm. rewrite Hva.
  rewrite (repeat_snoc_app (DidPost UpdateCall)). apply app_nil_r.
Qed.

End UpdateFailures.

(** C1, for HTTP 200 where the specification says 2xx -- once an update post is
    answered with HTTP 200 and body status 0 (after earlier passes that
    timed out or got another HTTP status, if any) and each of the next
    [RETRIES] verification replies reports a [total_subtasks] other than
    1, [update_subtask] returns failure with the detail
    "Subtask not removed after retries.".  After the accepted update post
    the trace holds exactly [RETRIES] verification posts, each followed by
    a sleep of 5, and no further update post. *)
Theorem C1_verification_exhausted rt w pre update polls rest :
  resolvable w = true ->
  forallb retried pre = true ->
  (List.length pre < Z.to_nat (RETRIES rt))%nat ->
  accepted rt update = true ->
  forallb (other_count rt) polls = true ->
  List.length polls = Z.to_nat (RETRIES rt) ->
  network w = (pre ++ update :: polls ++ rest)%list ->
  let run := update_subtask rt w in
  result_of run = Ret (false, "Subtask not removed after retries.")
  /\ view (trace_of run)
     = (repeat (DidPost UpdateCall) (S (List.length pre))
          ++ missed_rounds (Z.to_nat (RETRIES rt)))%list
  /\ network (world_of run) = rest.
Proof.
  intros Hres Hpre Hlen Hacc Hother Hpolls Hnet run.
  pose proof (forallb_impl _ _ _ (other_count_misses rt) Hother) as Hmiss.
  destruct (resolve_exhausted rt w pre update Hres Hpre Hlen Hacc polls rest
              Hmiss Hpolls Hnet) as [t [Hrun Hv]].
  apply runs_projections in Hrun. destruct Hrun as (Hr & Hw & Ht).
  subst run. rewrite Hr, Hw, Ht, Hv. repeat split.
Qed.

(** C2, with both kinds of transport failure a miss -- in the verification
    loop a transport timeout and
    any other transport exception on a poll are both a miss: the loop
    sleeps 5 and polls again while rounds remain.  After such failures a
    poll that confirms still makes [update_subtask] return success, and
    only [RETRIES] misses in a row make it return failure. *)
Theorem C2_transport_failures_are_misses rt w update failures :
  resolvable w = true ->
  accepted rt update = true ->
  0 < RETRIES rt ->
  forallb transport_failure failures = true ->
  let run := update_subtask rt w in
  (forall poll rest,
     (List.length failures < Z.to_nat (RETRIES rt))%nat ->
     confirms rt poll = true ->
     network w = update :: (failures ++ poll :: rest)%list ->
     result_of run = Ret (true, EmptyString)
     /\ view (trace_of run)
        = DidPost UpdateCall
            :: (missed_rounds (List.length failures) ++ [DidPost VerifyCall])%list
     /\ network (world_of run) = rest)
  /\ (forall rest,
        List.length failures = Z.to_nat (RETRIES rt) ->
        network w = update :: (failures ++ rest)%list ->
        result_of run = Ret (false, "Subtask not removed after retries.")
        /\ view (trace_of run)
           = DidPost UpdateCall :: missed_rounds (Z.to_nat (RETRIES rt))
        /\ network (world_of run) = rest).
Proof.
  intros Hres Hacc Hretries Hfail run.
  pose proof (forallb_impl _ _ _ (transport_failure_misses rt) Hfail) as Hmiss.
  assert (List.length (@nil net_reply) < Z.to_nat (RETRIES rt))%nat as Hlen
    by (simpl; lia).
  split.
  - intros poll rest Hk Hconf Hnet.
    destruct (resolve_confirmed rt w [] update Hres eq_refl Hlen Hacc failures poll
                rest Hmiss Hk Hnet Hconf) as [t [Hrun Hv]].
    apply runs_projections in Hrun. destruct Hrun as (Hr & Hw & Ht).
    subst run. rewrite Hr, Hw, Ht, Hv. repeat split.
  - intros rest Hk Hnet.
    destruct (resolve_exhausted rt w [] update Hres eq_refl Hlen Hacc failures rest
                Hmiss Hk Hnet) as [t [Hrun Hv]].
    apply runs_projections in Hrun. destruct Hrun as (Hr & Hw & Ht).
    subst run. rewrite Hr, Hw, Ht, Hv. repeat split.
Qed.

(** C4, for HTTP 200 where the specification says 2xx -- when an update post is
    answered with HTTP 200 and a body whose status field is not 0,
    [update_subtask] returns failure at once: the detail ends with the
    status value as [str] renders it, no verification post occurs, and no
    further update post is made. *)
Theorem C4_rejected_status rt w pre body_text st rest :
  resolvable w = true ->
  forallb retried pre = true ->
  (List.length pre < Z.to_nat (RETRIES rt))%nat ->
  network w = (pre ++ Response 200 body_text :: rest)%list ->
  update_status rt body_text = Some st ->
  py_eq_int st 0 = false ->
  let run := update_subtask rt w in
  result_of run = Ret (false, "API returned unexpected status: " ++ py_str rt st)
  /\ view (trace_of run) = repeat (DidPost UpdateCall) (S (List.length pre))
  /\ posts_at VerifyCall (trace_of run) = O
  /\ network (world_of run) = rest.
Proof.
  intros Hres Hpre Hlen Hnet Hst Hzero run.
  destruct (resolve_rejected rt w pre rest Hres Hpre Hlen body_text st Hnet Hst Hzero)
    as [t [Hrun Hv]].
  apply runs_projections in Hrun. destruct Hrun as (Hr & Hw & Ht).
  subst run. rewrite Hr, Hw, Ht, Hv. repeat split.
  rewrite posts_at_view, Hv. apply steps_at_repeat. reflexivity.
Qed.

(* ================================================================== *)
(** ** What no run does *)
(* ================================================================== *)

Section Inert.

Context {A B : Type}.
Variable site : call_site.

Lemma inert_ret (a : A) : inert site (ret a).
Proof. intros w. repeat split. Qed.

Lemma inert_lift (r : outcome A) : inert site (lift r).
Proof. intros w. repeat split. Qed.

Lemma inert_bind (m : M A) (k : A -> M B) :
  inert site m -> (forall a, inert site (k a)) -> inert site (bind m k).
Proof.
  intros Hm Hk w. specialize (Hm w). unfold bind.
  destruct (m w) as [[[a|e] w1] t1]; unfold world_of, trace_of in *; simpl in *.
  - specialize (Hk a w1). destruct (k a w1) as [[r w2] t2].
    unfold world_of, trace_of in *; simpl in *.
    destruct Hm as (H1 & H2 & H3), Hk as (K1 & K2 & K3).
    rewrite posts_at_app, H3, K3. repeat split; congruence.
  - exact Hm.
Qed.

Lemma inert_try (m : M A) h :
  inert site m -> (forall e k, h e = Some k -> inert site k) ->
  inert site (try_except m h).
Proof.
  intros Hm Hh w. specialize (Hm w). unfold try_except.
  destruct (m w) as [[[a|e] w1] t1]; unfold world_of, trace_of in *; simpl in *.
  - exact Hm.
  - destruct (h e) as [k|] eqn:Hk; [|exact Hm].
    specialize (Hh e k Hk w1). destruct (k w1) as [[r w2] t2].
    unfold world_of, trace_of in *; simpl in *.
    destruct Hm as (H1 & H2 & H3), Hh as (K1 & K2 & K3).
    rewrite posts_at_app, H3, K3. repeat split; congruence.
Qed.

Lemma bounded_of_inert (m : M A) : inert site m -> posts_bounded site O m.
Proof. intros H w. destruct (H w) as (_ & _ & ->). constructor. Qed.

Lemma bounded_bind_l (m : M A) (k : A -> M B) n :
  inert site m -> (forall a, posts_bounded site n (k a)) ->
  posts_bounded site n (bind m k).
Proof.
  intros Hm Hk w. specialize (Hm w). unfold bind.
  destruct (m w) as [[[a|e] w1] t1]; unfold world_of, trace_of in *; simpl in *.
  - specialize (Hk a w1). destruct (k a w1) as [[r w2] t2].
    unfold trace_of in *; simpl in *.
    destruct Hm as (_ & _ & H3). rewrite posts_at_app, H3. exact Hk.
  - destruct Hm as (_ & _ & ->). apply Nat.le_0_l.
Qed.

Lemma bounded_bind_r (m : M A) (k : A -> M B) n :
  posts_bounded site n m -> (forall a, inert site (k a)) ->
  posts_bounded site n (bind m k).
Proof.
  intros Hm Hk w. specialize (Hm w). unfold bind.
  destruct (m w) as [[[a|e] w1] t1]; unfold trace_of in *; simpl in *.
  - specialize (Hk a w1). destruct (k a w1) as [[r w2] t2].
    unfold trace_of in *; simpl in *.
    destruct Hk as (_ & _ & K3). rewrite posts_at_app, K3, Nat.add_0_r. exact Hm.
  - exact Hm.
Qed.

Lemma bounded_try (m : M A) h n :
  posts_bounded site n m -> (forall e k, h e = Some k -> inert site k) ->
  posts_bounded site n (try_except m h).
Proof.
  intros Hm Hh w. specialize (Hm w). unfold try_except.
  destruct (m w) as [[[a|e] w1] t1]; unfold trace_of in *; simpl in *.
  - exact Hm.
  - destruct (h e) as [k|] eqn:Hk; [|exact Hm].
    specialize (Hh e k Hk w1). destruct (k w1) as [[r w2] t2].
    unfold trace_of in *; simpl in *.
    destruct Hh as (_ & _ & K3). rewrite posts_at_app, K3, Nat.add_0_r. exact Hm.
Qed.

End Inert.

Lemma inert_get_data_dsr site : inert site get_data_dsr.
Proof. intros w. repeat split. Qed.

Lemma inert_get_data_subtask site : inert site get_data_subtask.
Proof. intros w. repeat split. Qed.

Lemma inert_log site lvl entry : inert site (emit (Log lvl entry)).
Proof. intros w. repeat split. Qed.

Lemma inert_sleep site s : inert site (sleep s).
Proof. intros w. repeat split. Qed.

Lemma inert_post site site' url headers b timeout :
  call_site_eqb site site' = false ->
  inert site (requests_post site' url headers b timeout).
Proof.
  intros H w. unfold requests_post, world_of, trace_of. simpl. rewrite H.
  repeat split.
Qed.

Lemma bounded_post site site' url headers b timeout :
  posts_bounded site 1 (requests_post site' url headers b timeout).
Proof.
  intros w. unfold requests_post, trace_of. simpl.
  destruct (call_site_eqb site site'); auto.
Qed.

(** Take a term of the monad apart down to its primitives. *)
Ltac inert_handler H :=
  cbv beta in H;
  repeat match type of H with
         | context [if ?b then _ else _] => destruct b
         | context [match ?x with _ => _ end] => destruct x
         end;
  first [ discriminate H | injection H as <- ].

Create HintDb inert.
#[export] Hint Extern 1 (call_site_eqb _ _ = false) => reflexivity : inert.

Ltac inert_tac :=
  repeat first
    [ solve [eauto 2 with inert]
    | match goal with
      | |- inert _ (ret _) => apply inert_ret
      | |- inert _ (lift _) => apply inert_lift
      | |- inert _ get_data_dsr => apply inert_get_data_dsr
      | |- inert _ get_data_subtask => apply inert_get_data_subtask
      | |- inert _ (emit (Log _ _)) => apply inert_log
      | |- inert _ (sleep _) => apply inert_sleep
      | |- inert _ (requests_post _ _ _ _ _) => apply inert_post; reflexivity
      | |- inert _ (bind _ _) => apply inert_bind; [ | intros ? ]
      | |- inert _ (try_except _ _) =>
          apply inert_try;
          [ | let e := fresh "e" in let k := fresh "k" in let H := fresh "H" in
              intros e k H; inert_handler H ]
      | |- inert _ (if ?b then _ else _) => destruct b
      | |- inert _ (match ?x with _ => _ end) => destruct x
      end ].

Section InertProgram.

Variable rt : runtime.
Variable site : call_site.

Lemma inert_create_log_entry event status message kwargs :
  inert site (create_log_entry event status message kwargs).
Proof. unfold create_log_entry. inert_tac. Qed.

Lemma inert_log_event lvl event status message kwargs :
  inert site (log_event lvl event status message kwargs).
Proof.
  unfold log_event. apply inert_bind; [apply inert_create_log_entry|].
  intros entry. apply inert_log.
Qed.

Lemma inert_response_json resp : inert site (response_json rt resp).
Proof.
  unfold response_json. destruct (json_loads rt (text resp)); [apply inert_ret|].
  apply inert_lift.
Qed.

Hint Resolve inert_log_event inert_response_json : inert.

Lemma inert_was_subtask_removed secrets :
  call_site_eqb site VerifyCall = false ->
  inert site (was_subtask_removed rt secrets).
Proof.
  intros Hsite. unfold was_subtask_removed. cbv zeta.
  assert (forall u h b t, inert site (requests_post VerifyCall u h b t)) as Hp
    by (intros; apply inert_post; exact Hsite).
  inert_tac.
Qed.

Hint Resolve inert_was_subtask_removed : inert.

Lemma inert_verification_polls n : forall k,
  call_site_eqb site VerifyCall = false ->
  inert site (verification_polls rt n k).
Proof.
  induction n as [|n IH]; intros k Hsite; simpl.
  - apply inert_ret.
  - inert_tac.
Qed.

End InertProgram.

#[export] Hint Resolve inert_log_event inert_response_json
  inert_create_log_entry inert_was_subtask_removed inert_verification_polls : inert.

Section InertResolver.

Variable rt : runtime.
Variable site : call_site.
Hypothesis Hupdate : call_site_eqb site UpdateCall = false.
Hypothesis Hverify : call_site_eqb site VerifyCall = false.

Lemma inert_update_attempt update_url body a error :
  inert site (update_attempt rt update_url body a error).
Proof.
  unfold update_attempt.
  assert (forall u h b t, inert site (requests_post UpdateCall u h b t)) as Hp
    by (intros; apply inert_post; exact Hupdate).
  inert_tac.
Qed.

Lemma inert_update_attempts update_url body n : forall a error,
  inert site (update_attempts rt update_url body n a error).
Proof.
  induction n as [|n IH]; intros a error; simpl.
  - inert_tac.
  - apply inert_bind; [apply inert_update_attempt|].
    intros [error'|result]; [apply IH | apply inert_ret].
Qed.

Lemma inert_update_subtask : inert site (update_subtask rt).
Proof.
  unfold update_subtask. cbv zeta.
  apply inert_bind; [apply inert_get_data_subtask|]. intros sub.
  apply inert_bind; [apply inert_lift|]. intros sid.
  apply inert_update_attempts.
Qed.

End InertResolver.

Section BoundedResolver.

Variable rt : runtime.

Lemma bounded_bind_add {A B} site (m : M A) (k : A -> M B) n1 n2 :
  posts_bounded site n1 m -> (forall a, posts_bounded site n2 (k a)) ->
  posts_bounded site (n1 + n2) (bind m k).
Proof.
  intros Hm Hk w. specialize (Hm w). unfold bind.
  destruct (m w) as [[[a|e] w1] t1]; unfold trace_of in *; simpl in *.
  - specialize (Hk a w1). destruct (k a w1) as [[r w2] t2].
    unfold trace_of in *; simpl in *. rewrite posts_at_app. lia.
  - lia.
Qed.

(** One pass of the outer loop posts the update at most once. *)
Lemma bounded_update_attempt update_url body a error :
  posts_bounded UpdateCall 1 (update_attempt rt update_url body a error).
Proof.
  unfold update_attempt. apply bounded_try.
  - apply bounded_bind_l; [inert_tac|]. intros _.
    apply bounded_bind_l; [inert_tac|]. intros dsr.
    apply bounded_bind_l; [inert_tac|]. intros hdr.
    apply bounded_bind_r; [apply bounded_post|]. intros resp.
    inert_tac.
  - intros e k H. inert_handler H; inert_tac.
Qed.

Lemma bounded_update_attempts update_url body n : forall a error,
  posts_bounded UpdateCall n (update_attempts rt update_url body n a error).
Proof.
  induction n as [|n IH]; intros a error; simpl.
  - apply bounded_of_inert. inert_tac.
  - change (S n) with (1 + n)%nat. apply bounded_bind_add.
    + apply bounded_update_attempt.
    + intros [error'|result]; [apply IH|].
      intros w. apply Nat.le_0_l.
Qed.

(** Whatever the network answers, [update_subtask] posts the update at
    most [RETRIES] times. *)
Lemma bounded_update_subtask :
  posts_bounded UpdateCall (Z.to_nat (RETRIES rt)) (update_subtask rt).
Proof.
  unfold update_subtask. cbv zeta.
  apply bounded_bind_l; [inert_tac|]. intros sub.
  apply bounded_bind_l; [inert_tac|]. intros sid.
  apply bounded_update_attempts.
Qed.

End BoundedResolver.

(** C3 -- the update call of [update_subtask].  A timeout is retried and
    an HTTP status outside 200..299 is retried: when each of the first
    [RETRIES] replies is one of the two, the function returns failure after
    exactly [RETRIES] update posts.  A request exception that is no timeout
    makes it return failure with the exception text as detail, with no
    update post after the one that raised (exactly one post when it is the
    first reply).  And whatever the network answers, the update is posted
    at most [RETRIES] times. *)
Theorem C3_update_retry_policy rt w :
  resolvable w = true ->
  let run := update_subtask rt w in
  (forall pre rest,
     forallb timeout_or_non_2xx pre = true ->
     List.length pre = Z.to_nat (RETRIES rt) ->
     network w = (pre ++ rest)%list ->
     (exists detail, result_of run = Ret (false, detail))
     /\ view (trace_of run) = repeat (DidPost UpdateCall) (Z.to_nat (RETRIES rt))
     /\ network (world_of run) = rest)
  /\ (forall pre msg rest,
        forallb timeout_or_non_2xx pre = true ->
        (List.length pre < Z.to_nat (RETRIES rt))%nat ->
        network w = (pre ++ Failed msg :: rest)%list ->
        result_of run = Ret (false, msg)
        /\ view (trace_of run) = repeat (DidPost UpdateCall) (S (List.length pre))
        /\ network (world_of run) = rest)
  /\ (posts_at UpdateCall (trace_of run) <= Z.to_nat (RETRIES rt))%nat.
Proof.
  intros Hres run. split; [|split].
  - intros pre rest Hpre Hlen Hnet.
    pose proof (forallb_impl _ _ _ timeout_or_non_2xx_retried Hpre) as Hretry.
    destruct (resolve_all_retried rt w pre rest Hres Hretry Hlen Hnet)
      as (detail & t & Hrun & Hv).
    apply runs_projections in Hrun. destruct Hrun as (Hr & Hw & Ht).
    subst run. rewrite Hr, Hw, Ht, Hv. repeat split. exists detail. reflexivity.
  - intros pre msg rest Hpre Hlen Hnet.
    pose proof (forallb_impl _ _ _ timeout_or_non_2xx_retried Hpre) as Hretry.
    destruct (resolve_failed rt w pre rest Hres Hretry Hlen msg Hnet) as (t & Hrun & Hv).
    apply runs_projections in Hrun. destruct Hrun as (Hr & Hw & Ht).
    subst run. rewrite Hr, Hw, Ht, Hv. repeat split.
  - apply bounded_update_subtask.
Qed.

(* ================================================================== *)
(** ** The orchestrator *)
(* ================================================================== *)

(** A log call that returns was made in a loggable world. *)
Lemma log_event_ret_loggable lvl event status message kwargs w :
  result_of (log_event lvl event status message kwargs w) = Ret tt ->
  loggable w = true.
Proof.
  unfold loggable.
  destruct (dictish (data_dsr w)) eqn:Hd.
  - destruct (dictish (data_subtask w)) eqn:Hs; [reflexivity|].
    unfold log_event, create_log_entry, bind, get_data_dsr, get_data_subtask, lift.
    rewrite !(safe_get_dictish _ _ Hd).
    destruct (data_subtask w); simpl in Hs; try discriminate; simpl; discriminate.
  - unfold log_event, create_log_entry, bind, get_data_dsr, get_data_subtask, lift.
    destruct (data_dsr w); simpl in Hd; try discriminate; simpl; discriminate.
Qed.

Section Resolve.

Variable rt : runtime.

Lemma resolve_subtask_eq s w :
  resolve_subtask rt s w
  = (log_event LInfo "update_subtask" "started" "Subtask update started" [] ;;
     update_subtask rt) (with_subtask w s).
Proof.
  unfold resolve_subtask. unfold bind at 1. unfold set_data_subtask.
  destruct ((log_event LInfo "update_subtask" "started" "Subtask update started" [] ;;
             update_subtask rt) (with_subtask w s)) as [[r w2] t2].
  reflexivity.
Qed.

(** [resolve_subtask] changes no global but the current subtask and posts
    to no webhook. *)
Lemma resolve_subtask_frame site s w :
  call_site_eqb site UpdateCall = false ->
  call_site_eqb site VerifyCall = false ->
  data_dsr (world_of (resolve_subtask rt s w)) = data_dsr w
  /\ data_subtask (world_of (resolve_subtask rt s w)) = s
  /\ posts_at site (trace_of (resolve_subtask rt s w)) = O.
Proof.
  intros Hu Hv. rewrite resolve_subtask_eq.
  assert (inert site (log_event LInfo "update_subtask" "started"
                        "Subtask update started" [] ;; update_subtask rt)) as H.
  { apply inert_bind; [apply inert_log_event|].
    intros _. apply inert_update_subtask; assumption. }
  exact (H (with_subtask w s)).
Qed.

(** When [resolve_subtask] returns, its first log call returned. *)
Lemma resolve_subtask_ret_loggable s w r w' t :
  resolve_subtask rt s w = (Ret r, w', t) -> loggable w' = true.
Proof.
  intros H.
  destruct (resolve_subtask_frame TeamsCall s w eq_refl eq_refl) as (Hd & Hs & _).
  rewrite H in Hd, Hs. unfold world_of in Hd, Hs. simpl in Hd, Hs.
  rewrite resolve_subtask_eq in H. unfold bind in H.
  destruct (log_event LInfo "update_subtask" "started" "Subtask update started" []
              (with_subtask w s)) as [[[u|e] w1] t1] eqn:Hlog; [|discriminate].
  assert (loggable (with_subtask w s) = true) as Hl.
  { apply (log_event_ret_loggable LInfo "update_subtask" "started"
             "Subtask update started" []).
    rewrite Hlog. destruct u. reflexivity. }
  unfold loggable in *. simpl in Hl. rewrite Hd, Hs. exact Hl.
Qed.

Lemma resolves_ok_frame subs : forall w w' t,
  resolves_ok rt subs w = Some (w', t) ->
  data_dsr w' = data_dsr w
  /\ posts_at TeamsCall t = O /\ posts_at GoogleChatCall t = O.
Proof.
  induction subs as [|s subs IH]; intros w w' t; simpl.
  - intros [= <- <-]. auto.
  - destruct (resolve_subtask_frame TeamsCall s w eq_refl eq_refl) as (Hd & _ & Ht).
    destruct (resolve_subtask_frame GoogleChatCall s w eq_refl eq_refl) as (_ & _ & Hg).
    destruct (resolve_subtask rt s w) as [[[[[|] detail]|e] w1] t1]; try discriminate.
    unfold world_of, trace_of in *. simpl in *.
    destruct (resolves_ok rt subs w1) as [[w2 t2]|] eqn:Hrec; [|discriminate].
    intros [= <- <-]. destruct (IH _ _ _ Hrec) as (Hd2 & Ht2 & Hg2).
    rewrite !posts_at_app, Ht, Hg, Ht2, Hg2. repeat split. congruence.
Qed.

(** Every subtask resolves: the loop returns success. *)
Lemma process_loop_ok subs : forall w w' t,
  resolves_ok rt subs w = Some (w', t) ->
  runs (process_loop rt subs) w (Ret true) w' t.
Proof.
  induction subs as [|s subs IH]; intros w w' t; simpl.
  - intros [= <- <-]. reflexivity.
  - destruct (resolve_subtask rt s w) as [[[[[|] detail]|e] w1] t1] eqn:Hs;
      try discriminate.
    destruct (resolves_ok rt subs w1) as [[w2 t2]|] eqn:Hrec; [|discriminate].
    intros [= <- <-].
    eapply runs_bind; [exact Hs|]. simpl. apply IH. exact Hrec.
Qed.

(** The subtasks [pre] resolve and the next one does not return success:
    what the loop does is what follows the failed resolution. *)
Lemma process_loop_after pre : forall w w1 t1 s post,
  resolves_ok rt pre w = Some (w1, t1) ->
  forall res w3 t3,
    runs (r <- resolve_subtask rt s ;;
          if negb (fst r) then notify_failure (snd r) ;; ret false
          else process_loop rt post) w1 res w3 t3 ->
    runs (process_loop rt (pre ++ s :: post)) w res w3 (t1 ++ t3)%list.
Proof.
  induction pre as [|p pre IH]; intros w w1 t1 s post; simpl.
  - intros [= <- <-] res w3 t3 H. exact H.
  - destruct (resolve_subtask rt p w) as [[[[[|] detail]|e] w0] t0] eqn:Hp;
      try discriminate.
    destruct (resolves_ok rt pre w0) as [[w2 t2]|] eqn:Hrec; [|discriminate].
    intros [= <- <-] res w3 t3 H.
    rewrite <- app_assoc.
    eapply runs_bind; [exact Hp|]. simpl. eapply IH; eassumption.
Qed.

End Resolve.

Lemma runs_trace_eq {A} (m : M A) w r w' t t' :
  runs m w r w' t' -> t' = t -> runs m w r w' t.
Proof. intros H <-. exact H. Qed.

(** The two webhook posts after a failure, when both are answered. *)
Lemma runs_notify_failure reason w c1 x1 c2 x2 rest :
  loggable w = true ->
  network w = Response c1 x1 :: Response c2 x2 :: rest ->
  forall teams chat,
    py_getitem (data_dsr w) "microsoftTeams" = Ret teams ->
    py_getitem (data_dsr w) "googleChat" = Ret chat ->
    exists e0 e1 e2,
      runs (notify_failure reason) w (Ret tt) (with_network w rest)
           [ Log LError e0;
             Post TeamsCall teams content_type_json
                  (Card (entry_of w "subtask_update" "failed" reason [])) None;
             Log (if c1 =? 202 then LInfo else LError) e1;
             Post GoogleChatCall chat content_type_json
                  (Card (entry_of w "subtask_update" "failed" reason [])) None;
             Log (if c2 =? 200 then LInfo else LError) e2 ].
Proof.
  intros Hlog Hnet teams chat Hteams Hchat.
  set (w1 := with_network w (Response c2 x2 :: rest)).
  assert (pop_network w = w1) as Hpop1 by (apply (pop_network_cons _ _ _ Hnet)).
  assert (loggable w1 = true) as Hlog1 by exact Hlog.
  assert (network w1 = Response c2 x2 :: rest) as Hnet1 by reflexivity.
  assert (py_getitem (data_dsr w1) "googleChat" = Ret chat) as Hchat1 by exact Hchat.
  assert (loggable (pop_network w1) = true) as Hlog2 by exact Hlog.
  destruct (c1 =? 202) eqn:H1; destruct (c2 =? 200) eqn:H2;
    do 3 eexists;
    (eapply runs_trace_eq;
     [ unfold notify_failure, send_teams_notification, send_google_chat_notification;
       eapply runs_bind; [apply runs_log_event; exact Hlog|]; cbv beta;
       eapply runs_bind; [apply runs_create_log_entry; exact Hlog|]; cbv beta;
       eapply (runs_bind _ _ w tt w1);
       [ run; run; run; rewrite Hpop1; simpl status_code; rewrite H1;
         simpl negb; cbv iota; apply runs_log_event; exact Hlog1
       | cbv beta; run; run; run; simpl status_code; rewrite H2;
         simpl negb; cbv iota; apply runs_log_event; exact Hlog2 ]
     | reflexivity ]).
Qed.

Section Orchestrator.

Variable rt : runtime.

Lemma runs_process_subtasks w subs res w' t :
  py_getitem (data_dsr w) "task_subtask" = Ret (JArr subs) ->
  runs (process_loop rt subs) w res w' t ->
  runs (process_subtasks rt) w res w' t.
Proof.
  intros Hsubs Hloop. unfold process_subtasks.
  eapply runs_trace_eq.
  - run. run. simpl py_iter. run. exact Hloop.
  - reflexivity.
Qed.

(** The subtasks [pre] resolve, the next one fails, and both webhook
    posts are answered. *)
Lemma process_subtasks_fails w pre s post w1 t1 reason w2 t2 c1 x1 c2 x2 rest :
  py_getitem (data_dsr w) "task_subtask" = Ret (JArr (pre ++ s :: post)) ->
  has_key "microsoftTeams" (data_dsr w) = true ->
  has_key "googleChat" (data_dsr w) = true ->
  resolves_ok rt pre w = Some (w1, t1) ->
  resolve_subtask rt s w1 = (Ret (false, reason), w2, t2) ->
  network w2 = Response c1 x1 :: Response c2 x2 :: rest ->
  exists t3,
    runs (process_subtasks rt) w (Ret false) (with_network w2 rest)
         (t1 ++ t2 ++ t3)%list
    /\ view t3 = [DidPost TeamsCall; DidPost GoogleChatCall].
Proof.
  intros Hsubs Hteams Hchat Hpre Hs Hnet.
  destruct (resolves_ok_frame rt pre _ _ _ Hpre) as (Hd1 & _ & _).
  destruct (resolve_subtask_frame rt TeamsCall s w1 eq_refl eq_refl) as (Hd2 & _ & _).
  rewrite Hs in Hd2. unfold world_of in Hd2. simpl in Hd2.
  pose proof (resolve_subtask_ret_loggable rt _ _ _ _ _ Hs) as Hlog2.
  rewrite <- Hd1, <- Hd2 in Hteams, Hchat.
  destruct (has_key_getitem _ _ Hteams) as [teams Hteams'].
  destruct (has_key_getitem _ _ Hchat) as [chat Hchat'].
  destruct (runs_notify_failure reason w2 c1 x1 c2 x2 rest Hlog2 Hnet teams chat
              Hteams' Hchat') as (e0 & e1 & e2 & Hnotify).
  eexists. split.
  - apply runs_process_subtasks with (subs := (pre ++ s :: post)%list); [exact Hsubs|].
    eapply process_loop_after; [exact Hpre|].
    eapply runs_bind; [exact Hs|]. simpl.
    eapply runs_bind; [exact Hnotify|]. apply runs_ret.
  - reflexivity.
Qed.

End Orchestrator.

(** What C7 says, where both webhook posts are answered -- the
    orchestrator resolves the subtasks in list order.  When the subtasks
    [pre] resolve and the next one, [s], returns failure, it posts exactly
    once to the Teams webhook and exactly once to the Google Chat webhook
    and returns [False]; the trace is the trace of resolving [pre], then
    [s], then the two webhook posts, so the resolver never runs for the
    subtasks after [s].  When every subtask resolves it returns [True]
    and posts to no webhook. *)
Theorem C7_stop_at_first_failure rt w :
  (forall pre s post w1 t1 reason w2 t2 c1 x1 c2 x2 rest,
     py_getitem (data_dsr w) "task_subtask" = Ret (JArr (pre ++ s :: post)) ->
     has_key "microsoftTeams" (data_dsr w) = true ->
     has_key "googleChat" (data_dsr w) = true ->
     resolves_ok rt pre w = Some (w1, t1) ->
     resolve_subtask rt s w1 = (Ret (false, reason), w2, t2) ->
     network w2 = Response c1 x1 :: Response c2 x2 :: rest ->
     exists t3,
       process_subtasks rt w = (Ret false, with_network w2 rest, (t1 ++ t2 ++ t3)%list)
       /\ view t3 = [DidPost TeamsCall; DidPost GoogleChatCall]
       /\ posts_at TeamsCall (t1 ++ t2 ++ t3) = 1%nat
       /\ posts_at GoogleChatCall (t1 ++ t2 ++ t3) = 1%nat)
  /\ (forall subs w' t,
        py_getitem (data_dsr w) "task_subtask" = Ret (JArr subs) ->
        resolves_ok rt subs w = Some (w', t) ->
        process_subtasks rt w = (Ret true, w', t)
        /\ posts_at TeamsCall t = O /\ posts_at GoogleChatCall t = O).
Proof.
  split.
  - intros pre s post w1 t1 reason w2 t2 c1 x1 c2 x2 rest
           Hsubs Hteams Hchat Hpre Hs Hnet.
    destruct (process_subtasks_fails rt w pre s post w1 t1 reason w2 t2 c1 x1 c2 x2
                rest Hsubs Hteams Hchat Hpre Hs Hnet) as (t3 & Hrun & Hv).
    destruct (resolves_ok_frame rt pre _ _ _ Hpre) as (_ & Ht1 & Hg1).
    destruct (resolve_subtask_frame rt TeamsCall s w1 eq_refl eq_refl) as (_ & _ & Ht2).
    destruct (resolve_subtask_frame rt GoogleChatCall s w1 eq_refl eq_refl)
      as (_ & _ & Hg2).
    rewrite Hs in Ht2, Hg2. unfold trace_of in Ht2, Hg2. simpl in Ht2, Hg2.
    exists t3. split; [exact Hrun|]. split; [exact Hv|].
    rewrite !posts_at_app, Ht1, Hg1, Ht2, Hg2, !posts_at_view, Hv. split; reflexivity.
  - intros subs w' t Hsubs Hok.
    destruct (resolves_ok_frame rt subs _ _ _ Hok) as (_ & Ht & Hg).
    split; [|split; assumption].
    apply (runs_process_subtasks rt w subs); [exact Hsubs|].
    apply process_loop_ok. exact Hok.
Qed.

(** What C8 says, for delivery failures reported by the status code --
    after a failed subtask, whatever status codes the two webhooks answer
    with, [notify_failure] posts the same card once to Teams and
    once to Google Chat; a status other than 202 from Teams, or other than
    200 from Google Chat, changes nothing but the level of the log line
    that follows the post; and the orchestrator returns [False] all the
    same. *)
Theorem C8_delivery_failure_only_logged rt w reason c1 x1 c2 x2 rest teams chat :
  loggable w = true ->
  network w = Response c1 x1 :: Response c2 x2 :: rest ->
  py_getitem (data_dsr w) "microsoftTeams" = Ret teams ->
  py_getitem (data_dsr w) "googleChat" = Ret chat ->
  (exists e0 e1 e2,
     notify_failure reason w
     = (Ret tt, with_network w rest,
        [ Log LError e0;
          Post TeamsCall teams content_type_json
               (Card (entry_of w "subtask_update" "failed" reason [])) None;
          Log (if c1 =? 202 then LInfo else LError) e1;
          Post GoogleChatCall chat content_type_json
               (Card (entry_of w "subtask_update" "failed" reason [])) None;
          Log (if c2 =? 200 then LInfo else LError) e2 ]))
  /\ (forall s post w0 t0,
        resolve_subtask rt s w0 = (Ret (false, reason), w, t0) ->
        result_of (process_loop rt (s :: post) w0) = Ret false).
Proof.
  intros Hlog Hnet Hteams Hchat.
  destruct (runs_notify_failure reason w c1 x1 c2 x2 rest Hlog Hnet teams chat
              Hteams Hchat) as (e0 & e1 & e2 & Hnotify).
  split.
  - exists e0, e1, e2. exact Hnotify.
  - intros s post w0 t0 Hs.
    assert (runs (process_loop rt (s :: post)) w0 (Ret false) (with_network w rest)
              (t0 ++ ([Log LError e0;
                       Post TeamsCall teams content_type_json
                         (Card (entry_of w "subtask_update" "failed" reason [])) None;
                       Log (if c1 =? 202 then LInfo else LError) e1;
                       Post GoogleChatCall chat content_type_json
                         (Card (entry_of w "subtask_update" "failed" reason [])) None;
                       Log (if c2 =? 200 then LInfo else LError) e2] ++ []))%list) as H.
    { simpl process_loop. eapply runs_bind; [exact Hs|]. cbn [fst snd negb].
      eapply runs_bind; [exact Hnotify|]. apply runs_ret. }
    unfold runs in H. rewrite H. reflexivity.
Qed.

(* ================================================================== *)
(** ** The entry point *)
(* ================================================================== *)

Lemma assoc_set_same key v d : assoc key (assoc_set key v d) = Some v.
Proof.
  induction d as [|[k' v'] d IH]; simpl.
  - rewrite String.eqb_refl. reflexivity.
  - destruct (String.eqb key k') eqn:Hk; simpl.
    + rewrite String.eqb_refl. reflexivity.
    + rewrite Hk. exact IH.
Qed.

Lemma assoc_set_other key key' v d :
  String.eqb key key' = false -> assoc key (assoc_set key' v d) = assoc key d.
Proof.
  intros Hne. induction d as [|[k0 v0] d IH]; simpl.
  - rewrite Hne. reflexivity.
  - destruct (String.eqb key' k0) eqn:Hk; simpl.
    + apply String.eqb_eq in Hk. subst k0. rewrite Hne. reflexivity.
    + rewrite IH. reflexivity.
Qed.

Lemma py_get_dict d key : py_get (JObj d) key JNull = Ret (dict_get d key).
Proof. unfold py_get, dict_get. destruct (assoc key d); reflexivity. Qed.

(** Loading the secrets keeps every key it does not set. *)
Lemma loaded_dsr_keeps rt d sm channel token key :
  String.eqb key "lambda_name" = false ->
  String.eqb key "enviroment" = false ->
  String.eqb key "googleChat" = false ->
  String.eqb key "microsoftTeams" = false ->
  String.eqb key "secrets_header" = false ->
  assoc key (loaded_dsr rt d sm channel token) = assoc key d.
Proof.
  intros H1 H2 H3 H4 H5. unfold loaded_dsr.
  rewrite !assoc_set_other by assumption. reflexivity.
Qed.

Lemma loaded_dsr_notifiable rt d sm channel token :
  has_key "microsoftTeams" (JObj (loaded_dsr rt d sm channel token)) = true
  /\ has_key "googleChat" (JObj (loaded_dsr rt d sm channel token)) = true
  /\ has_key "secrets_header" (JObj (loaded_dsr rt d sm channel token)) = true.
Proof.
  unfold loaded_dsr, has_key.
  rewrite assoc_set_other, assoc_set_same by reflexivity.
  rewrite !assoc_set_other, assoc_set_same by reflexivity.
  rewrite assoc_set_same. auto.
Qed.

Section Loading.

Variable rt : runtime.

Lemma runs_set_dsr_item key v w d :
  data_dsr w = JObj d ->
  runs (set_dsr_item key v) w (Ret tt) (with_dsr w (JObj (assoc_set key v d))) [].
Proof.
  intros Hd. unfold runs, set_dsr_item, bind, get_data_dsr, lift, set_data_dsr.
  rewrite Hd. reflexivity.
Qed.

Lemma runs_secret_path kind w d sm :
  data_dsr w = JObj d -> assoc "sm" d = Some (JStr sm) ->
  runs (secret_path kind) w (Ret (str_replace "{type}" kind sm)) w [].
Proof.
  intros Hd Hsm. unfold runs, secret_path, bind, get_data_dsr, lift.
  rewrite Hd. simpl. rewrite Hsm. reflexivity.
Qed.

Lemma runs_get_secret_ok path w d :
  loggable w = true -> secret_is rt w path d ->
  exists t, runs (get_secret rt path) w (Ret (JObj d)) w t
            /\ view t = [FetchedSecret path].
Proof.
  intros Hlog (response & secret_string & Hv & Hs & Hparse).
  eexists. split.
  - unfold get_secret. run. apply runs_try_ret.
    eapply runs_bind.
    { unfold runs, get_secret_value. rewrite Hv. reflexivity. }
    cbv beta. run. unfold py_json_loads. rewrite Hparse. run. run. run.
  - reflexivity.
Qed.

Lemma runs_get_secret_denied path w msg :
  loggable w = true -> vault w path = SecretClientError msg ->
  exists t, runs (get_secret rt path) w
                 (raise_ RuntimeError "Failed to retrieve secrets") w t
            /\ view t = [FetchedSecret path].
Proof.
  intros Hlog Hv.
  eexists. split.
  - unfold get_secret. run. eapply runs_try_caught.
    + eapply runs_bind_raise.
      unfold runs, get_secret_value. rewrite Hv. reflexivity.
    + reflexivity.
    + run. apply runs_lift.
  - reflexivity.
Qed.

Lemma runs_load_event_ok event w d sm :
  event_is rt event d sm ->
  runs (load_event rt event) w (Ret None) (with_dsr w (JObj d)) [].
Proof.
  intros (data & Hdata & Hparse & _).
  eapply runs_trace_eq.
  - unfold load_event. apply runs_try_ret.
    run. simpl py_replace. run. unfold py_json_loads. rewrite Hparse.
    run. run. run.
  - reflexivity.
Qed.

(** The payload text does not decode: the 400 response, and nothing but a
    log line. *)
Lemma runs_load_event_undecodable event w data msg :
  loggable w = true ->
  py_getitem event "data" = Ret (JStr data) ->
  json_loads rt (str_replace "'" (String dquote EmptyString) data) = inr msg ->
  exists t,
    runs (load_event rt event) w
         (Ret (Some {| statusCode := 400;
                       body := JObj [("message", JStr "Invalid input data");
                                     ("error", JStr msg)] |})) w t
    /\ view t = [].
Proof.
  intros Hlog Hdata Hparse.
  eexists. split.
  - unfold load_event. eapply runs_try_caught.
    + run. simpl py_replace. run. unfold py_json_loads. rewrite Hparse.
      eapply runs_bind_raise. apply runs_lift.
    + reflexivity.
    + simpl exn_text. run. run.
  - reflexivity.
Qed.

Section Secrets.

Variables (w : world) (d : list (string * json)) (sm : string).
Hypothesis Hd : data_dsr w = JObj d.
Hypothesis Hsm : assoc "sm" d = Some (JStr sm).
Hypothesis Hsub : dictish (data_subtask w) = true.

Let channel_path := str_replace "{type}" "global" sm ++ "channel".
Let token_path := str_replace "{type}" "dsr" sm ++ "token".
Let d2 : list (string * json) :=
  assoc_set "enviroment"
    (JStr (if str_contains "uat" (str_replace "{type}" "dsr" sm)
           then "UAT" else "PROD"))
    (assoc_set "lambda_name" (JStr (lambda_function_name rt)) d).

Let Hsm2 : assoc "sm" d2 = Some (JStr sm).
Proof.
  unfold d2. rewrite !assoc_set_other by reflexivity. exact Hsm.
Qed.

(** The first lines of the second [try], up to the two secret paths. *)
Lemma runs_load_prefix (k : M (option lambda_response)) res w' t :
  runs k (with_dsr w (JObj d2)) res w' t ->
  runs (set_dsr_item "lambda_name" (JStr (lambda_function_name rt)) ;;
        sm_dsr <- secret_path "dsr" ;;
        (if str_contains "uat" sm_dsr
         then set_dsr_item "enviroment" (JStr "UAT")
         else set_dsr_item "enviroment" (JStr "PROD")) ;;
        k) w res w' t.
Proof.
  intros Hk.
  set (d1 := assoc_set "lambda_name" (JStr (lambda_function_name rt)) d).
  assert (assoc "sm" d1 = Some (JStr sm)) as Hsm1
    by (unfold d1; rewrite assoc_set_other by reflexivity; exact Hsm).
  eapply runs_trace_eq.
  - eapply runs_bind; [apply (runs_set_dsr_item _ _ _ d Hd)|]. cbv beta.
    eapply runs_bind;
      [apply (runs_secret_path "dsr" (with_dsr w (JObj d1)) d1 sm eq_refl Hsm1)|].
    cbv beta.
    eapply (runs_bind _ _ _ tt (with_dsr w (JObj d2))).
    + unfold d2. fold d1.
      destruct (str_contains "uat" (str_replace "{type}" "dsr" sm));
        apply (runs_set_dsr_item _ _ (with_dsr w (JObj d1)) d1 eq_refl).
    + exact Hk.
  - reflexivity.
Qed.

(** The channel secret is refused. *)
Lemma runs_load_secrets_no_channel msg :
  vault w channel_path = SecretClientError msg ->
  exists t,
    runs (load_secrets rt) w
         (Ret (Some {| statusCode := 401;
                       body := JObj [("message", JStr "Failed to retrieve secrets")] |}))
         (with_dsr w (JObj d2)) t
    /\ view t = [FetchedSecret channel_path].
Proof.
  intros Hv.
  set (w2 := with_dsr w (JObj d2)).
  assert (loggable w2 = true) as Hlog2 by exact Hsub.
  destruct (runs_get_secret_denied channel_path w2 msg Hlog2 Hv) as [tg [Hg Hvg]].
  eexists. split.
  - unfold load_secrets. eapply runs_try_caught.
    + apply runs_load_prefix.
      eapply runs_bind; [apply (runs_secret_path "dsr" w2 d2 sm eq_refl Hsm2)|]. cbv beta zeta.
      eapply runs_bind; [apply (runs_secret_path "global" w2 d2 sm eq_refl Hsm2)|].
      cbv beta zeta. eapply runs_bind_raise. exact Hg.
    + reflexivity.
    + apply runs_ret.
  - view_norm. rewrite Hvg. reflexivity.
Qed.

(** The channel secret is read and the token secret is refused. *)
Lemma runs_load_secrets_no_token channel msg :
  secret_is rt w channel_path channel ->
  vault w token_path = SecretClientError msg ->
  exists t,
    runs (load_secrets rt) w
         (Ret (Some {| statusCode := 401;
                       body := JObj [("message", JStr "Failed to retrieve secrets")] |}))
         (with_dsr w (JObj d2)) t
    /\ view t = [FetchedSecret channel_path; FetchedSecret token_path].
Proof.
  intros Hc Hv.
  set (w2 := with_dsr w (JObj d2)).
  assert (loggable w2 = true) as Hlog2 by exact Hsub.
  destruct (runs_get_secret_ok channel_path w2 channel Hlog2 Hc) as [tc [Hgc Hvc]].
  destruct (runs_get_secret_denied token_path w2 msg Hlog2 Hv) as [tg [Hg Hvg]].
  eexists. split.
  - unfold load_secrets. eapply runs_try_caught.
    + apply runs_load_prefix.
      eapply runs_bind; [apply (runs_secret_path "dsr" w2 d2 sm eq_refl Hsm2)|]. cbv beta zeta.
      eapply runs_bind; [apply (runs_secret_path "global" w2 d2 sm eq_refl Hsm2)|].
      cbv beta zeta. eapply runs_bind; [exact Hgc|]. cbv beta.
      eapply runs_bind_raise. exact Hg.
    + reflexivity.
    + apply runs_ret.
  - view_norm. rewrite Hvc, Hvg. reflexivity.
Qed.

(** Both secrets are read. *)
Lemma runs_load_secrets_ok channel token :
  secret_is rt w channel_path channel ->
  secret_is rt w token_path token ->
  exists t,
    runs (load_secrets rt) w (Ret None)
         (with_dsr w (JObj (loaded_dsr rt d sm channel token))) t
    /\ view t = [FetchedSecret channel_path; FetchedSecret token_path].
Proof.
  intros Hc Ht.
  set (w2 := with_dsr w (JObj d2)).
  assert (loggable w2 = true) as Hlog2 by exact Hsub.
  destruct (runs_get_secret_ok channel_path w2 channel Hlog2 Hc) as [tc [Hgc Hvc]].
  destruct (runs_get_secret_ok token_path w2 token Hlog2 Ht) as [tt' [Hgt Hvt]].
  eexists. split.
  - unfold load_secrets. apply runs_try_ret.
    apply runs_load_prefix.
    eapply runs_bind; [apply (runs_secret_path "dsr" w2 d2 sm eq_refl Hsm2)|]. cbv beta zeta.
    eapply runs_bind; [apply (runs_secret_path "global" w2 d2 sm eq_refl Hsm2)|].
    cbv beta zeta. eapply runs_bind; [exact Hgc|]. cbv beta.
    eapply runs_bind; [exact Hgt|]. cbv beta.
    rewrite !py_get_dict.
    run. eapply runs_bind; [apply (runs_set_dsr_item _ _ w2 d2 eq_refl)|]. cbv beta.
    run. eapply runs_bind; [eapply runs_set_dsr_item; reflexivity|]. cbv beta.
    run. run. run.
    eapply runs_bind; [eapply runs_set_dsr_item; reflexivity|]. cbv beta.
    apply runs_ret.
  - view_norm. rewrite Hvc, Hvt. reflexivity.
Qed.

End Secrets.

End Loading.

Section Main.

Variable rt : runtime.
Variables (event : json) (context : string) (w : world).
Hypothesis Hlog : loggable w = true.

Lemma main_undecodable data msg :
  py_getitem event "data" = Ret (JStr data) ->
  json_loads rt (str_replace "'" (String dquote EmptyString) data) = inr msg ->
  exists t,
    runs (main rt event context) w
         (Ret {| statusCode := 400;
                 body := JObj [("message", JStr "Invalid input data");
                               ("error", JStr msg)] |}) w t
    /\ view t = [].
Proof.
  intros Hdata Hparse.
  destruct (runs_load_event_undecodable rt event w data msg Hlog Hdata Hparse)
    as [tl [Hl Hvl]].
  eexists. split.
  - unfold main. run. eapply runs_bind; [exact Hl|]. cbv beta iota. apply runs_ret.
  - view_norm. rewrite Hvl. reflexivity.
Qed.

Section Loaded.

Variables (d : list (string * json)) (sm : string).
Hypothesis Hevent : event_is rt event d sm.

Let channel_path := str_replace "{type}" "global" sm ++ "channel".
Let token_path := str_replace "{type}" "dsr" sm ++ "token".

Let Hsm : assoc "sm" d = Some (JStr sm).
Proof. destruct Hevent as (data & _ & _ & H). exact H. Qed.

Let Hsub : dictish (data_subtask (with_dsr w (JObj d))) = true.
Proof.
  unfold loggable in Hlog. apply andb_prop in Hlog. destruct Hlog as [_ H]. exact H.
Qed.

Lemma main_no_channel msg :
  vault w channel_path = SecretClientError msg ->
  exists w' t,
    runs (main rt event context) w
         (Ret {| statusCode := 401;
                 body := JObj [("message", JStr "Failed to retrieve secrets")] |}) w' t
    /\ view t = [FetchedSecret channel_path]
    /\ network w' = network w.
Proof.
  intros Hv.
  destruct (runs_load_secrets_no_channel rt (with_dsr w (JObj d)) d sm eq_refl Hsm Hsub
              msg Hv) as [ts [Hs Hvs]].
  do 2 eexists. split; [|split].
  - unfold main. run.
    eapply runs_bind; [apply (runs_load_event_ok rt event w d sm Hevent)|].
    cbv beta iota. eapply runs_bind; [exact Hs|]. cbv beta iota. apply runs_ret.
  - view_norm. rewrite Hvs. reflexivity.
  - reflexivity.
Qed.

Lemma main_no_token channel msg :
  secret_is rt w channel_path channel ->
  vault w token_path = SecretClientError msg ->
  exists w' t,
    runs (main rt event context) w
         (Ret {| statusCode := 401;
                 body := JObj [("message", JStr "Failed to retrieve secrets")] |}) w' t
    /\ view t = [FetchedSecret channel_path; FetchedSecret token_path]
    /\ network w' = network w.
Proof.
  intros Hc Hv.
  destruct (runs_load_secrets_no_token rt (with_dsr w (JObj d)) d sm eq_refl Hsm Hsub
              channel msg Hc Hv) as [ts [Hs Hvs]].
  do 2 eexists. split; [|split].
  - unfold main. run.
    eapply runs_bind; [apply (runs_load_event_ok rt event w d sm Hevent)|].
    cbv beta iota. eapply runs_bind; [exact Hs|]. cbv beta iota. apply runs_ret.
  - view_norm. rewrite Hvs. reflexivity.
  - reflexivity.
Qed.

Variables (channel token : list (string * json)).
Hypothesis Hchannel : secret_is rt w channel_path channel.
Hypothesis Htoken : secret_is rt w token_path token.

(** Both secrets are read: [main] goes on to [process_subtasks] in the
    world with the loaded ticket. *)
Lemma main_processes res w3 t3 :
  runs (process_subtasks rt) (with_dsr w (JObj (loaded_dsr rt d sm channel token)))
       res w3 t3 ->
  exists t0,
    view t0 = [FetchedSecret channel_path; FetchedSecret token_path]
    /\ match res with
       | Raise e => runs (main rt event context) w (Raise e) w3 (t0 ++ t3)%list
       | Ret b =>
           forall tid,
             py_getitem (data_dsr w3) "ticketId" = Ret tid ->
             runs (main rt event context) w
                  (Ret {| statusCode := if b then 200 else 500;
                          body :=
                            JObj [("message",
                                   JStr (if b
                                         then "All subtasks processed with notifications sent for failures."
                                         else "Failed to process the DSR. Notifications sent."));
                                  ("dsr_id", tid)] |})
                  w3 (t0 ++ t3)%list
       end.
Proof.
  intros Hp.
  destruct (runs_load_secrets_ok rt (with_dsr w (JObj d)) d sm eq_refl Hsm Hsub
              channel token Hchannel Htoken) as [ts [Hs Hvs]].
  exists ([Log LInfo (entry_of w "main" "started" "Main function started"
                        [("context", JStr context); ("event_data", event)])]
            ++ [] ++ ts)%list.
  split; [view_norm; exact Hvs|].
  destruct res as [b|e].
  - intros tid Htid. rewrite <- !app_assoc.
    unfold main. run.
    eapply runs_bind; [apply (runs_load_event_ok rt event w d sm Hevent)|].
    cbv beta iota. eapply runs_bind; [exact Hs|]. cbv beta iota.
    eapply runs_trace_eq.
    + eapply runs_bind; [exact Hp|]. cbv beta. run. run.
      destruct b; apply runs_ret.
    + rewrite !app_nil_r. reflexivity.
  - rewrite <- !app_assoc.
    unfold main. run.
    eapply runs_bind; [apply (runs_load_event_ok rt event w d sm Hevent)|].
    cbv beta iota. eapply runs_bind; [exact Hs|]. cbv beta iota.
    eapply runs_bind_raise. exact Hp.
Qed.

End Loaded.

End Main.

Lemma loaded_dsr_getitem rt d sm channel token key v :
  String.eqb key "lambda_name" = false ->
  String.eqb key "enviroment" = false ->
  String.eqb key "googleChat" = false ->
  String.eqb key "microsoftTeams" = false ->
  String.eqb key "secrets_header" = false ->
  assoc key d = Some v ->
  py_getitem (JObj (loaded_dsr rt d sm channel token)) key = Ret v.
Proof.
  intros H1 H2 H3 H4 H5 Hv. simpl.
  rewrite (loaded_dsr_keeps rt d sm channel token key H1 H2 H3 H4 H5), Hv.
  reflexivity.
Qed.

(** C9, with the ticket id in the 200 and 500 bodies only -- the
    response of [main], started with globals it can log from.  A payload
    text that does not decode after quote
    normalization yields status 400 with a message and the decoder's error
    text, and the invocation fetches no secret and posts nothing.  A
    secret the secrets manager refuses with a [ClientError], be it the
    channel secret or the token secret, yields status 401 with a message
    only, before any subtask is processed.  With both secrets read, the status is 200 when
    every subtask resolves and 500 when a subtask fails (and both webhook
    posts are answered); these two bodies carry a message and the ticket
    id under [dsr_id]. *)
Theorem C9_response_contract rt event context w :
  loggable w = true ->
  (forall data msg,
     py_getitem event "data" = Ret (JStr data) ->
     json_loads rt (str_replace "'" (String dquote EmptyString) data) = inr msg ->
     exists t,
       main rt event context w
       = (Ret {| statusCode := 400;
                 body := JObj [("message", JStr "Invalid input data");
                               ("error", JStr msg)] |}, w, t)
       /\ view t = [])
  /\ (forall d sm,
        event_is rt event d sm ->
        let channel_path := str_replace "{type}" "global" sm ++ "channel" in
        let token_path := str_replace "{type}" "dsr" sm ++ "token" in
        (forall msg,
           vault w channel_path = SecretClientError msg ->
           exists w' t,
             main rt event context w
             = (Ret {| statusCode := 401;
                       body := JObj [("message", JStr "Failed to retrieve secrets")] |},
                w', t)
             /\ view t = [FetchedSecret channel_path]
             /\ network w' = network w)
        /\ (forall channel msg,
              secret_is rt w channel_path channel ->
              vault w token_path = SecretClientError msg ->
              exists w' t,
                main rt event context w
                = (Ret {| statusCode := 401;
                          body := JObj [("message", JStr "Failed to retrieve secrets")] |},
                   w', t)
                /\ view t = [FetchedSecret channel_path; FetchedSecret token_path]
                /\ network w' = network w)
        /\ (forall channel token subs tid,
              secret_is rt w channel_path channel ->
              secret_is rt w token_path token ->
              assoc "task_subtask" d = Some (JArr subs) ->
              assoc "ticketId" d = Some tid ->
              let w2 := with_dsr w (JObj (loaded_dsr rt d sm channel token)) in
              (forall w3 t3,
                 resolves_ok rt subs w2 = Some (w3, t3) ->
                 result_of (main rt event context w)
                 = Ret {| statusCode := 200;
                          body := JObj [("message",
                                         JStr "All subtasks processed with notifications sent for failures.");
                                        ("dsr_id", tid)] |})
              /\ (forall pre s post w3 t3 reason w4 t4 c1 x1 c2 x2 rest,
                    subs = (pre ++ s :: post)%list ->
                    resolves_ok rt pre w2 = Some (w3, t3) ->
                    resolve_subtask rt s w3 = (Ret (false, reason), w4, t4) ->
                    network w4 = Response c1 x1 :: Response c2 x2 :: rest ->
                    result_of (main rt event context w)
                    = Ret {| statusCode := 500;
                             body := JObj [("message",
                                            JStr "Failed to process the DSR. Notifications sent.");
                                           ("dsr_id", tid)] |}))).
Proof.
  intros Hlog. split.
  - intros data msg Hdata Hparse.
    destruct (main_undecodable rt event context w Hlog data msg Hdata Hparse)
      as [t [Hrun Hv]].
    exists t. split; [exact Hrun | exact Hv].
  - intros d sm Hevent channel_path token_path. split; [|split].
    + intros msg Hv.
      destruct (main_no_channel rt event context w Hlog d sm Hevent msg Hv)
        as (w' & t & Hrun & Hview & Hnet).
      exists w', t. auto.
    + intros channel msg Hc Hv.
      destruct (main_no_token rt event context w Hlog d sm Hevent channel msg Hc Hv)
        as (w' & t & Hrun & Hview & Hnet).
      exists w', t. auto.
    + intros channel token subs tid Hc Ht Hsubs Htid w2.
      assert (py_getitem (data_dsr w2) "task_subtask" = Ret (JArr subs)) as Hsubs2
        by (apply loaded_dsr_getitem; auto).
      assert (py_getitem (data_dsr w2) "ticketId" = Ret tid) as Htid2
        by (apply loaded_dsr_getitem; auto).
      split.
      * intros w3 t3 Hok.
        destruct (resolves_ok_frame rt subs _ _ _ Hok) as (Hd3 & _ & _).
        pose proof (runs_process_subtasks rt w2 subs _ _ _ Hsubs2
                      (process_loop_ok rt subs _ _ _ Hok)) as Hp.
        destruct (main_processes rt event context w Hlog d sm Hevent channel token
                    Hc Ht _ _ _ Hp) as (t0 & _ & Hmain).
        rewrite <- Hd3 in Htid2. specialize (Hmain tid Htid2).
        unfold runs in Hmain. rewrite Hmain. reflexivity.
      * intros pre s post w3 t3 reason w4 t4 c1 x1 c2 x2 rest -> Hpre Hs Hnet.
        destruct (loaded_dsr_notifiable rt d sm channel token) as (Hteams & Hchat & _).
        destruct (process_subtasks_fails rt w2 pre s post w3 t3 reason w4 t4
                    c1 x1 c2 x2 rest Hsubs2 Hteams Hchat Hpre Hs Hnet)
          as (t5 & Hp & _).
        destruct (resolves_ok_frame rt pre _ _ _ Hpre) as (Hd3 & _ & _).
        destruct (resolve_subtask_frame rt TeamsCall s w3 eq_refl eq_refl)
          as (Hd4 & _ & _).
        rewrite Hs in Hd4. unfold world_of in Hd4. simpl in Hd4.
        destruct (main_processes rt event context w Hlog d sm Hevent channel token
                    Hc Ht _ _ _ Hp) as (t0 & _ & Hmain).
        assert (py_getitem (data_dsr (with_network w4 rest)) "ticketId" = Ret tid)
          as Htid4 by (simpl data_dsr; rewrite Hd4, Hd3; exact Htid2).
        specialize (Hmain tid Htid4).
        unfold runs in Hmain. rewrite Hmain. reflexivity.
Qed.

(** A decoded verification body without a first data row makes the poll
    raise a lookup error. *)
Lemma poll_outcome_no_rows rt body_text parsed :
  json_loads rt body_text = inl parsed ->
  has_data_rows parsed = false ->
  exists e, poll_outcome rt (Response 200 body_text) = Raise e
            /\ is_lookup_error (exn_cls e) = true.
Proof.
  intros Hparse Hrows. unfold poll_outcome.
  change (negb (200 =? 200)) with false. cbv iota. rewrite Hparse.
  destruct (py_getitem parsed "data") as [rows|e] eqn:Hdata.
  - destruct (py_getitem0 rows) as [row|e] eqn:Hrow.
    + destruct (py_get row "total_subtasks" (JInt 0)) as [v|e] eqn:Hv.
      * exfalso.
        destruct parsed; simpl in Hdata, Hrows; try discriminate.
        destruct (assoc "data" fields) as [x|]; [|discriminate].
        injection Hdata as ->.
        destruct rows as [| | | |str|items|]; simpl in Hrow; try discriminate.
        -- destruct str; [discriminate|]. injection Hrow as <-. discriminate.
        -- destruct items; discriminate.
      * exists e. split; [reflexivity|]. eapply py_get_raises; eassumption.
    + exists e. split; [reflexivity|]. eapply py_getitem0_raises; eassumption.
  - exists e. split; [reflexivity|]. eapply py_getitem_raises; eassumption.
Qed.

Lemma poll_outcome_undecodable rt body_text msg :
  json_loads rt body_text = inr msg ->
  requests_wraps_json_error rt = false ->
  poll_outcome rt (Response 200 body_text) = raise_ JSONDecodeError msg.
Proof.
  intros Hparse Hwrap. unfold poll_outcome.
  change (negb (200 =? 200)) with false. cbv iota. rewrite Hparse, Hwrap.
  reflexivity.
Qed.

(** An exception out of the resolver goes through the orchestrator. *)
Lemma process_subtasks_raises rt w pre s post w1 t1 e w2 t2 :
  py_getitem (data_dsr w) "task_subtask" = Ret (JArr (pre ++ s :: post)) ->
  resolves_ok rt pre w = Some (w1, t1) ->
  loggable (with_subtask w1 s) = true ->
  runs (update_subtask rt) (with_subtask w1 s) (Raise e) w2 t2 ->
  exists t, runs (process_subtasks rt) w (Raise e) w2 t.
Proof.
  intros Hsubs Hpre Hlog Hs. eexists.
  apply runs_process_subtasks with (subs := (pre ++ s :: post)%list); [exact Hsubs|].
  eapply process_loop_after; [exact Hpre|].
  apply runs_bind_raise. unfold runs. rewrite resolve_subtask_eq.
  apply runs_bind with (a := tt) (w1 := with_subtask w1 s)
                       (t1 := [Log LInfo (entry_of (with_subtask w1 s) "update_subtask"
                                            "started" "Subtask update started" [])]).
  - apply runs_log_event. exact Hlog.
  - exact Hs.
Qed.

(** C10, with an undecodable body escaping only when [response.json()]
    raises no request exception -- [main] has
    loaded the ticket, the subtasks before [s] have resolved, and for [s]
    the update is accepted.  When a verification poll then gets HTTP 200
    with a decoded body that has no first data row ([body["data"]] missing,
    not a list, or empty), the lookup error it raises passes the [except]
    clauses of [was_subtask_removed] and [update_subtask], is not handled
    by [process_subtasks], and [main] itself raises it.  The same holds for
    a body that does not decode when the decode error of the HTTP library
    is no request exception. *)
Theorem C10_malformed_poll_body_escapes rt event context w d sm channel token
    resolved s remaining w3 t3 pre update polls body_text rest :
  loggable w = true ->
  event_is rt event d sm ->
  secret_is rt w (str_replace "{type}" "global" sm ++ "channel") channel ->
  secret_is rt w (str_replace "{type}" "dsr" sm ++ "token") token ->
  assoc "task_subtask" d = Some (JArr (resolved ++ s :: remaining)) ->
  has_key "ticketId" (JObj d) = true ->
  has_key "subtask_id" s = true ->
  has_key "task_id" s = true ->
  resolves_ok rt resolved (with_dsr w (JObj (loaded_dsr rt d sm channel token)))
  = Some (w3, t3) ->
  forallb retried pre = true ->
  (List.length pre < Z.to_nat (RETRIES rt))%nat ->
  accepted rt update = true ->
  forallb (misses rt) polls = true ->
  (List.length polls < Z.to_nat (RETRIES rt))%nat ->
  network w3 = (pre ++ update :: polls ++ Response 200 body_text :: rest)%list ->
  (forall parsed,
     json_loads rt body_text = inl parsed ->
     has_data_rows parsed = false ->
     exists e, result_of (main rt event context w) = Raise e
               /\ is_lookup_error (exn_cls e) = true)
  /\ (forall msg,
        json_loads rt body_text = inr msg ->
        requests_wraps_json_error rt = false ->
        result_of (main rt event context w) = raise_ JSONDecodeError msg).
Proof.
  intros Hlog Hevent Hc Ht Hsubs Hticket Hsid Htask Hdone Hpre Hlen Hacc Hmiss Hpolls Hnet.
  set (w2 := with_dsr w (JObj (loaded_dsr rt d sm channel token))) in *.
  assert (py_getitem (data_dsr w2) "task_subtask"
          = Ret (JArr (resolved ++ s :: remaining)))
    as Hsubs2 by (apply loaded_dsr_getitem; auto).
  destruct (resolves_ok_frame rt resolved _ _ _ Hdone) as (Hd3 & _ & _).
  destruct (loaded_dsr_notifiable rt d sm channel token) as (_ & _ & Hhdr).
  assert (resolvable (with_subtask w3 s) = true) as Hres.
  { unfold resolvable. simpl data_dsr. simpl data_subtask. rewrite Hd3.
    unfold w2. simpl data_dsr. rewrite Hhdr, Hsid, Htask.
    simpl has_key. rewrite loaded_dsr_keeps by reflexivity.
    simpl in Hticket. rewrite Hticket. reflexivity. }
  assert (forall e,
             poll_outcome rt (Response 200 body_text) = Raise e ->
             is_request_exception (exn_cls e) = false ->
             result_of (main rt event context w) = Raise e) as Hescape.
  { intros e Hout He.
    destruct (resolve_poll_raises rt (with_subtask w3 s) pre update Hres Hpre Hlen Hacc
                polls (Response 200 body_text) rest Hmiss Hpolls Hnet e Hout He)
      as (tu & Hu & _).
    destruct (process_subtasks_raises rt w2 resolved s remaining w3 t3 e _ _ Hsubs2 Hdone
                (resolvable_loggable _ Hres) Hu) as (tp & Hp).
    destruct (main_processes rt event context w Hlog d sm Hevent channel token
                Hc Ht _ _ _ Hp) as (t0 & _ & Hmain).
    unfold runs in Hmain. rewrite Hmain. reflexivity. }
  split.
  - intros parsed Hparse Hrows.
    destruct (poll_outcome_no_rows rt body_text parsed Hparse Hrows) as (e & Hout & He).
    exists e. split; [|exact He].
    apply Hescape; [exact Hout|].
    apply lookup_error_uncaught. exact He.
  - intros msg Hparse Hwrap.
    apply Hescape; [|reflexivity].
    apply poll_outcome_undecodable; assumption.
Qed.

(* ================================================================== *)
(** ** Concrete runs *)
(* ================================================================== *)

(** C1 does not hold at HTTP 201: every update post is answered 201 with
    body status 0.  The resolver treats each as an HTTP error, posts the
    update [RETRIES] times, never polls, and returns the HTTP error
    detail. *)
Lemma C1_counterexample_status_201 :
  let run := update_subtask demo_runtime
               (resolving_world [created_status_0; created_status_0; created_status_0]) in
  two_xx_status_0 demo_runtime created_status_0 = true
  /\ result_of run
     = Ret (false, "Error updating subtask. Status code: 201. Response: "
                     ++ js status_0_text)
  /\ result_of run <> Ret (false, "Subtask not removed after retries.")
  /\ posts_at VerifyCall (trace_of run) = O
  /\ view (trace_of run) = [DidPost UpdateCall; DidPost UpdateCall; DidPost UpdateCall].
Proof.
  vm_compute. repeat split. intros H. discriminate H.
Qed.

(** C2 does not hold for a poll that raises: the first verification poll
    raises a request exception that is no timeout, and the resolver sleeps, polls again and returns
    success. *)
Lemma C2_counterexample_poll_exception_not_fatal :
  let run := update_subtask demo_runtime
               (resolving_world [update_ok; Failed "Connection reset by peer"; one_left]) in
  result_of run = Ret (true, EmptyString)
  /\ view (trace_of run)
     = [DidPost UpdateCall; DidPost VerifyCall; Slept 5; DidPost VerifyCall].
Proof. vm_compute. repeat split. Qed.

(** C4 does not hold at HTTP 201: the update post is answered 201 with body
    status 7.  The resolver posts the update again, polls, and returns
    success. *)
Lemma C4_counterexample_status_201 :
  let run := update_subtask demo_runtime
               (resolving_world [created_status_7; update_ok; one_left]) in
  update_status demo_runtime (js status_7_text) = Some (JInt 7)
  /\ result_of run = Ret (true, EmptyString)
  /\ view (trace_of run) = [DidPost UpdateCall; DidPost UpdateCall; DidPost VerifyCall].
Proof. vm_compute. repeat split. Qed.

(** C5 does not hold at HTTP 201: the update post is answered 201 with body
    status 0 and the first verification poll reports 1, yet the update is
    posted twice. *)
Lemma C5_counterexample_status_201 :
  let run := update_subtask demo_runtime
               (resolving_world [created_status_0; update_ok; one_left]) in
  two_xx_status_0 demo_runtime created_status_0 = true
  /\ confirms demo_runtime one_left = true
  /\ result_of run = Ret (true, EmptyString)
  /\ posts_at UpdateCall (trace_of run) = 2%nat
  /\ view (trace_of run) = [DidPost UpdateCall; DidPost UpdateCall; DidPost VerifyCall].
Proof. vm_compute. repeat split. Qed.

(** C7 -- the code at the failing input: the first subtask resolves, the
    second is rejected, and the Teams post raises a request exception.
    The orchestrator raises it instead of returning [False], and nothing
    is posted to Google Chat: [send_teams_notification] posts outside any
    [try], where its own status test only logs and both platform posts
    catch [Timeout] and [RequestException]. *)
Lemma C7_counterexample_teams_post_raises :
  let run := process_subtasks demo_runtime
               (loaded_world [update_ok; one_left; update_rejected;
                              Failed "webhook unreachable"]) in
  result_of run = raise_ ReqOther "webhook unreachable"
  /\ view (trace_of run)
     = [DidPost UpdateCall; DidPost VerifyCall; DidPost UpdateCall; DidPost TeamsCall]
  /\ posts_at GoogleChatCall (trace_of run) = O.
Proof. vm_compute. repeat split. Qed.

(** C8 -- the code at the failing input: a send that raises is not only
    logged.  When the Google Chat post raises, [main] raises instead of
    answering 500; when the Teams post raises, nothing is posted to Google
    Chat either.  Neither send function guards its post, where its own
    status test only logs. *)
Lemma C8_counterexample_send_raises :
  let chat_down := main demo_runtime demo_event "context"
                     (cold_world [update_rejected; Response 202 "1";
                                  Failed "webhook unreachable"] demo_vault) in
  let teams_down := main demo_runtime demo_event "context"
                      (cold_world [update_rejected; Failed "webhook unreachable"]
                         demo_vault) in
  result_of chat_down = raise_ ReqOther "webhook unreachable"
  /\ posts_at TeamsCall (trace_of chat_down) = 1%nat
  /\ posts_at GoogleChatCall (trace_of chat_down) = 1%nat
  /\ result_of teams_down = raise_ ReqOther "webhook unreachable"
  /\ posts_at TeamsCall (trace_of teams_down) = 1%nat
  /\ posts_at GoogleChatCall (trace_of teams_down) = O.
Proof. vm_compute. repeat split. Qed.

(** C9 does not hold for the 400 and 401 bodies, nor for a secret that is
    returned but cannot be read, nor for a failed subtask whose
    notification raises: the 401 response is built after the ticket was
    decoded, and its body holds a message and nothing else; the 400 body
    holds a message and the error text; a channel secret without
    [SecretString] makes [main] raise [KeyError] instead of answering 401;
    and when a subtask fails and the Teams post raises, [main] raises
    instead of answering 500. *)
Lemma C9_counterexample_body_without_ticket_id :
  let denied := main demo_runtime demo_event "context" (cold_world [] locked_vault) in
  let unreadable := main demo_runtime demo_event "context"
                      (cold_world []
                         (fun _ => SecretValue (JObj [("SecretBinary", JStr "AAEC")]))) in
  let undecodable := main demo_runtime (JObj [("data", JStr cut_ticket_text)])
                       "context" (cold_world [] demo_vault) in
  let unnotified := main demo_runtime demo_event "context"
                      (cold_world [update_rejected; Failed "webhook unreachable"]
                         demo_vault) in
  result_of denied
  = Ret {| statusCode := 401;
           body := JObj [("message", JStr "Failed to retrieve secrets")] |}
  /\ py_getitem (data_dsr (world_of denied)) "ticketId" = Ret (JInt 77)
  /\ result_of undecodable
     = Ret {| statusCode := 400;
              body := JObj [("message", JStr "Invalid input data");
                            ("error",
                             JStr "Expecting ',' delimiter: line 1 column 16 (char 15)")] |}
  /\ result_of unreadable = raise_ KeyError "'SecretString'"
  /\ result_of unnotified = raise_ ReqOther "webhook unreachable".
Proof. vm_compute. repeat split. Qed.

(** C10 does not hold for an undecodable body on a current [requests]: a
    verification poll gets HTTP
    200 with a body that is no JSON.  [was_subtask_removed] catches the
    decode error as a request exception and returns [(False, text)]; the
    resolver sleeps and polls again, and [main] answers 200. *)
Lemma C10_counterexample_undecodable_body_is_a_miss :
  let run := main demo_runtime demo_event "context"
               (cold_world [update_ok; bad_gateway; one_left;
                            update_ok; one_left; update_ok; one_left] demo_vault) in
  json_loads demo_runtime "<html>502 Bad Gateway</html>"
  = inr "Expecting value: line 1 column 1 (char 0)"
  /\ result_of (was_subtask_removed demo_runtime demo_headers
                  (resolving_world [bad_gateway]))
     = Ret (false, "Expecting value: line 1 column 1 (char 0)")
  /\ result_of run
     = Ret {| statusCode := 200;
              body := JObj [("message",
                             JStr "All subtasks processed with notifications sent for failures.");
                            ("dsr_id", JInt 77)] |}
  /\ view (trace_of run)
     = [FetchedSecret "prod/global/securiti/channel";
        FetchedSecret "prod/dsr/securiti/token";
        DidPost UpdateCall; DidPost VerifyCall; Slept 5; DidPost VerifyCall;
        DidPost UpdateCall; DidPost VerifyCall;
        DidPost UpdateCall; DidPost VerifyCall].
Proof. vm_compute. repeat split. Qed.

(** C1 at the defaults: one timeout, the accepted update, three polls
    that report two subtasks. *)
Lemma C1_witness :
  let run := update_subtask demo_runtime
               (resolving_world [TimedOut "read timed out"; update_ok;
                                 two_left; two_left; two_left]) in
  result_of run = Ret (false, "Subtask not removed after retries.")
  /\ view (trace_of run)
     = (repeat (DidPost UpdateCall) 2 ++ missed_rounds (Z.to_nat 3))%list
  /\ network (world_of run) = [].
Proof.
  apply (C1_verification_exhausted demo_runtime
           (resolving_world [TimedOut "read timed out"; update_ok;
                             two_left; two_left; two_left])
           [TimedOut "read timed out"] update_ok [two_left; two_left; two_left] []);
    first [ reflexivity | simpl; lia ].
Defined.

(** C2 at the defaults: a timeout and a connection error on the first two
    polls, then a poll that confirms. *)
Lemma C2_witness :
  let run := update_subtask demo_runtime
               (resolving_world [update_ok; TimedOut "read timed out";
                                 Failed "Connection reset by peer"; one_left]) in
  result_of run = Ret (true, EmptyString)
  /\ view (trace_of run)
     = DidPost UpdateCall :: (missed_rounds 2 ++ [DidPost VerifyCall])%list
  /\ network (world_of run) = [].
Proof.
  apply (proj1 (C2_transport_failures_are_misses demo_runtime
                  (resolving_world [update_ok; TimedOut "read timed out";
                                    Failed "Connection reset by peer"; one_left])
                  update_ok [TimedOut "read timed out"; Failed "Connection reset by peer"]
                  eq_refl eq_refl eq_refl eq_refl) one_left []);
    first [ reflexivity | simpl; lia ].
Defined.

(** C3 at the defaults: a timeout, an HTTP 503, then a connection error. *)
Lemma C3_witness :
  let run := update_subtask demo_runtime
               (resolving_world [TimedOut "read timed out";
                                 Response 503 "Service Unavailable";
                                 Failed "Connection refused"]) in
  result_of run = Ret (false, "Connection refused")
  /\ view (trace_of run) = repeat (DidPost UpdateCall) 3
  /\ network (world_of run) = [].
Proof.
  apply (proj1 (proj2 (C3_update_retry_policy demo_runtime
                         (resolving_world [TimedOut "read timed out";
                                           Response 503 "Service Unavailable";
                                           Failed "Connection refused"])
                         eq_refl))
           [TimedOut "read timed out"; Response 503 "Service Unavailable"]
           "Connection refused" []);
    first [ reflexivity | simpl; lia ].
Defined.

(** C4 at the defaults: the update is answered 200 with body status 7. *)
Lemma C4_witness :
  let run := update_subtask demo_runtime (resolving_world [update_rejected; one_left]) in
  result_of run = Ret (false, "API returned unexpected status: 7")
  /\ view (trace_of run) = [DidPost UpdateCall]
  /\ posts_at VerifyCall (trace_of run) = O
  /\ network (world_of run) = [one_left].
Proof.
  apply (C4_rejected_status demo_runtime (resolving_world [update_rejected; one_left])
           [] (js status_7_text) (JInt 7) [one_left]);
    first [ reflexivity | simpl; lia ].
Defined.

(** C5 at the defaults. *)
Lemma C5_witness :
  let run := update_subtask demo_runtime (resolving_world [update_ok; one_left]) in
  result_of run = Ret (true, EmptyString)
  /\ view (trace_of run) = [DidPost UpdateCall; DidPost VerifyCall]
  /\ network (world_of run) = [].
Proof.
  apply (C5_first_poll_confirms demo_runtime (resolving_world [update_ok; one_left])
           update_ok one_left []); reflexivity.
Defined.

(** C6 at a poll that reports two subtasks left. *)
Lemma C6_witness :
  let run := was_subtask_removed demo_runtime demo_headers (resolving_world [two_left]) in
  result_of run = Ret (false, js two_left_text)
  /\ view (trace_of run) = [DidPost VerifyCall].
Proof.
  destruct (C6_verification_query_contract demo_runtime (resolving_world [two_left])
              demo_headers two_left [] eq_refl eq_refl eq_refl)
    as (Hview & _ & _ & Hother & _).
  split; [|exact Hview].
  apply (Hother (js two_left_text) (JInt 2)); reflexivity.
Defined.

(** C7 on the ticket with three subtasks: the first resolves, the second
    is rejected, both webhooks answer. *)
Lemma C7_witness :
  let run := process_subtasks demo_runtime
               (loaded_world [update_ok; one_left; update_rejected;
                              Response 202 "1"; Response 200 "{}"; update_ok]) in
  result_of run = Ret false
  /\ network (world_of run) = [update_ok]
  /\ posts_at UpdateCall (trace_of run) = 2%nat
  /\ posts_at TeamsCall (trace_of run) = 1%nat
  /\ posts_at GoogleChatCall (trace_of run) = 1%nat.
Proof.
  cbv zeta.
  edestruct (proj1 (C7_stop_at_first_failure demo_runtime
                      (loaded_world [update_ok; one_left; update_rejected;
                                     Response 202 "1"; Response 200 "{}"; update_ok]))
               [subtask_1] subtask_2 [subtask_3])
    as (t3 & Hrun & Hview & Hteams & Hchat).
  - reflexivity.
  - reflexivity.
  - reflexivity.
  - vm_compute. reflexivity.
  - vm_compute. reflexivity.
  - reflexivity.
  - rewrite Hrun. unfold result_of, world_of, trace_of. simpl fst. simpl snd.
    split; [reflexivity|]. split; [reflexivity|].
    split; [|split; assumption].
    simpl. rewrite (posts_at_view UpdateCall t3), Hview. reflexivity.
Defined.

(** C8 at a Teams webhook that answers 500 and a Google Chat webhook that
    answers 200. *)
Lemma C8_witness :
  let w := with_network (resolving_world []) [Response 500 "error"; Response 200 "{}"] in
  exists e0 e1 e2,
    notify_failure "API returned unexpected status: 7" w
    = (Ret tt, with_network w [],
       [ Log LError e0;
         Post TeamsCall (JStr "https://teams.example/hook") content_type_json
              (Card (entry_of w "subtask_update" "failed"
                       "API returned unexpected status: 7" [])) None;
         Log LError e1;
         Post GoogleChatCall (JStr "https://chat.example/hook") content_type_json
              (Card (entry_of w "subtask_update" "failed"
                       "API returned unexpected status: 7" [])) None;
         Log LInfo e2 ]).
Proof.
  exact (proj1 (C8_delivery_failure_only_logged demo_runtime
                  (with_network (resolving_world [])
                     [Response 500 "error"; Response 200 "{}"])
                  "API returned unexpected status: 7" 500 "error" 200 "{}" []
                  (JStr "https://teams.example/hook") (JStr "https://chat.example/hook")
                  eq_refl eq_refl eq_refl eq_refl)).
Defined.

Lemma demo_event_is :
  event_is demo_runtime demo_event ticket_fields "prod/{type}/securiti/".
Proof. exists ticket_text. repeat split. Qed.


Lemma demo_channel_is net :
  secret_is demo_runtime (cold_world net demo_vault)
    (str_replace "{type}" "global" "prod/{type}/securiti/" ++ "channel") channel_fields.
Proof.
  exists (JObj [("SecretString", JStr (js channel_text))]), (js channel_text).
  repeat split.
Qed.

Lemma demo_token_is net :
  secret_is demo_runtime (cold_world net demo_vault)
    (str_replace "{type}" "dsr" "prod/{type}/securiti/" ++ "token") token_fields.
Proof.
  exists (JObj [("SecretString", JStr (js token_text))]), (js token_text).
  repeat split.
Qed.

(** C9 at the defaults: every subtask of the ticket resolves at the first
    poll. *)
Lemma C9_witness :
  result_of (main demo_runtime demo_event "context"
               (cold_world [update_ok; one_left; update_ok; one_left;
                            update_ok; one_left] demo_vault))
  = Ret {| statusCode := 200;
           body := JObj [("message",
                          JStr "All subtasks processed with notifications sent for failures.");
                         ("dsr_id", JInt 77)] |}.
Proof.
  pose proof (C9_response_contract demo_runtime demo_event "context"
                (cold_world [update_ok; one_left; update_ok; one_left;
                             update_ok; one_left] demo_vault) eq_refl) as [_ H].
  specialize (H ticket_fields "prod/{type}/securiti/" demo_event_is).
  cbv zeta in H. destruct H as (_ & _ & H).
  destruct (H channel_fields token_fields [subtask_1; subtask_2; subtask_3] (JInt 77)
              (demo_channel_is _) (demo_token_is _) eq_refl eq_refl) as [H200 _].
  eapply H200. vm_compute. reflexivity.
Defined.

(** C10 at the defaults: the first poll of the first subtask gets HTTP 200
    with an empty [data] list, and [main] raises the [IndexError]. *)
Lemma C10_witness :
  exists e,
    result_of (main demo_runtime demo_event "context"
                 (cold_world [update_ok; no_rows; one_left] demo_vault))
    = Raise e
    /\ is_lookup_error (exn_cls e) = true.
Proof.
  refine (proj1 (C10_malformed_poll_body_escapes demo_runtime demo_event "context"
                   (cold_world [update_ok; no_rows; one_left] demo_vault)
                   ticket_fields "prod/{type}/securiti/" channel_fields token_fields
                   [] subtask_1 [subtask_2; subtask_3] _ [] [] update_ok []
                   (js no_rows_text) [one_left]
                   eq_refl demo_event_is (demo_channel_is _) (demo_token_is _)
                   eq_refl eq_refl eq_refl eq_refl eq_refl eq_refl _ eq_refl eq_refl _
                   eq_refl)
            (JObj [("data", JArr [])]) eq_refl eq_refl);
    simpl; lia.
Defined.

(** On a [requests] older than 2.27 the decode error of an undecodable
    verification body is no request exception, and [main] raises it; a
    decoded body without a [data] key raises a [KeyError] on any version. *)
Lemma undecodable_body_escapes_on_old_requests :
  result_of (main legacy_runtime demo_event "context"
               (cold_world [update_ok; bad_gateway; one_left] demo_vault))
  = raise_ JSONDecodeError "Expecting value: line 1 column 1 (char 0)"
  /\ result_of (main demo_runtime demo_event "context"
                  (cold_world [update_ok; Response 200 (js no_data_text); one_left]
                     demo_vault))
     = raise_ KeyError "'data'".
Proof. vm_compute. split; reflexivity. Qed.

(* ================================================================== *)
(** ** Further properties of the program *)
(* ================================================================== *)

(** What [create_log_entry] does in any world. *)
Lemma create_log_entry_eq event status message kwargs w :
  create_log_entry event status message kwargs w
  = if loggable w
    then (Ret (entry_of w event status message kwargs), w, [])
    else (raise_ AttributeError
            ("'" ++ py_type_name (unreadable_global w)
               ++ "' object has no attribute 'get'"), w, []).
Proof.
  destruct (loggable w) eqn:Hlog.
  - apply runs_create_log_entry. exact Hlog.
  - unfold loggable in Hlog. unfold unreadable_global.
    unfold create_log_entry, bind, get_data_dsr, get_data_subtask, lift.
    destruct (dictish (data_dsr w)) eqn:Hd.
    + rewrite !(safe_get_dictish _ _ Hd).
      destruct (data_subtask w); simpl in Hlog; try discriminate; reflexivity.
    + destruct (data_dsr w); simpl in Hd; try discriminate; reflexivity.
Qed.

(** What [log_event] does in any world. *)
Lemma log_event_eq lvl event status message kwargs w :
  log_event lvl event status message kwargs w
  = if loggable w
    then (Ret tt, w, [Log lvl (entry_of w event status message kwargs)])
    else (raise_ AttributeError
            ("'" ++ py_type_name (unreadable_global w)
               ++ "' object has no attribute 'get'"), w, []).
Proof.
  unfold log_event, bind. rewrite create_log_entry_eq.
  destruct (loggable w); reflexivity.
Qed.

(** A secret whose response has no [SecretString], or whose string
    [json.loads] refuses: the exception leaves [get_secret] as it is. *)
Lemma get_secret_escapes rt path w response e :
  loggable w = true ->
  vault w path = SecretValue response ->
  (py_getitem response "SecretString" = Raise e
   \/ exists secret_string,
        py_getitem response "SecretString" = Ret secret_string
        /\ py_json_loads rt secret_string = Raise e) ->
  get_secret rt path w
  = (Raise e, w,
     [Log LInfo (entry_of w "collecting_secrets" "started" "Collecting secrets" []);
      GetSecretValue path]).
Proof.
  intros Hlog Hv Hbad.
  assert (get_secret_value path w = (Ret response, w, [GetSecretValue path])) as Hfetch
    by (unfold get_secret_value; rewrite Hv; reflexivity).
  destruct Hbad as [Hs | (secret_string & Hs & Hj)].
  - eapply runs_trace_eq.
    + unfold get_secret. run. apply runs_try_uncaught.
      * eapply runs_bind; [exact Hfetch|]. cbv beta. rewrite Hs.
        eapply runs_bind_raise. apply runs_lift.
      * apply py_getitem_raises in Hs. destruct (exn_cls e); try discriminate; reflexivity.
    + reflexivity.
  - eapply runs_trace_eq.
    + unfold get_secret. run. apply runs_try_uncaught.
      * eapply runs_bind; [exact Hfetch|]. cbv beta. run. rewrite Hj.
        eapply runs_bind_raise. apply runs_lift.
      * unfold py_json_loads in Hj.
        destruct secret_string; try (injection Hj as <-; reflexivity).
        destruct (json_loads rt s); [discriminate|]. injection Hj as <-. reflexivity.
    + reflexivity.
Qed.

(** X1 -- [log_event] for any level string, in any world.  When both
    globals are a dictionary or [None] it changes nothing and writes one
    line at the level named, and no line at all for a level other than
    "info", "warning" and "error".  Otherwise it raises the
    [AttributeError] of the [.get] that failed, which names the type of
    [data_dsr] when that is the global that cannot be read and of
    [data_subtask] when [data_dsr] can, whatever the level.  The three
    levels the module passes are [log_event] at [LInfo], [LWarning] and
    [LError]. *)
Theorem log_event_contract name event status message kwargs w :
  log_event_at name event status message kwargs w
  = (if loggable w
     then (Ret tt, w,
           match level_of name with
           | Some lvl => [Log lvl (entry_of w event status message kwargs)]
           | None => []
           end)
     else (raise_ AttributeError
             ("'" ++ py_type_name (unreadable_global w)
                ++ "' object has no attribute 'get'"), w, []))
  /\ (level_of name = None <->
      name <> "info" /\ name <> "warning" /\ name <> "error")
  /\ log_event_at "info" event status message kwargs
     = log_event LInfo event status message kwargs
  /\ log_event_at "warning" event status message kwargs
     = log_event LWarning event status message kwargs
  /\ log_event_at "error" event status message kwargs
     = log_event LError event status message kwargs.
Proof.
  split; [|split; [|repeat split]].
  - unfold log_event_at, bind. rewrite create_log_entry_eq.
    destruct (loggable w); [|reflexivity].
    destruct (level_of name); reflexivity.
  - unfold level_of.
    destruct (String.eqb_spec name "info") as [->|Hi];
      [split; [discriminate | intros (H & _ & _); congruence]|].
    destruct (String.eqb_spec name "warning") as [->|Hw];
      [split; [discriminate | intros (_ & H & _); congruence]|].
    destruct (String.eqb_spec name "error") as [->|He];
      [split; [discriminate | intros (_ & _ & H); congruence]|].
    split; auto.
Qed.

(** X2 -- [get_secret] in a loggable world.  A [ClientError] of the
    secrets manager is logged with its text and replaced by
    [RuntimeError("Failed to retrieve secrets")]; a response without
    [SecretString] and a secret string that [json.loads] refuses raise
    their own exception, unconverted; otherwise the decoded secret is
    returned.  Every case fetches the secret exactly once. *)
Theorem get_secret_contract rt path w :
  loggable w = true ->
  let started := Log LInfo (entry_of w "collecting_secrets" "started"
                              "Collecting secrets" []) in
  (forall msg,
     vault w path = SecretClientError msg ->
     get_secret rt path w
     = (raise_ RuntimeError "Failed to retrieve secrets", w,
        [started; GetSecretValue path;
         Log LError (entry_of w "collecting_secrets" "error" msg [])]))
  /\ (forall response e,
        vault w path = SecretValue response ->
        py_getitem response "SecretString" = Raise e ->
        get_secret rt path w = (Raise e, w, [started; GetSecretValue path]))
  /\ (forall response secret_string e,
        vault w path = SecretValue response ->
        py_getitem response "SecretString" = Ret secret_string ->
        py_json_loads rt secret_string = Raise e ->
        get_secret rt path w = (Raise e, w, [started; GetSecretValue path]))
  /\ (forall response secret_string secret_data,
        vault w path = SecretValue response ->
        py_getitem response "SecretString" = Ret secret_string ->
        py_json_loads rt secret_string = Ret secret_data ->
        get_secret rt path w
        = (Ret secret_data, w,
           [started; GetSecretValue path;
            Log LInfo (entry_of w "collecting_secrets" "success"
                         "Secrets collected" [])])).
Proof.
  intros Hlog started.
  assert (forall r, vault w path = r ->
            get_secret_value path w
            = (match r with
               | SecretValue x => Ret x
               | SecretClientError msg => raise_ ClientError msg
               end, w, [GetSecretValue path])) as Hfetch
    by (intros r <-; reflexivity).
  split; [|split; [|split]].
  - intros msg Hv. eapply runs_trace_eq.
    + unfold get_secret. run. eapply runs_try_caught.
      * eapply runs_bind_raise. exact (Hfetch _ Hv).
      * reflexivity.
      * run. apply runs_lift.
    + reflexivity.
  - intros response e Hv Hs. apply (get_secret_escapes rt path w response e Hlog Hv).
    left. exact Hs.
  - intros response secret_string e Hv Hs Hj.
    apply (get_secret_escapes rt path w response e Hlog Hv).
    right. exists secret_string. auto.
  - intros response secret_string secret_data Hv Hs Hj. eapply runs_trace_eq.
    + unfold get_secret. run. apply runs_try_ret.
      eapply runs_bind; [exact (Hfetch _ Hv)|]. cbv beta. run. run. run. run.
    + reflexivity.
Qed.

(** A refused secret at the defaults. *)
Lemma get_secret_contract_witness :
  get_secret demo_runtime "prod/global/securiti/channel" (cold_world [] locked_vault)
  = (raise_ RuntimeError "Failed to retrieve secrets", cold_world [] locked_vault,
     [Log LInfo (entry_of (cold_world [] locked_vault) "collecting_secrets" "started"
                   "Collecting secrets" []);
      GetSecretValue "prod/global/securiti/channel";
      Log LError (entry_of (cold_world [] locked_vault) "collecting_secrets" "error"
                    "AccessDeniedException" [])]).
Proof.
  exact (proj1 (get_secret_contract demo_runtime "prod/global/securiti/channel"
                  (cold_world [] locked_vault) eq_refl)
           "AccessDeniedException" eq_refl).
Defined.

(** X3 -- [main] on an event without payload text.  A missing [data] key
    is answered with status 400 and the [KeyError] text, with nothing but
    two log lines; a [data] value that is no string makes [main] raise
    the [AttributeError] of [.replace], which names the type of the
    value, instead of answering. *)
Theorem main_event_without_text rt event context w :
  loggable w = true ->
  let started := Log LInfo (entry_of w "main" "started" "Main function started"
                              [("context", JStr context); ("event_data", event)]) in
  (forall fields,
     event = JObj fields -> assoc "data" fields = None ->
     main rt event context w
     = (Ret {| statusCode := 400;
               body := JObj [("message", JStr "Invalid input data");
                             ("error", JStr "'data'")] |},
        w, [started; Log LError (entry_of w "main" "error" "'data'" [])]))
  /\ (forall data,
        py_getitem event "data" = Ret data -> is_str data = false ->
        main rt event context w
        = (raise_ AttributeError
             ("'" ++ py_type_name data ++ "' object has no attribute 'replace'"),
           w, [started])).
Proof.
  intros Hlog started. split.
  - intros fields -> Hnone. eapply runs_trace_eq.
    + unfold main. run. eapply runs_bind.
      * unfold load_event. eapply runs_try_caught.
        -- eapply runs_bind_raise. simpl py_getitem. rewrite Hnone. apply runs_lift.
        -- reflexivity.
        -- simpl exn_text. run. run.
      * cbv beta iota. apply runs_ret.
    + reflexivity.
  - intros data Hdata Hstr. eapply runs_trace_eq.
    + unfold main. run. eapply runs_bind_raise.
      unfold load_event. apply runs_try_uncaught.
      * run. eapply runs_bind_raise.
        destruct data; try discriminate; apply runs_lift.
      * reflexivity.
    + reflexivity.
Qed.

(** An empty event at a cold start. *)
Lemma main_event_without_text_witness :
  main demo_runtime (JObj []) "context" (cold_world [] demo_vault)
  = (Ret {| statusCode := 400;
            body := JObj [("message", JStr "Invalid input data");
                          ("error", JStr "'data'")] |},
     cold_world [] demo_vault,
     [Log LInfo (entry_of (cold_world [] demo_vault) "main" "started"
                   "Main function started"
                   [("context", JStr "context"); ("event_data", JObj [])]);
      Log LError (entry_of (cold_world [] demo_vault) "main" "error" "'data'" [])]).
Proof.
  exact (proj1 (main_event_without_text demo_runtime (JObj []) "context"
                  (cold_world [] demo_vault) eq_refl) [] eq_refl eq_refl).
Defined.

(** X4 -- a payload that decodes to something other than an object.  The
    decoded value is stored in the global [data_dsr] before
    [data_dsr["lambda_name"] = ...] raises [TypeError], which [main] does
    not catch.  Unless the value is [None], every later call of [main] in
    the same process then raises the [AttributeError] of [.get], naming
    the type of the value, at its first log line, whatever its event. *)
Theorem main_non_object_payload rt event context w data parsed :
  loggable w = true ->
  py_getitem event "data" = Ret (JStr data) ->
  json_loads rt (str_replace "'" (String dquote EmptyString) data) = inl parsed ->
  is_dict parsed = false ->
  (exists e,
     main rt event context w
     = (Raise e, with_dsr w parsed,
        [Log LInfo (entry_of w "main" "started" "Main function started"
                      [("context", JStr context); ("event_data", event)])])
     /\ exn_cls e = TypeError)
  /\ (dictish parsed = false ->
      forall event' context',
        main rt event' context' (with_dsr w parsed)
        = (raise_ AttributeError
             ("'" ++ py_type_name parsed ++ "' object has no attribute 'get'"),
           with_dsr w parsed, [])).
Proof.
  intros Hlog Hdata Hparse Hdict. split.
  - destruct (py_setitem parsed "lambda_name" (JStr (lambda_function_name rt)))
      as [x|e] eqn:Hset.
    { destruct parsed; simpl in Hset, Hdict; discriminate. }
    exists e. split.
    + eapply runs_trace_eq.
      * unfold main. run. eapply runs_bind.
        -- unfold load_event. apply runs_try_ret.
           run. simpl py_replace. run. unfold py_json_loads. rewrite Hparse.
           run. run. run.
        -- cbv beta iota. eapply runs_bind_raise.
           unfold load_secrets. apply runs_try_uncaught.
           ++ eapply runs_bind_raise. unfold set_dsr_item. run.
              simpl data_dsr. rewrite Hset. eapply runs_bind_raise. apply runs_lift.
           ++ destruct parsed; simpl in Hset; try discriminate;
                injection Hset as <-; reflexivity.
      * reflexivity.
    + destruct parsed; simpl in Hset; try discriminate;
        injection Hset as <-; reflexivity.
  - intros Hnone event' context'.
    assert (loggable (with_dsr w parsed) = false) as Hno
      by (unfold loggable; simpl; rewrite Hnone; reflexivity).
    unfold main. unfold bind at 1. rewrite log_event_eq, Hno.
    unfold unreadable_global. simpl data_dsr. rewrite Hnone. reflexivity.
Qed.

(** A payload that is a JSON list, at a cold start: the next invocation
    raises at once. *)
Lemma main_non_object_payload_witness :
  main extra_runtime demo_event "context"
    (with_dsr (cold_world [] demo_vault) (JArr []))
  = (raise_ AttributeError "'list' object has no attribute 'get'",
     with_dsr (cold_world [] demo_vault) (JArr []), []).
Proof.
  exact (proj2 (main_non_object_payload extra_runtime (JObj [("data", JStr "[]")])
                  "context" (cold_world [] demo_vault) "[]" (JArr [])
                  eq_refl eq_refl eq_refl eq_refl)
           eq_refl demo_event "context").
Defined.




(** X6 -- what [main] leaves in the ticket once both secrets are read.
    The five keys [lambda_name], [enviroment], [googleChat],
    [microsoftTeams] and [secrets_header] hold what the runtime and the
    secrets give, whatever the inbound payload said under these names (a
    key the secret lacks gives [None]); every other key of the payload is
    kept.  The channel secret is fetched before the token secret. *)
Theorem load_secrets_sets_five_keys rt w d sm channel token :
  data_dsr w = JObj d ->
  assoc "sm" d = Some (JStr sm) ->
  dictish (data_subtask w) = true ->
  secret_is rt w (str_replace "{type}" "global" sm ++ "channel") channel ->
  secret_is rt w (str_replace "{type}" "dsr" sm ++ "token") token ->
  let run := load_secrets rt w in
  let dsr := data_dsr (world_of run) in
  result_of run = Ret None
  /\ view (trace_of run)
     = [FetchedSecret (str_replace "{type}" "global" sm ++ "channel");
        FetchedSecret (str_replace "{type}" "dsr" sm ++ "token")]
  /\ py_getitem dsr "lambda_name" = Ret (JStr (lambda_function_name rt))
  /\ py_getitem dsr "enviroment"
     = Ret (JStr (if str_contains "uat" (str_replace "{type}" "dsr" sm)
                  then "UAT" else "PROD"))
  /\ py_getitem dsr "googleChat" = Ret (dict_get channel "googleChat")
  /\ py_getitem dsr "microsoftTeams" = Ret (dict_get channel "microsoftTeams")
  /\ py_getitem dsr "secrets_header"
     = Ret (JObj [("X-API-KEY", dict_get token "X-API-KEY");
                  ("X-API-SECRET", dict_get token "X-API-SECRET");
                  ("X-TIDENT", dict_get token "X-TIDENT")])
  /\ (forall key,
        String.eqb key "lambda_name" = false ->
        String.eqb key "enviroment" = false ->
        String.eqb key "googleChat" = false ->
        String.eqb key "microsoftTeams" = false ->
        String.eqb key "secrets_header" = false ->
        py_getitem dsr key = py_getitem (JObj d) key).
Proof.
  intros Hd Hsm Hsub Hc Ht run dsr.
  destruct (runs_load_secrets_ok rt w d sm Hd Hsm Hsub channel token Hc Ht)
    as (t & Hrun & Hview).
  apply runs_projections in Hrun. destruct Hrun as (Hr & Hw & Htr).
  subst dsr run. rewrite Hr, Hw, Htr. simpl data_dsr.
  split; [reflexivity|]. split; [exact Hview|].
  unfold py_getitem, loaded_dsr.
  repeat split.
  - rewrite !assoc_set_other by reflexivity. rewrite assoc_set_same. reflexivity.
  - rewrite !assoc_set_other by reflexivity. rewrite assoc_set_same. reflexivity.
  - rewrite !assoc_set_other by reflexivity. rewrite assoc_set_same. reflexivity.
  - rewrite !assoc_set_other by reflexivity. rewrite assoc_set_same. reflexivity.
  - rewrite assoc_set_same. reflexivity.
  - intros key H1 H2 H3 H4 H5. rewrite !assoc_set_other by assumption. reflexivity.
Qed.

(** A payload that names a webhook of its own: the secret's webhook
    replaces it, and the ticket id is kept. *)
Lemma load_secrets_sets_five_keys_witness :
  py_getitem (data_dsr (world_of (load_secrets demo_runtime meddling_world))) "googleChat"
  = Ret (JStr "https://chat.example/hook")
  /\ py_getitem (data_dsr (world_of (load_secrets demo_runtime meddling_world))) "ticketId"
     = Ret (JInt 78).
Proof.
  assert (secret_is demo_runtime meddling_world
            (str_replace "{type}" "global" "prod/{type}/securiti/" ++ "channel")
            channel_fields) as Hc.
  { exists (JObj [("SecretString", JStr (js channel_text))]), (js channel_text).
    repeat split. }
  assert (secret_is demo_runtime meddling_world
            (str_replace "{type}" "dsr" "prod/{type}/securiti/" ++ "token")
            token_fields) as Ht.
  { exists (JObj [("SecretString", JStr (js token_text))]), (js token_text).
    repeat split. }
  destruct (load_secrets_sets_five_keys demo_runtime meddling_world _
              "prod/{type}/securiti/" channel_fields token_fields
              eq_refl eq_refl eq_refl Hc Ht)
    as (_ & _ & _ & _ & Hchat & _ & _ & Hkeep).
  split; [exact Hchat|].
  rewrite (Hkeep "ticketId" eq_refl eq_refl eq_refl eq_refl eq_refl). reflexivity.
Defined.

(** X7 -- a ticket with an empty subtask list.  [main] fetches the two
    secrets, posts nothing, and answers 200 with the ticket id; when the
    ticket has no [ticketId] it raises [KeyError] while building that
    response. *)
Theorem main_empty_subtask_list rt event context w d sm channel token :
  loggable w = true ->
  event_is rt event d sm ->
  secret_is rt w (str_replace "{type}" "global" sm ++ "channel") channel ->
  secret_is rt w (str_replace "{type}" "dsr" sm ++ "token") token ->
  assoc "task_subtask" d = Some (JArr []) ->
  let run := main rt event context w in
  view (trace_of run)
  = [FetchedSecret (str_replace "{type}" "global" sm ++ "channel");
     FetchedSecret (str_replace "{type}" "dsr" sm ++ "token")]
  /\ network (world_of run) = network w
  /\ result_of run
     = match assoc "ticketId" d with
       | Some tid =>
           Ret {| statusCode := 200;
                  body := JObj [("message",
                                 JStr "All subtasks processed with notifications sent for failures.");
                                ("dsr_id", tid)] |}
       | None => raise_ KeyError "'ticketId'"
       end.
Proof.
  intros Hlog Hevent Hc Ht Hsubs run.
  assert (assoc "sm" d = Some (JStr sm)) as Hsm
    by (destruct Hevent as (data & _ & _ & H); exact H).
  assert (dictish (data_subtask (with_dsr w (JObj d))) = true) as Hsub.
  { unfold loggable in Hlog. apply andb_prop in Hlog. destruct Hlog as [_ H]. exact H. }
  destruct (runs_load_secrets_ok rt (with_dsr w (JObj d)) d sm eq_refl Hsm Hsub
              channel token Hc Ht) as [ts [Hs Hvs]].
  set (w2 := with_dsr w (JObj (loaded_dsr rt d sm channel token))) in *.
  assert (py_getitem (data_dsr w2) "task_subtask" = Ret (JArr [])) as Hsubs2
    by (apply loaded_dsr_getitem; auto).
  assert (py_getitem (data_dsr w2) "ticketId"
          = match assoc "ticketId" d with
            | Some tid => Ret tid
            | None => raise_ KeyError "'ticketId'"
            end) as Htid.
  { unfold w2. simpl. rewrite loaded_dsr_keeps by reflexivity. reflexivity. }
  assert (exists r t,
             runs (main rt event context) w r w2 t
             /\ view t = view ts
             /\ r = match assoc "ticketId" d with
                    | Some tid =>
                        Ret {| statusCode := 200;
                               body := JObj [("message",
                                              JStr "All subtasks processed with notifications sent for failures.");
                                             ("dsr_id", tid)] |}
                    | None => raise_ KeyError "'ticketId'"
                    end) as (r & t & Hrun & Hview & Hr).
  { destruct (assoc "ticketId" d) as [tid|] eqn:Hk.
    - do 2 eexists. split; [|split; [|reflexivity]].
      + unfold main. run.
        eapply runs_bind; [apply (runs_load_event_ok rt event w d sm Hevent)|].
        cbv beta iota. eapply runs_bind; [exact Hs|]. cbv beta iota.
        eapply runs_bind;
          [apply (runs_process_subtasks rt w2 [] (Ret true) w2 [] Hsubs2); reflexivity|].
        cbv beta. run. run. apply runs_ret.
      + view_norm. reflexivity.
    - do 2 eexists. split; [|split; [|reflexivity]].
      + unfold main. run.
        eapply runs_bind; [apply (runs_load_event_ok rt event w d sm Hevent)|].
        cbv beta iota. eapply runs_bind; [exact Hs|]. cbv beta iota.
        eapply runs_bind;
          [apply (runs_process_subtasks rt w2 [] (Ret true) w2 [] Hsubs2); reflexivity|].
        cbv beta. run. rewrite Htid. eapply runs_bind_raise. apply runs_lift.
      + view_norm. reflexivity. }
  apply runs_projections in Hrun. destruct Hrun as (Hr' & Hw & Htr).
  subst run. rewrite Hr', Hw, Htr, Hview, Hvs, Hr. repeat split.
Qed.

(** X8 -- a subtask the resolver cannot start on.  The cursor
    [data_subtask] is moved to it first.  An element that is neither an
    object nor [None] raises the [AttributeError] of [.get], naming its
    type, at the first log line; an object without [subtask_id] raises
    [KeyError] after the line "Subtask update started"; [None] raises
    the [TypeError] of a subscript on [None] there.  In each
    case [process_subtasks]'s loop raises with no HTTP post, no webhook
    post and the rest of the list untouched. *)
Theorem process_loop_malformed_subtask rt s rest w :
  dictish (data_dsr w) = true ->
  let started := Log LInfo (entry_of (with_subtask w s) "update_subtask" "started"
                              "Subtask update started" []) in
  (dictish s = false ->
   process_loop rt (s :: rest) w
   = (raise_ AttributeError
        ("'" ++ py_type_name s ++ "' object has no attribute 'get'"),
      with_subtask w s, []))
  /\ (forall fields,
        s = JObj fields -> assoc "subtask_id" fields = None ->
        process_loop rt (s :: rest) w
        = (raise_ KeyError "'subtask_id'", with_subtask w s, [started]))
  /\ (s = JNull ->
      process_loop rt (s :: rest) w
      = (raise_ TypeError "'NoneType' object is not subscriptable",
         with_subtask w s, [started])).
Proof.
  intros Hd started.
  assert (forall x, process_loop rt (s :: rest) w = x <->
                    runs (process_loop rt (s :: rest)) w (fst (fst x)) (snd (fst x)) (snd x))
    as Hx by (intros [[a b] c]; reflexivity).
  split; [|split].
  - intros Hs.
    assert (loggable (with_subtask w s) = false) as Hno
      by (unfold loggable; simpl; rewrite Hs; apply andb_false_r).
    simpl process_loop. unfold bind at 1. rewrite resolve_subtask_eq.
    unfold bind at 1. rewrite log_event_eq, Hno.
    unfold unreadable_global. simpl data_dsr. rewrite Hd. reflexivity.
  - intros fields -> Hnone.
    assert (loggable (with_subtask w (JObj fields)) = true) as Hlog
      by (unfold loggable; simpl; rewrite Hd; reflexivity).
    simpl process_loop. unfold bind at 1. rewrite resolve_subtask_eq.
    unfold bind at 1. rewrite log_event_eq, Hlog.
    unfold update_subtask, bind, get_data_subtask, lift. simpl. rewrite Hnone.
    reflexivity.
  - intros ->.
    assert (loggable (with_subtask w JNull) = true) as Hlog
      by (unfold loggable; simpl; rewrite Hd; reflexivity).
    simpl process_loop. unfold bind at 1. rewrite resolve_subtask_eq.
    unfold bind at 1. rewrite log_event_eq, Hlog. reflexivity.
Qed.

(** A subtask list that holds a number. *)
Lemma process_loop_malformed_subtask_witness :
  process_loop demo_runtime [JInt 501; subtask_2] (loaded_world [update_ok; one_left])
  = (raise_ AttributeError "'int' object has no attribute 'get'",
     with_subtask (loaded_world [update_ok; one_left]) (JInt 501), []).
Proof.
  exact (proj1 (process_loop_malformed_subtask demo_runtime (JInt 501) [subtask_2]
                  (loaded_world [update_ok; one_left]) eq_refl) eq_refl).
Defined.

(** X9 -- with [RETRIES] at 0 or below the outer loop has no pass:
    [update_subtask] posts nothing and returns failure with an empty
    detail after the line "All retries failed.". *)
Theorem update_subtask_without_retries rt w :
  RETRIES rt <= 0 ->
  loggable w = true ->
  has_key "subtask_id" (data_subtask w) = true ->
  update_subtask rt w
  = (Ret (false, EmptyString), w,
     [Log LError (entry_of w "subtask_update" "failure" "All retries failed." [])]).
Proof.
  intros Hretries Hlog Hsid.
  destruct (has_key_getitem _ _ Hsid) as [sid Hget].
  assert (Z.to_nat (RETRIES rt) = O) as Hn by lia.
  eapply runs_trace_eq.
  - unfold update_subtask. run. run. rewrite Hn. simpl update_attempts. run. run.
  - reflexivity.
Qed.

(** A run of retried replies in front of the outer loop, with the [error]
    the loop carries on with. *)
Lemma attempts_retried_error rt url body pre : forall w a error rest,
  resolvable w = true -> forallb retried pre = true ->
  network w = (pre ++ rest)%list ->
  forall n res w' t,
    runs (update_attempts rt url body n (a + List.length pre)%nat (error_after error pre))
         (with_network w rest) res w' t ->
    exists t0, runs (update_attempts rt url body (List.length pre + n)%nat a error)
                    w res w' t0
               /\ view t0 = (repeat (DidPost UpdateCall) (List.length pre) ++ view t)%list.
Proof.
  induction pre as [|r pre IH]; intros w a error rest Hres Hall Hnet n res w' t Hrest.
  - simpl in *. rewrite Nat.add_0_r in Hrest.
    destruct w as [d s net v]. simpl in Hnet. subst net.
    exists t. split; [exact Hrest | reflexivity].
  - simpl in Hall. apply andb_prop in Hall. destruct Hall as [Hretry Hall].
    simpl in Hnet. simpl List.length in *. rewrite Nat.add_succ_r in Hrest.
    set (w1 := with_network w (pre ++ rest)%list).
    assert (resolvable w1 = true) as Hres1 by exact Hres.
    destruct r as [c body_text | msg | msg]; simpl in Hretry; try discriminate.
    + apply negb_true_iff, Z.eqb_neq in Hretry.
      destruct (attempt_http_error rt w url body a error _ _ Hres Hnet
                  c body_text eq_refl Hretry) as [ta [Ha Hva]].
      simpl error_after in Hrest.
      destruct (IH w1 (S a) _ rest Hres1 Hall eq_refl n res w' t Hrest)
        as [t1 [Hrun1 Hv1]].
      eexists. split.
      * simpl update_attempts. eapply runs_bind; [exact Ha|]. cbv beta iota.
        exact Hrun1.
      * view_norm. rewrite Hva, Hv1. reflexivity.
    + destruct (attempt_timeout rt w url body a error _ _ Hres Hnet msg eq_refl)
        as [ta [Ha Hva]].
      simpl error_after in Hrest.
      destruct (IH w1 (S a) _ rest Hres1 Hall eq_refl n res w' t Hrest)
        as [t1 [Hrun1 Hv1]].
      eexists. split.
      * simpl update_attempts. eapply runs_bind; [exact Ha|]. cbv beta iota.
        exact Hrun1.
      * view_norm. rewrite Hva, Hv1. reflexivity.
Qed.

(** X10 -- the detail of an update loop that runs out.  When each of the
    first [RETRIES] replies to the update post is a timeout or an HTTP
    status other than 200, [update_subtask] returns failure and its detail
    is the text built from the last HTTP error among them, whatever timed
    out after it -- and the empty string when every attempt timed out. *)
Theorem update_subtask_exhausted_detail rt w pre rest :
  resolvable w = true ->
  forallb retried pre = true ->
  List.length pre = Z.to_nat (RETRIES rt) ->
  network w = (pre ++ rest)%list ->
  let run := update_subtask rt w in
  result_of run = Ret (false, error_after EmptyString pre)
  /\ network (world_of run) = rest
  /\ view (trace_of run) = repeat (DidPost UpdateCall) (List.length pre).
Proof.
  intros Hres Hpre Hlen Hnet run.
  destruct (resolvable_inv _ Hres) as (Hlog & _ & _ & _ & [sid Hsid]).
  set (url := GLOBAL_SECURITI_URL ++ "/privaci/v1/admin/dsr/subtasks/"
                ++ py_str rt sid ++ "/response/").
  destruct (attempts_none rt url (JObj [("status", JInt 5)]) (with_network w rest)
              (List.length pre) (error_after EmptyString pre) Hlog) as [tn [Hn Hvn]].
  destruct (attempts_retried_error rt url (JObj [("status", JInt 5)]) pre w O
              EmptyString rest Hres Hpre Hnet O _ _ _ Hn) as [t0 [Hrun0 Hv0]].
  assert (exists t, runs (update_subtask rt) w
                      (Ret (false, error_after EmptyString pre)) (with_network w rest) t
                    /\ view t = view t0) as (t & Hrun & Hv).
  { eexists. split.
    - unfold update_subtask. run. run. rewrite <- Hlen, <- (Nat.add_0_r (List.length pre)).
      exact Hrun0.
    - view_norm. reflexivity. }
  apply runs_projections in Hrun. destruct Hrun as (Hr & Hw & Ht).
  subst run. rewrite Hr, Hw, Ht, Hv, Hv0, Hvn, app_nil_r. repeat split.
Qed.

(** A 503 followed by two timeouts: the detail is the 503's. *)
Lemma update_subtask_exhausted_detail_witness :
  result_of (update_subtask demo_runtime
               (resolving_world [Response 503 "busy"; TimedOut "read timed out";
                                 TimedOut "read timed out"]))
  = Ret (false, "Error updating subtask. Status code: 503. Response: busy").
Proof.
  exact (proj1 (update_subtask_exhausted_detail demo_runtime
                  (resolving_world [Response 503 "busy"; TimedOut "read timed out";
                                    TimedOut "read timed out"])
                  [Response 503 "busy"; TimedOut "read timed out"; TimedOut "read timed out"] []
                  eq_refl eq_refl eq_refl eq_refl)).
Defined.


(** The ticket with no subtask, at the defaults. *)
Lemma main_empty_subtask_list_witness :
  let run := main extra_runtime (JObj [("data", JStr idle_ticket_text)]) "context"
               (cold_world [update_ok] demo_vault) in
  view (trace_of run)
  = [FetchedSecret "prod/global/securiti/channel";
     FetchedSecret "prod/dsr/securiti/token"]
  /\ network (world_of run) = [update_ok]
  /\ result_of run
     = Ret {| statusCode := 200;
              body := JObj [("message",
                             JStr "All subtasks processed with notifications sent for failures.");
                            ("dsr_id", JInt 78)] |}.
Proof.
  assert (event_is extra_runtime (JObj [("data", JStr idle_ticket_text)])
            idle_ticket_fields "prod/{type}/securiti/") as He
    by (exists idle_ticket_text; repeat split).
  assert (secret_is extra_runtime (cold_world [update_ok] demo_vault)
            (str_replace "{type}" "global" "prod/{type}/securiti/" ++ "channel")
            channel_fields) as Hc.
  { exists (JObj [("SecretString", JStr (js channel_text))]), (js channel_text).
    repeat split. }
  assert (secret_is extra_runtime (cold_world [update_ok] demo_vault)
            (str_replace "{type}" "dsr" "prod/{type}/securiti/" ++ "token")
            token_fields) as Ht.
  { exists (JObj [("SecretString", JStr (js token_text))]), (js token_text).
    repeat split. }
  exact (main_empty_subtask_list extra_runtime (JObj [("data", JStr idle_ticket_text)])
           "context" (cold_world [update_ok] demo_vault) idle_ticket_fields
           "prod/{type}/securiti/" channel_fields token_fields
           eq_refl He Hc Ht eq_refl).
Defined.

(** The first subtask of the demo ticket with no retry allowed. *)
Lemma update_subtask_without_retries_witness :
  update_subtask impatient_runtime (resolving_world [update_ok; one_left])
  = (Ret (false, EmptyString), resolving_world [update_ok; one_left],
     [Log LError (entry_of (resolving_world [update_ok; one_left])
                    "subtask_update" "failure" "All retries failed." [])]).
Proof.
  apply (update_subtask_without_retries impatient_runtime
           (resolving_world [update_ok; one_left])).
  - simpl. lia.
  - reflexivity.
  - reflexivity.
Defined.

(** One webhook post, in any world: the Teams post. *)
Lemma send_teams_frame entry w :
  let run := send_teams_notification entry w in
  data_dsr (world_of run) = data_dsr w
  /\ posts_at GoogleChatCall (trace_of run) = O
  /\ (posts_at TeamsCall (trace_of run) <= 1)%nat
  /\ (result_of run = Ret tt -> posts_at TeamsCall (trace_of run) = 1%nat).
Proof.
  cbv zeta.
  unfold send_teams_notification, bind, get_data_dsr, lift, requests_post,
    result_of, world_of, trace_of.
  destruct (py_getitem (data_dsr w) "microsoftTeams") as [url|e];
    [|simpl; repeat split; auto; discriminate].
  destruct (network w) as [|[c x|x|x] rest];
    try (simpl; repeat split; auto; discriminate).
  cbn [status_code]. destruct (negb (c =? 202)); rewrite log_event_eq;
    destruct (loggable (pop_network w)); simpl; repeat split; auto; discriminate.
Qed.

(** The Google Chat post. *)
Lemma send_google_chat_frame entry w :
  let run := send_google_chat_notification entry w in
  data_dsr (world_of run) = data_dsr w
  /\ posts_at TeamsCall (trace_of run) = O
  /\ (posts_at GoogleChatCall (trace_of run) <= 1)%nat
  /\ (result_of run = Ret tt -> posts_at GoogleChatCall (trace_of run) = 1%nat).
Proof.
  cbv zeta.
  unfold send_google_chat_notification, bind, get_data_dsr, lift, requests_post,
    result_of, world_of, trace_of.
  destruct (py_getitem (data_dsr w) "googleChat") as [url|e];
    [|simpl; repeat split; auto; discriminate].
  destruct (network w) as [|[c x|x|x] rest];
    try (simpl; repeat split; auto; discriminate).
  cbn [status_code]. destruct (negb (c =? 200)); rewrite log_event_eq;
    destruct (loggable (pop_network w)); simpl; repeat split; auto; discriminate.
Qed.

(** The notification after a failure, in any world: Google Chat is
    posted only after Teams, each at most once, and both exactly once
    when the notification returns. *)
Lemma notify_failure_frame reason w :
  let run := notify_failure reason w in
  data_dsr (world_of run) = data_dsr w
  /\ (posts_at GoogleChatCall (trace_of run) <= posts_at TeamsCall (trace_of run))%nat
  /\ (posts_at TeamsCall (trace_of run) <= 1)%nat
  /\ (result_of run = Ret tt ->
      posts_at TeamsCall (trace_of run) = 1%nat
      /\ posts_at GoogleChatCall (trace_of run) = 1%nat).
Proof.
  cbv zeta. destruct (notify_failure reason w) as [[r w'] t] eqn:E.
  unfold result_of, world_of, trace_of. cbn [fst snd].
  unfold notify_failure in E. unfold bind at 1 in E. rewrite log_event_eq in E.
  destruct (loggable w) eqn:Hlog.
  2:{ injection E as <- <- <-. simpl. repeat split; auto; discriminate. }
  unfold bind at 1 in E.
  pose proof (runs_create_log_entry "subtask_update" "failed" reason [] w Hlog) as Hc.
  unfold runs in Hc. rewrite Hc in E. clear Hc.
  unfold bind at 1 in E.
  pose proof (send_teams_frame (entry_of w "subtask_update" "failed" reason []) w) as Ht.
  cbv zeta in Ht.
  destruct (send_teams_notification (entry_of w "subtask_update" "failed" reason []) w)
    as [[[[]|e] w1] t1]; unfold result_of, world_of, trace_of in Ht; cbn [fst snd] in Ht.
  - destruct Ht as (Hd1 & Hg1 & _ & Ht1). specialize (Ht1 eq_refl).
    pose proof (send_google_chat_frame
                  (entry_of w "subtask_update" "failed" reason []) w1) as Hg.
    cbv zeta in Hg.
    destruct (send_google_chat_notification
                (entry_of w "subtask_update" "failed" reason []) w1)
      as [[r2 w2] t2]; unfold result_of, world_of, trace_of in Hg; cbn [fst snd] in Hg.
    destruct Hg as (Hd2 & Ht2 & Hg2 & Hr2).
    injection E as <- <- <-.
    cbn [app posts_at]. rewrite ?posts_at_app. rewrite Hg1, Ht1, Ht2.
    repeat split; try lia; try congruence.
    apply Hr2. assumption.
  - destruct Ht as (Hd1 & Hg1 & Ht1 & _).
    injection E as <- <- <-.
    cbn [app posts_at]. rewrite ?posts_at_app. rewrite Hg1.
    repeat split; try lia; try congruence; discriminate.
Qed.

Section Webhooks.

Variable rt : runtime.

Lemma process_loop_webhooks subs : forall w,
  let run := process_loop rt subs w in
  data_dsr (world_of run) = data_dsr w
  /\ (posts_at GoogleChatCall (trace_of run) <= posts_at TeamsCall (trace_of run))%nat
  /\ (posts_at TeamsCall (trace_of run) <= 1)%nat
  /\ (result_of run = Ret true -> posts_at TeamsCall (trace_of run) = O)
  /\ (result_of run = Ret false ->
      posts_at TeamsCall (trace_of run) = 1%nat
      /\ posts_at GoogleChatCall (trace_of run) = 1%nat).
Proof.
  induction subs as [|s subs IH]; intros w; cbv zeta.
  - unfold result_of, world_of, trace_of. simpl.
    repeat split; auto; discriminate.
  - destruct (process_loop rt (s :: subs) w) as [[r w'] t] eqn:E.
    unfold result_of, world_of, trace_of. cbn [fst snd].
    simpl process_loop in E. unfold bind at 1 in E.
    destruct (resolve_subtask_frame rt TeamsCall s w eq_refl eq_refl) as (Hd & _ & Ht).
    destruct (resolve_subtask_frame rt GoogleChatCall s w eq_refl eq_refl) as (_ & _ & Hg).
    destruct (resolve_subtask rt s w) as [[[[[|] detail]|e] w1] t1];
      unfold result_of, world_of, trace_of in Hd, Ht, Hg; cbn [fst snd] in Hd, Ht, Hg;
      cbn [fst snd negb] in E.
    + specialize (IH w1). cbv zeta in IH.
      destruct (process_loop rt subs w1) as [[r2 w2] t2].
      unfold result_of, world_of, trace_of in IH; cbn [fst snd] in IH.
      destruct IH as (Hd2 & Hle & Hone & Hok & Hko).
      injection E as <- <- <-.
      rewrite !posts_at_app, Ht, Hg. cbn [Nat.add].
      repeat split; auto; try congruence; apply Hko; assumption.
    + unfold bind at 1 in E.
      pose proof (notify_failure_frame detail w1) as Hn. cbv zeta in Hn.
      destruct (notify_failure detail w1) as [[[[]|e] w2] t2];
        unfold result_of, world_of, trace_of in Hn; cbn [fst snd] in Hn;
        destruct Hn as (Hd2 & Hle & Hone & Hret).
      * unfold ret in E. injection E as <- <- <-.
        destruct (Hret eq_refl) as [H1 H2].
        rewrite app_nil_r, !posts_at_app, Ht, Hg, H1, H2. cbn [Nat.add].
        repeat split; auto; try congruence; discriminate.
      * injection E as <- <- <-.
        rewrite !posts_at_app, Ht, Hg. cbn [Nat.add].
        repeat split; auto; try congruence; discriminate.
    + injection E as <- <- <-. rewrite Ht, Hg.
      repeat split; auto; discriminate.
Qed.

End Webhooks.

(** The webhooks and the outcome of [process_subtasks], in any world. *)
Lemma process_subtasks_frame rt w :
  let run := process_subtasks rt w in
  data_dsr (world_of run) = data_dsr w
  /\ (posts_at GoogleChatCall (trace_of run) <= posts_at TeamsCall (trace_of run))%nat
  /\ (posts_at TeamsCall (trace_of run) <= 1)%nat
  /\ (result_of run = Ret true ->
      posts_at TeamsCall (trace_of run) = O
      /\ posts_at GoogleChatCall (trace_of run) = O)
  /\ (result_of run = Ret false ->
      posts_at TeamsCall (trace_of run) = 1%nat
      /\ posts_at GoogleChatCall (trace_of run) = 1%nat).
Proof.
  cbv zeta. unfold process_subtasks, bind, get_data_dsr, lift.
  destruct (py_getitem (data_dsr w) "task_subtask") as [subs_json|e];
    [|unfold result_of, world_of, trace_of; simpl; repeat split; auto; discriminate].
  destruct (py_iter subs_json) as [subs|e];
    [|unfold result_of, world_of, trace_of; simpl; repeat split; auto; discriminate].
  pose proof (process_loop_webhooks rt subs w) as H. cbv zeta in H.
  destruct (process_loop rt subs w) as [[r w1] t1].
  unfold result_of, world_of, trace_of in *. simpl in *.
  destruct H as (Hd & Hle & Hone & Hok & Hko).
  repeat split; auto.
  - specialize (Hok H). lia.
  - apply Hko. assumption.
  - apply Hko. assumption.
Qed.

(** X11 -- the webhooks and the outcome, whatever the ticket, the
    network and the globals are.  [process_subtasks] leaves the ticket
    [data_dsr] as it found it; it posts at most once to Teams and to
    Google Chat only after Teams; when it returns [True] it posted to no
    webhook, and when it returns [False] it posted exactly once to each. *)
Theorem webhooks_follow_the_outcome rt w :
  let run := process_subtasks rt w in
  data_dsr (world_of run) = data_dsr w
  /\ (posts_at GoogleChatCall (trace_of run) <= posts_at TeamsCall (trace_of run))%nat
  /\ (posts_at TeamsCall (trace_of run) <= 1)%nat
  /\ (result_of run = Ret true ->
      posts_at TeamsCall (trace_of run) = O
      /\ posts_at GoogleChatCall (trace_of run) = O)
  /\ (result_of run = Ret false ->
      posts_at TeamsCall (trace_of run) = 1%nat
      /\ posts_at GoogleChatCall (trace_of run) = 1%nat).
Proof. apply process_subtasks_frame. Qed.

(* ================================================================== *)
(** ** What no run raises *)
(* ================================================================== *)

Section Escapes.

Context {A B : Type}.
Variable P : exn_class -> bool.

Lemma escapes_ret (a : A) : escapes_only P (ret a).
Proof. intros w e. discriminate. Qed.

Lemma escapes_lift (r : outcome A) :
  (forall e, r = Raise e -> P (exn_cls e) = true) -> escapes_only P (lift r).
Proof. intros H w e. unfold lift, result_of. simpl. apply H. Qed.

Lemma escapes_raise c msg : P c = true -> escapes_only P (@raise A c msg).
Proof. intros H w e. unfold raise, lift, result_of. simpl. intros [= <-]. exact H. Qed.

Lemma escapes_bind (m : M A) (k : A -> M B) :
  escapes_only P m -> (forall a, escapes_only P (k a)) -> escapes_only P (bind m k).
Proof.
  intros Hm Hk w e. specialize (Hm w). unfold bind, result_of in *.
  destruct (m w) as [[[a|e1] w1] t1]; simpl in *.
  - specialize (Hk a w1 e). unfold result_of in Hk.
    destruct (k a w1) as [[r w2] t2]. exact Hk.
  - intros [= <-]. apply Hm. reflexivity.
Qed.

Lemma escapes_try Q (m : M A) h :
  escapes_only Q m ->
  (forall e, Q (exn_cls e) = true ->
             match h e with
             | Some k => escapes_only P k
             | None => P (exn_cls e) = true
             end) ->
  escapes_only P (try_except m h).
Proof.
  intros Hm Hh w e. specialize (Hm w). unfold try_except, result_of in *.
  destruct (m w) as [[[a|e1] w1] t1]; simpl in *; [discriminate|].
  specialize (Hh e1 (Hm e1 eq_refl)).
  destruct (h e1) as [k|].
  - specialize (Hh w1 e). unfold result_of in Hh.
    destruct (k w1) as [[r w2] t2]. exact Hh.
  - intros [= <-]. exact Hh.
Qed.


End Escapes.

Section EscapesPrimitives.

Variable P : exn_class -> bool.

Lemma escapes_get_data_dsr : escapes_only P get_data_dsr.
Proof. intros w e. discriminate. Qed.

Lemma escapes_get_data_subtask : escapes_only P get_data_subtask.
Proof. intros w e. discriminate. Qed.

Lemma escapes_emit x : escapes_only P (emit x).
Proof. intros w e. discriminate. Qed.

Lemma escapes_post site url headers b timeout :
  (forall c, is_request_exception c = true -> P c = true) ->
  escapes_only P (requests_post site url headers b timeout).
Proof.
  intros H w e. unfold requests_post, result_of. simpl.
  destruct (network w) as [|[c x|x|x] rest]; try discriminate;
    intros [= <-]; apply H; reflexivity.
Qed.

Hypothesis lookups : forall c, is_lookup_error c = true -> P c = true.

Lemma escapes_getitem v key : escapes_only P (lift (py_getitem v key)).
Proof. apply escapes_lift. intros e H. apply lookups, (py_getitem_raises _ _ _ H). Qed.

Lemma escapes_getitem0 v : escapes_only P (lift (py_getitem0 v)).
Proof. apply escapes_lift. intros e H. apply lookups, (py_getitem0_raises _ _ H). Qed.

Lemma escapes_get v key d : escapes_only P (lift (py_get v key d)).
Proof. apply escapes_lift. intros e H. apply lookups, (py_get_raises _ _ _ _ H). Qed.

Lemma escapes_log_event lvl event status message kwargs :
  escapes_only P (log_event lvl event status message kwargs).
Proof.
  intros w e. rewrite log_event_eq.
  destruct (loggable w); unfold result_of; simpl; [discriminate|].
  intros [= <-]. apply lookups. reflexivity.
Qed.

End EscapesPrimitives.

Lemma may_escape_lookup rt c : is_lookup_error c = true -> may_escape rt c = true.
Proof. unfold may_escape. intros ->. reflexivity. Qed.

Lemma may_raise_inside_lookup rt c :
  is_lookup_error c = true -> may_raise_inside rt c = true.
Proof. unfold may_raise_inside. intros H. rewrite (may_escape_lookup rt c H). reflexivity. Qed.

Lemma may_raise_inside_request rt c :
  is_request_exception c = true -> may_raise_inside rt c = true.
Proof. unfold may_raise_inside. intros ->. apply orb_true_r. Qed.


Lemma may_escape_uncaught rt c :
  may_raise_inside rt c = true -> is_request_exception c = false ->
  may_escape rt c = true.
Proof. unfold may_raise_inside. intros H Hq. rewrite Hq, orb_false_r in H. exact H. Qed.

Lemma may_escape_not_request rt c :
  may_escape rt c = true -> is_request_exception c = false.
Proof.
  unfold may_escape. destruct c; simpl; try reflexivity;
    rewrite ?andb_false_r; discriminate.
Qed.

Lemma escapes_response_json rt resp :
  escapes_only (may_raise_inside rt) (response_json rt resp).
Proof.
  unfold response_json. destruct (json_loads rt (text resp)); [apply escapes_ret|].
  apply escapes_raise. unfold may_raise_inside, may_escape.
  destruct (requests_wraps_json_error rt); reflexivity.
Qed.

(** Take a term of the monad apart down to what can raise. *)
Ltac escapes_tac rt :=
  repeat first
    [ assumption
    | match goal with
      | H : forall x, escapes_only _ _ |- escapes_only _ _ => apply H
      | |- escapes_only _ (ret _) => apply escapes_ret
      | |- escapes_only _ get_data_dsr => apply escapes_get_data_dsr
      | |- escapes_only _ get_data_subtask => apply escapes_get_data_subtask
      | |- escapes_only _ (sleep _) => apply escapes_emit
      | |- escapes_only (may_escape _) (lift (py_getitem _ _)) =>
          apply escapes_getitem, may_escape_lookup
      | |- escapes_only (may_raise_inside _) (lift (py_getitem _ _)) =>
          apply escapes_getitem, may_raise_inside_lookup
      | |- escapes_only (may_raise_inside _) (lift (py_getitem0 _)) =>
          apply escapes_getitem0, may_raise_inside_lookup
      | |- escapes_only (may_raise_inside _) (lift (py_get _ _ _)) =>
          apply escapes_get, may_raise_inside_lookup
      | |- escapes_only (may_escape _) (log_event _ _ _ _ _) =>
          apply escapes_log_event, may_escape_lookup
      | |- escapes_only (may_raise_inside _) (log_event _ _ _ _ _) =>
          apply escapes_log_event, may_raise_inside_lookup
      | |- escapes_only (may_raise_inside _) (requests_post _ _ _ _ _) =>
          apply escapes_post, may_raise_inside_request
      | |- escapes_only (may_raise_inside _) (response_json _ _) =>
          apply escapes_response_json
      | |- escapes_only _ (bind _ _) => apply escapes_bind; [ | intros ? ]
      | |- escapes_only _ (if ?b then _ else _) => destruct b
      | |- escapes_only _ (match ?x with _ => _ end) => destruct x
      end ].

Section EscapesResolver.

Variable rt : runtime.

(** The two [except] clauses for request exceptions of
    [was_subtask_removed] and of [update_subtask]. *)
Lemma escapes_handlers {A} (on_timeout on_request : pyexn -> M A) e :
  (forall e', escapes_only (may_escape rt) (on_timeout e')) ->
  (forall e', escapes_only (may_escape rt) (on_request e')) ->
  may_raise_inside rt (exn_cls e) = true ->
  match (if is_timeout (exn_cls e) then Some (on_timeout e)
         else if is_request_exception (exn_cls e) then Some (on_request e)
         else None) with
  | Some k => escapes_only (may_escape rt) k
  | None => may_escape rt (exn_cls e) = true
  end.
Proof.
  intros Ht Hr He.
  destruct (is_timeout (exn_cls e)); [apply Ht|].
  destruct (is_request_exception (exn_cls e)) eqn:Hq; [apply Hr|].
  apply may_escape_uncaught; assumption.
Qed.

Lemma escapes_was_subtask_removed secrets :
  escapes_only (may_escape rt) (was_subtask_removed rt secrets).
Proof.
  unfold was_subtask_removed. cbv zeta.
  apply escapes_bind; [escapes_tac rt|]. intros dsr.
  apply escapes_bind; [escapes_tac rt|]. intros ticket_id.
  apply escapes_bind; [escapes_tac rt|]. intros sub.
  apply escapes_bind; [escapes_tac rt|]. intros task_id.
  apply escapes_try with (Q := may_raise_inside rt).
  - escapes_tac rt.
  - intros e He.
    apply (escapes_handlers
             (fun _ => log_event LWarning "was_subtask_removed" "timeout"
                         "Processing timeout" [] ;;
                       ret (false, "Processing timeout"))
             (fun err => log_event LError "was_subtask_removed" "exception"
                           (exn_text err) [] ;;
                         ret (false, exn_text err)) e);
      [intros e'; escapes_tac rt | intros e'; escapes_tac rt | exact He].
Qed.

Lemma escapes_verification_polls n : forall k,
  escapes_only (may_escape rt) (verification_polls rt n k).
Proof.
  induction n as [|n IH]; intros k; simpl.
  - apply escapes_ret.
  - pose proof escapes_was_subtask_removed as Hw. pose proof (IH (S k)) as Hrec.
    escapes_tac rt.
Qed.




End EscapesResolver.



(* ================================================================== *)
(** ** The shape of every run of the resolver *)
(* ================================================================== *)

Lemma may_escape_not_timeout rt c : may_escape rt c = true -> is_timeout c = false.
Proof.
  intros H. apply may_escape_not_request in H. destruct c; try reflexivity; discriminate.
Qed.

(** Split a run on every test it makes. *)
Ltac run_norm :=
  try unfold raise_;
  cbv beta iota;
  cbn [status_code text fst snd negb exn_cls exn_text is_timeout is_request_exception].

Ltac split_step :=
  match goal with
  | |- context [log_event ?l ?ev ?st ?m ?k ?w] =>
      rewrite (log_event_eq l ev st m k w)
  | |- context [loggable ?w] => destruct (loggable w) eqn:?
  | |- context [py_getitem ?a ?k] => destruct (py_getitem a k) eqn:?
  | |- context [py_getitem0 ?a] => destruct (py_getitem0 a) eqn:?
  | |- context [py_get ?a ?k ?d] => destruct (py_get a k d) eqn:?
  | |- context [py_eq_int ?a ?n] => destruct (py_eq_int a n) eqn:?
  | |- context [network ?w] => destruct (network w) as [|[? ?|?|?] ?] eqn:?
  | |- context [json_loads ?r ?x] => destruct (json_loads r x) eqn:?
  | |- context [requests_wraps_json_error ?r] =>
      destruct (requests_wraps_json_error r) eqn:?
  | |- context [(?a =? ?b)%Z] => destruct (a =? b)%Z eqn:?
  | |- context [is_timeout (exn_cls ?e)] => destruct (is_timeout (exn_cls e)) eqn:?
  | |- context [is_request_exception (exn_cls ?e)] =>
      destruct (is_request_exception (exn_cls e)) eqn:?
  end; run_norm.

Ltac split_run := run_norm; repeat split_step.

Section Shapes.

Variable rt : runtime.

(** One poll, in any world: it posts the query at most once, and exactly
    once when it returns. *)
Lemma was_subtask_removed_view secrets w :
  let run := was_subtask_removed rt secrets w in
  (view (trace_of run) = [] \/ view (trace_of run) = [DidPost VerifyCall])
  /\ (forall r, result_of run = Ret r -> view (trace_of run) = [DidPost VerifyCall]).
Proof.
  cbv zeta.
  unfold was_subtask_removed, response_json, raise, raise_.
  unfold try_except, bind, get_data_dsr, get_data_subtask, lift, requests_post, ret,
    raise_, result_of, trace_of.
  cbv zeta.
  split_run; (split; [auto | intros; first [discriminate | reflexivity]]).
Qed.

(** The verification loop, in any world. *)
Lemma verification_polls_view n : forall k w,
  polls_view n (view (trace_of (verification_polls rt n k w))).
Proof.
  induction n as [|n IH]; intros k w.
  - constructor.
  - simpl verification_polls.
    unfold bind, get_data_dsr, lift, sleep, emit, ret, trace_of. run_norm.
    destruct (py_getitem (data_dsr w) "secrets_header") as [hdr|e]; run_norm;
      [|constructor].
    pose proof (was_subtask_removed_view hdr w) as [Hshape Hret].
    unfold result_of, trace_of in Hshape, Hret.
    destruct (was_subtask_removed rt hdr w) as [[[[[|] d]|e] w1] t1];
      cbn [fst snd] in Hshape, Hret; run_norm.
    + rewrite log_event_eq. destruct (loggable w1); run_norm;
        rewrite ?view_app, (Hret _ eq_refl); cbn [view app]; constructor.
    + rewrite log_event_eq. destruct (loggable w1); run_norm.
      * specialize (IH (S k) w1). unfold trace_of in IH.
        destruct (verification_polls rt n (S k) w1) as [[r2 w2] t2]. cbn [snd] in IH.
        cbn [snd]. rewrite ?view_app, (Hret _ eq_refl). cbn [view app].
        constructor. exact IH.
      * rewrite ?view_app, (Hret _ eq_refl). cbn [view app]. constructor.
    + rewrite ?view_app. cbn [view app].
      destruct Hshape as [-> | ->]; constructor.
Qed.

(** One pass of the outer loop, in any world: it posts the update at most
    once and polls only after it; a pass after which the loop goes on
    shows the update post and nothing else. *)
Lemma update_attempt_view update_url body a error w :
  let run := update_attempt rt update_url body a error w in
  (view (trace_of run) = []
   \/ exists v, view (trace_of run) = DidPost UpdateCall :: v
                /\ polls_view (Z.to_nat (RETRIES rt)) v)
  /\ (forall error', result_of run = Ret (Continue error') ->
      view (trace_of run) = [DidPost UpdateCall]).
Proof.
  cbv zeta.
  unfold update_attempt, response_json, raise, raise_.
  unfold try_except, bind, get_data_dsr, lift, requests_post, ret, raise_,
    result_of, trace_of.
  run_norm.
  repeat first
    [ split_step
    | match goal with
      | |- context [verification_polls ?r ?n ?k ?w0] =>
          let Hv := fresh "Hv" in
          let He := fresh "He" in
          pose proof (verification_polls_view n k w0) as Hv;
          pose proof (escapes_verification_polls r n k w0) as He;
          unfold result_of, trace_of in Hv, He;
          destruct (verification_polls r n k w0) as [[[[|]|?] ?] ?];
          cbn [fst snd] in Hv, He; run_norm
      end ];
    try solve [ exfalso;
                match goal with
                | He : forall e0, Raise ?e = Raise e0 -> _,
                  Ht : is_timeout (exn_cls ?e) = true |- _ =>
                    specialize (He e eq_refl);
                    apply may_escape_not_timeout in He; congruence
                | Hl : py_getitem _ _ = Raise ?e,
                  Ht : is_timeout (exn_cls ?e) = true |- _ =>
                    apply py_getitem_raises, lookup_error_uncaught in Hl;
                    destruct Hl; congruence
                end ];
    rewrite ?view_app; cbn [view app]; rewrite ?app_nil_r;
    (split;
     [ first [ left; reflexivity
             | right; eexists; split;
               [reflexivity | first [assumption | constructor]] ]
     | intros error' Herr; first [discriminate Herr | reflexivity] ]).
Qed.

(** The outer loop, in any world. *)
Lemma update_attempts_view update_url body n : forall a error w,
  attempts_view (Z.to_nat (RETRIES rt)) n
    (view (trace_of (update_attempts rt update_url body n a error w))).
Proof.
  induction n as [|n IH]; intros a error w.
  - simpl update_attempts. unfold bind, ret, trace_of. rewrite log_event_eq.
    destruct (loggable w); constructor.
  - simpl update_attempts. unfold bind, trace_of.
    destruct (update_attempt_view update_url body a error w) as [Hshape Hgo].
    unfold result_of, trace_of in Hshape, Hgo.
    destruct (update_attempt rt update_url body a error w) as [[[[error'|result]|e] w1] t1];
      cbn [fst snd] in Hshape, Hgo; run_norm.
    + specialize (IH (S a) error' w1). unfold trace_of in IH.
      destruct (update_attempts rt update_url body n (S a) error' w1) as [[r2 w2] t2].
      cbn [snd] in IH. cbn [snd]. rewrite view_app, (Hgo _ eq_refl). cbn [app].
      apply attempts_view_again. exact IH.
    + unfold ret. cbn [snd]. rewrite app_nil_r.
      destruct Hshape as [-> | (v & -> & Hv)]; [constructor|].
      apply attempts_view_polls. exact Hv.
    + cbn [snd]. destruct Hshape as [-> | (v & -> & Hv)]; [constructor|].
      apply attempts_view_polls. exact Hv.
Qed.

End Shapes.

Lemma polls_view_inv n v :
  polls_view n v ->
  exists p last,
    v = (missed_rounds p ++ last)%list
    /\ (last = [] \/ last = [DidPost VerifyCall])
    /\ (p + List.length last <= n)%nat.
Proof.
  induction 1 as [n | n | n v Hv (p & last & -> & Hlast & Hle)].
  - exists O, []. simpl. repeat split; auto. lia.
  - exists O, [DidPost VerifyCall]. simpl. repeat split; auto. lia.
  - exists (S p), last. simpl. repeat split; auto. lia.
Qed.

Lemma attempts_view_inv r n v :
  attempts_view r n v ->
  exists a p last,
    v = (repeat (DidPost UpdateCall) a ++ missed_rounds p ++ last)%list
    /\ (a <= n)%nat
    /\ (last = [] \/ last = [DidPost VerifyCall])
    /\ (p + List.length last <= r)%nat
    /\ (a = O -> p = O /\ last = []).
Proof.
  induction 1 as [n | n v Hv | n v Hv (a & p & last & -> & Ha & Hlast & Hle & Hzero)].
  - exists O, O, []. simpl. repeat split; auto; lia.
  - destruct (polls_view_inv _ _ Hv) as (p & last & -> & Hlast & Hle).
    exists 1%nat, p, last. simpl. repeat split; auto; lia.
  - exists (S a), p, last. simpl. repeat split; auto; lia.
Qed.

(** [update_subtask], in any world. *)
Lemma update_subtask_view rt w :
  attempts_view (Z.to_nat (RETRIES rt)) (Z.to_nat (RETRIES rt))
    (view (trace_of (update_subtask rt w))).
Proof.
  unfold update_subtask, bind, get_data_subtask, lift, trace_of. run_norm.
  destruct (py_getitem (data_subtask w) "subtask_id") as [sid|e]; run_norm;
    [|constructor].
  pose proof (update_attempts_view rt
                (GLOBAL_SECURITI_URL ++ "/privaci/v1/admin/dsr/subtasks/"
                   ++ py_str rt sid ++ "/response/")
                (JObj [("status", JInt 5)]) (Z.to_nat (RETRIES rt)) O EmptyString w) as H.
  unfold trace_of in H.
  destruct (update_attempts rt _ _ (Z.to_nat (RETRIES rt)) O EmptyString w) as [[r1 w1] t1].
  exact H.
Qed.

(** X13 -- the shape of every run of [update_subtask], whatever the
    network answers and the globals hold.  What it does is: the update
    post at most [RETRIES] times in a row; then, only after an update
    post, at most [RETRIES] verification polls, with a sleep of exactly 5
    seconds after every poll but possibly the last.  It never posts the
    update again once it has polled, never sleeps before a poll, and
    never posts to a webhook or reads a secret. *)
Theorem update_subtask_trace_shape rt w :
  exists a p last,
    view (trace_of (update_subtask rt w))
    = (repeat (DidPost UpdateCall) a ++ missed_rounds p ++ last)%list
    /\ (a <= Z.to_nat (RETRIES rt))%nat
    /\ (last = [] \/ last = [DidPost VerifyCall])
    /\ (p + List.length last <= Z.to_nat (RETRIES rt))%nat
    /\ (a = O -> p = O /\ last = []).
Proof.
  apply (attempts_view_inv (Z.to_nat (RETRIES rt)) (Z.to_nat (RETRIES rt))).
  apply update_subtask_view.
Qed.

(* ================================================================== *)
(** ** What a response of the entry point says about the run *)
(* ================================================================== *)

Section Returns.

Context {A B : Type}.

(** Every value [m] returns satisfies [Q]. *)
Lemma returns_bind (Q : B -> Prop) (m : M A) (k : A -> M B) :
  (forall a w b, result_of (k a w) = Ret b -> Q b) ->
  forall w b, result_of (bind m k w) = Ret b -> Q b.
Proof.
  intros Hk w b. unfold bind, result_of.
  destruct (m w) as [[[a|e] w1] t1]; [|discriminate].
  specialize (Hk a w1 b). unfold result_of in Hk.
  destruct (k a w1) as [[r w2] t2]. exact Hk.
Qed.

End Returns.

Lemma quiet_set_dsr_item site key v : posts_bounded site O (set_dsr_item key v).
Proof.
  intros w. unfold set_dsr_item, bind, get_data_dsr, lift, set_data_dsr, trace_of.
  destruct (py_setitem (data_dsr w) key v); simpl; constructor.
Qed.

Lemma inert_secret_path site kind : inert site (secret_path kind).
Proof. unfold secret_path. inert_tac. Qed.

Lemma inert_get_secret rt site path : inert site (get_secret rt path).
Proof.
  unfold get_secret.
  assert (inert site (get_secret_value path)) as Hv by (intros w; repeat split).
  assert (forall x, inert site (lift (py_json_loads rt x))) as Hj
    by (intros x; apply inert_lift).
  apply inert_bind; [apply inert_log_event|]. intros _.
  apply inert_try.
  - inert_tac.
  - intros e k H. destruct (exn_cls e); try discriminate. injection H as <-.
    unfold raise. inert_tac.
Qed.

Section EntryPoint.

Variable rt : runtime.

(** The first [try] of [main], in any world: it fetches and posts
    nothing, and the only response it gives is a 400. *)
Lemma load_event_frame event w :
  let run := load_event rt event w in
  view (trace_of run) = []
  /\ (forall resp, result_of run = Ret (Some resp) -> statusCode resp = 400).
Proof.
  cbv zeta. unfold load_event, try_except, bind, lift, set_data_dsr, ret, result_of, trace_of.
  destruct (py_getitem event "data") as [data|e]; run_norm.
  - destruct (py_replace data "'" (String dquote EmptyString)) as [normalized|e]; run_norm.
    + destruct (py_json_loads rt (JStr normalized)) as [parsed|e]; run_norm.
      * split; [reflexivity | discriminate].
      * destruct (is_key_or_json_error (exn_cls e)); run_norm;
          [rewrite log_event_eq; destruct (loggable w); run_norm|];
          (split; [reflexivity | intros resp H; first [discriminate H | injection H as <-; reflexivity]]).
    + destruct (is_key_or_json_error (exn_cls e)); run_norm;
        [rewrite log_event_eq; destruct (loggable w); run_norm|];
        (split; [reflexivity | intros resp H; first [discriminate H | injection H as <-; reflexivity]]).
  - destruct (is_key_or_json_error (exn_cls e)); run_norm;
      [rewrite log_event_eq; destruct (loggable w); run_norm|];
      (split; [reflexivity | intros resp H; first [discriminate H | injection H as <-; reflexivity]]).
Qed.

(** The second [try] of [main], in any world: it posts nothing, and the
    only response it gives is a 401. *)
Lemma load_secrets_frame w :
  let run := load_secrets rt w in
  (forall site, posts_at site (trace_of run) = O)
  /\ (forall resp, result_of run = Ret (Some resp) -> statusCode resp = 401).
Proof.
  cbv zeta. split.
  - intros site.
    assert (posts_bounded site O (load_secrets rt)) as H.
    { unfold load_secrets.
      pose proof (quiet_set_dsr_item site) as Hset.
      pose proof (inert_secret_path site) as Hpath.
      pose proof (inert_get_secret rt site) as Hget.
      apply bounded_try.
      - repeat first
          [ solve [apply bounded_of_inert; inert_tac]
          | match goal with
            | |- posts_bounded _ O (bind (set_dsr_item _ _) _) =>
                change O with (0 + 0)%nat; apply bounded_bind_add; [apply Hset|intros ?]
            | |- posts_bounded _ O (bind (if ?b then _ else _) _) =>
                change O with (0 + 0)%nat; apply bounded_bind_add;
                [destruct b; apply Hset|intros ?]
            | |- posts_bounded _ O (bind _ _) =>
                apply bounded_bind_l; [solve [inert_tac]|intros ?]
            end ].
      - intros e k H. destruct (exn_cls e); try discriminate. injection H as <-.
        apply inert_ret. }
    specialize (H w). lia.
  - intros resp. unfold load_secrets, try_except, result_of.
    match goal with
    | |- context [match ?b w with _ => _ end] =>
        assert (forall w0 o, result_of (b w0) = Ret o -> o = None) as Hnone;
        [ | specialize (Hnone w); unfold result_of in Hnone;
            destruct (b w) as [[[o|e] w1] t1] ]
    end.
    + repeat (apply returns_bind; intros ?).
      intros w0 o. unfold ret, result_of. simpl. intros [= <-]. reflexivity.
    + cbn [fst]. intros [= ->]. discriminate (Hnone _ eq_refl).
    + destruct (exn_cls e); cbn [fst]; try discriminate.
      unfold ret. cbn [fst]. intros [= <-]. reflexivity.
Qed.

End EntryPoint.

(** X14 -- what the status code of a response of [main] says about the
    run, whatever the event, the secrets, the network and the globals
    are.  A 400 was given before any secret was read and before any HTTP
    post; a 401 before any HTTP post; a 200 without a post to either
    webhook; a 500 after exactly one post to each webhook.  No other
    status code is returned. *)
Theorem main_response_discipline rt event context w resp :
  let run := main rt event context w in
  result_of run = Ret resp ->
  (statusCode resp = 400 /\ view (trace_of run) = [])
  \/ (statusCode resp = 401 /\ forall site, posts_at site (trace_of run) = O)
  \/ (statusCode resp = 200
      /\ posts_at TeamsCall (trace_of run) = O
      /\ posts_at GoogleChatCall (trace_of run) = O)
  \/ (statusCode resp = 500
      /\ posts_at TeamsCall (trace_of run) = 1%nat
      /\ posts_at GoogleChatCall (trace_of run) = 1%nat).
Proof.
  cbv zeta. destruct (main rt event context w) as [[r wf] t] eqn:E.
  unfold result_of, trace_of. cbn [fst snd].
  unfold main in E. unfold bind at 1 in E. rewrite log_event_eq in E.
  destruct (loggable w); [|injection E as <- <- <-; discriminate].
  unfold bind at 1 in E.
  destruct (load_event_frame rt event w) as [Hv1 Hs1].
  unfold result_of, trace_of in Hv1, Hs1.
  destruct (load_event rt event w) as [[[[resp1|]|e] w1] t1]; cbn [fst snd] in Hv1, Hs1.
  - unfold ret in E. injection E as <- <- <-. intros [= <-].
    left. split; [apply Hs1; reflexivity|].
    cbn [view]. rewrite !view_app, Hv1. reflexivity.
  - unfold bind at 1 in E.
    destruct (load_secrets_frame rt w1) as [Hp2 Hs2].
    unfold result_of, trace_of in Hp2, Hs2.
    destruct (load_secrets rt w1) as [[[[resp2|]|e] w2] t2]; cbn [fst snd] in Hp2, Hs2.
    + unfold ret in E. injection E as <- <- <-. intros [= <-].
      right. left. split; [apply Hs2; reflexivity|].
      intros site. cbn [posts_at].
      rewrite !posts_at_app, Hp2, (posts_at_view site t1), Hv1. reflexivity.
    + unfold bind at 1 in E.
      destruct (process_subtasks_frame rt w2) as (_ & Hle & _ & Hok & Hko).
      unfold result_of, trace_of in Hle, Hok, Hko.
      destruct (process_subtasks rt w2) as [[[ok|e] w3] t3]; cbn [fst snd] in Hle, Hok, Hko.
      * unfold bind at 1, get_data_dsr in E. unfold bind at 1, lift in E.
        destruct (py_getitem (data_dsr w3) "ticketId") as [tid|e];
          [|injection E as <- <- <-; discriminate].
        destruct ok; unfold ret in E; injection E as <- <- <-; intros [= <-].
        -- right. right. left. destruct (Hok eq_refl) as [Ht Hg].
           cbn [posts_at]. rewrite !posts_at_app, !Hp2, !(posts_at_view _ t1), Hv1, Ht, Hg.
           repeat split.
        -- right. right. right. destruct (Hko eq_refl) as [Ht Hg].
           cbn [posts_at]. rewrite !posts_at_app, !Hp2, !(posts_at_view _ t1), Hv1, Ht, Hg.
           repeat split.
      * injection E as <- <- <-. discriminate.
    + injection E as <- <- <-. discriminate.
  - injection E as <- <- <-. discriminate.
Qed.

(* ================================================================== *)
(** ** The work of one invocation *)
(* ================================================================== *)

Lemma slept_app v1 v2 : slept (v1 ++ v2) = slept v1 + slept v2.
Proof.
  induction v1 as [|[site|s|id] v1 IH]; simpl; rewrite ?IH; lia.
Qed.

Lemma steps_at_app site v1 v2 :
  steps_at site (v1 ++ v2) = (steps_at site v1 + steps_at site v2)%nat.
Proof.
  induction v1 as [|[site'|s|id] v1 IH]; simpl; auto.
  destruct (call_site_eqb site site'); simpl; rewrite IH; reflexivity.
Qed.

Lemma polls_view_bounds n v :
  polls_view n v ->
  steps_at UpdateCall v = O
  /\ (steps_at VerifyCall v <= n)%nat
  /\ 0 <= slept v <= 5 * Z.of_nat n.
Proof.
  induction 1 as [n | n | n v Hv (Hu & Hp & Hs)];
    cbn [steps_at slept call_site_eqb]; repeat split; auto; lia.
Qed.

Lemma attempts_view_bounds r n v :
  attempts_view r n v ->
  (steps_at UpdateCall v <= n)%nat
  /\ (steps_at VerifyCall v <= r)%nat
  /\ 0 <= slept v <= 5 * Z.of_nat r.
Proof.
  induction 1 as [n | n v Hv | n v Hv (Hu & Hp & Hs)];
    cbn [steps_at slept call_site_eqb].
  - repeat split; lia.
  - destruct (polls_view_bounds _ _ Hv) as (Hu & Hp & Hs). rewrite Hu.
    repeat split; lia.
  - repeat split; lia.
Qed.

(** The Teams post shows at most itself. *)
Lemma send_teams_view entry w :
  view (trace_of (send_teams_notification entry w)) = []
  \/ view (trace_of (send_teams_notification entry w)) = [DidPost TeamsCall].
Proof.
  unfold send_teams_notification, bind, get_data_dsr, lift, requests_post, trace_of.
  run_norm. repeat split_step; rewrite ?view_app; cbn [view app]; auto.
Qed.

Lemma send_google_chat_view entry w :
  view (trace_of (send_google_chat_notification entry w)) = []
  \/ view (trace_of (send_google_chat_notification entry w)) = [DidPost GoogleChatCall].
Proof.
  unfold send_google_chat_notification, bind, get_data_dsr, lift, requests_post, trace_of.
  run_norm. repeat split_step; rewrite ?view_app; cbn [view app]; auto.
Qed.

(** The notification never posts to the platform and never sleeps. *)
Lemma notify_failure_view reason w :
  let v := view (trace_of (notify_failure reason w)) in
  steps_at UpdateCall v = O /\ steps_at VerifyCall v = O /\ slept v = 0.
Proof.
  cbv zeta. destruct (notify_failure reason w) as [[r w'] t] eqn:E.
  unfold trace_of. cbn [snd].
  unfold notify_failure in E. unfold bind at 1 in E. rewrite log_event_eq in E.
  destruct (loggable w) eqn:Hlog.
  2:{ injection E as <- <- <-. repeat split. }
  unfold bind at 1 in E.
  pose proof (runs_create_log_entry "subtask_update" "failed" reason [] w Hlog) as Hc.
  unfold runs in Hc. rewrite Hc in E. clear Hc.
  unfold bind at 1 in E.
  pose proof (send_teams_view (entry_of w "subtask_update" "failed" reason []) w) as Ht.
  destruct (send_teams_notification (entry_of w "subtask_update" "failed" reason []) w)
    as [[[[]|e] w1] t1]; unfold trace_of in Ht; cbn [snd] in Ht.
  - pose proof (send_google_chat_view
                  (entry_of w "subtask_update" "failed" reason []) w1) as Hg.
    destruct (send_google_chat_notification
                (entry_of w "subtask_update" "failed" reason []) w1)
      as [[r2 w2] t2]; unfold trace_of in Hg; cbn [snd] in Hg.
    injection E as <- <- <-. cbn [app view]. rewrite !view_app. cbn [view app].
    destruct Ht as [-> | ->], Hg as [-> | ->]; repeat split.
  - injection E as <- <- <-. cbn [app view]. rewrite ?view_app. cbn [view app].
    destruct Ht as [-> | ->]; repeat split.
Qed.

Section Work.

Variable rt : runtime.

Lemma resolve_subtask_view s w :
  attempts_view (Z.to_nat (RETRIES rt)) (Z.to_nat (RETRIES rt))
    (view (trace_of (resolve_subtask rt s w))).
Proof.
  rewrite resolve_subtask_eq. unfold bind, trace_of. rewrite log_event_eq.
  destruct (loggable (with_subtask w s)); [|constructor].
  pose proof (update_subtask_view rt (with_subtask w s)) as H. unfold trace_of in H.
  destruct (update_subtask rt (with_subtask w s)) as [[r1 w1] t1]. exact H.
Qed.

Lemma process_loop_bounds subs : forall w,
  let v := view (trace_of (process_loop rt subs w)) in
  (steps_at UpdateCall v <= List.length subs * Z.to_nat (RETRIES rt))%nat
  /\ (steps_at VerifyCall v <= List.length subs * Z.to_nat (RETRIES rt))%nat
  /\ 0 <= slept v <= 5 * Z.of_nat (List.length subs * Z.to_nat (RETRIES rt)).
Proof.
  induction subs as [|s subs IH]; intros w; cbv zeta.
  - simpl. repeat split; lia.
  - destruct (process_loop rt (s :: subs) w) as [[r w'] t] eqn:E.
    unfold trace_of. cbn [snd].
    simpl process_loop in E. unfold bind at 1 in E.
    pose proof (attempts_view_bounds _ _ _ (resolve_subtask_view s w)) as (Hu & Hp & Hs).
    unfold trace_of in Hu, Hp, Hs.
    destruct (resolve_subtask rt s w) as [[[[[|] detail]|e] w1] t1];
      cbn [fst snd negb] in E, Hu, Hp, Hs.
    + specialize (IH w1). cbv zeta in IH. unfold trace_of in IH.
      destruct (process_loop rt subs w1) as [[r2 w2] t2]. cbn [snd] in IH.
      destruct IH as (Hu2 & Hp2 & Hs2).
      injection E as <- <- <-.
      rewrite view_app, !steps_at_app, slept_app. simpl List.length.
      repeat split; lia.
    + unfold bind at 1 in E.
      pose proof (notify_failure_view detail w1) as Hn. cbv zeta in Hn.
      unfold trace_of in Hn.
      destruct (notify_failure detail w1) as [[[[]|e] w2] t2]; cbn [snd] in Hn;
        destruct Hn as (Hu2 & Hp2 & Hs2);
        unfold ret in E; injection E as <- <- <-;
        rewrite ?app_nil_r, view_app, !steps_at_app, slept_app, Hu2, Hp2, Hs2;
        simpl List.length; repeat split; lia.
    + injection E as <- <- <-. simpl List.length. repeat split; lia.
Qed.

End Work.

(** X15 -- the work of one pass over a ticket's subtasks, whatever the
    network answers.  For a ticket with [n] subtasks, [process_subtasks]
    posts the update at most [n * RETRIES] times, polls at most
    [n * RETRIES] times, and sleeps at most [5 * n * RETRIES] seconds in
    all: every subtask gets its own retry budget, and the notification
    adds no platform call and no sleep. *)
Theorem process_subtasks_work_bound rt w subs :
  py_getitem (data_dsr w) "task_subtask" = Ret (JArr subs) ->
  let run := process_subtasks rt w in
  let budget := (List.length subs * Z.to_nat (RETRIES rt))%nat in
  (posts_at UpdateCall (trace_of run) <= budget)%nat
  /\ (posts_at VerifyCall (trace_of run) <= budget)%nat
  /\ 0 <= slept (view (trace_of run)) <= 5 * Z.of_nat budget.
Proof.
  intros Hsubs run budget.
  assert (trace_of run = trace_of (process_loop rt subs w)) as Ht.
  { subst run. unfold process_subtasks, bind, get_data_dsr, lift, trace_of.
    rewrite Hsubs. simpl py_iter. run_norm.
    destruct (process_loop rt subs w) as [[r1 w1] t1]. reflexivity. }
  rewrite Ht, !posts_at_view. apply process_loop_bounds.
Qed.

(** The demo ticket when the platform never confirms a removal: three
    polls and fifteen seconds for the first subtask. *)
Lemma process_subtasks_work_bound_witness :
  let run := process_subtasks demo_runtime
               (loaded_world [update_ok; two_left; two_left; two_left]) in
  (posts_at UpdateCall (trace_of run) <= 9)%nat
  /\ (posts_at VerifyCall (trace_of run) <= 9)%nat
  /\ 0 <= slept (view (trace_of run)) <= 5 * Z.of_nat 9.
Proof.
  exact (process_subtasks_work_bound demo_runtime
           (loaded_world [update_ok; two_left; two_left; two_left])
           [subtask_1; subtask_2; subtask_3] eq_refl).
Defined.

(** A request the secrets manager refuses, at the defaults. *)
Lemma main_response_discipline_witness :
  let resp := {| statusCode := 401;
                 body := JObj [("message", JStr "Failed to retrieve secrets")] |} in
  let run := main demo_runtime demo_event "context" (cold_world [update_ok] locked_vault) in
  (statusCode resp = 400 /\ view (trace_of run) = [])
  \/ (statusCode resp = 401 /\ forall site, posts_at site (trace_of run) = O)
  \/ (statusCode resp = 200
      /\ posts_at TeamsCall (trace_of run) = O
      /\ posts_at GoogleChatCall (trace_of run) = O)
  \/ (statusCode resp = 500
      /\ posts_at TeamsCall (trace_of run) = 1%nat
      /\ posts_at GoogleChatCall (trace_of run) = 1%nat).
Proof.
  exact (main_response_discipline demo_runtime demo_event "context"
           (cold_world [update_ok] locked_vault)
           {| statusCode := 401;
              body := JObj [("message", JStr "Failed to retrieve secrets")] |}
           eq_refl).
Defined.

(* ================================================================== *)
(** ** What is posted to the platform *)
(* ================================================================== *)

(** Check a trace effect by effect. *)
Ltac posts_tac :=
  cbn [app];
  repeat first [ apply Forall_nil | apply Forall_cons | apply Forall_app; split ];
  try exact I; try assumption.

Section Posts.

Variable rt : runtime.

Lemma was_subtask_removed_posts secrets w :
  py_getitem (data_dsr w) "secrets_header" = Ret secrets ->
  Forall (platform_post rt (data_dsr w) (data_subtask w))
    (trace_of (was_subtask_removed rt secrets w)).
Proof.
  intros Hsecrets.
  unfold was_subtask_removed, response_json, raise, raise_.
  unfold try_except, bind, get_data_dsr, get_data_subtask, lift, requests_post, ret,
    raise_, trace_of.
  cbv zeta. split_run; cbn [snd]; posts_tac;
    (split; [exact Hsecrets|]; split; [reflexivity|]; right; split; [reflexivity|];
     do 2 eexists; repeat split; eassumption).
Qed.

Lemma verification_polls_posts n : forall k w,
  Forall (platform_post rt (data_dsr w) (data_subtask w))
    (trace_of (verification_polls rt n k w)).
Proof.
  induction n as [|n IH]; intros k w.
  - constructor.
  - simpl verification_polls.
    unfold bind, get_data_dsr, lift, sleep, emit, ret, trace_of. run_norm.
    destruct (py_getitem (data_dsr w) "secrets_header") as [hdr|e] eqn:Hhdr; run_norm;
      [|constructor].
    pose proof (was_subtask_removed_posts hdr w Hhdr) as Hposts.
    destruct (inert_was_subtask_removed rt TeamsCall hdr eq_refl w) as (Hd & Hs & _).
    unfold world_of, trace_of in Hposts, Hd, Hs.
    destruct (was_subtask_removed rt hdr w) as [[[[[|] d]|e] w1] t1];
      cbn [fst snd] in Hposts, Hd, Hs; run_norm.
    + rewrite log_event_eq. destruct (loggable w1); run_norm; cbn [snd]; posts_tac.
    + rewrite log_event_eq. destruct (loggable w1); run_norm.
      * specialize (IH (S k) w1). rewrite Hd, Hs in IH. unfold trace_of in IH.
        destruct (verification_polls rt n (S k) w1) as [[r2 w2] t2]. cbn [snd] in IH.
        cbn [snd]. posts_tac.
      * cbn [snd]. posts_tac.
    + cbn [snd]. posts_tac.
Qed.

Lemma update_attempt_posts subtask_id body a error w :
  py_getitem (data_subtask w) "subtask_id" = Ret subtask_id ->
  body = JObj [("status", JInt 5)] ->
  Forall (platform_post rt (data_dsr w) (data_subtask w))
    (trace_of (update_attempt rt
                 (GLOBAL_SECURITI_URL ++ "/privaci/v1/admin/dsr/subtasks/"
                    ++ py_str rt subtask_id ++ "/response/") body a error w)).
Proof.
  intros Hsid ->.
  unfold update_attempt, response_json, raise, raise_.
  unfold try_except, bind, get_data_dsr, lift, requests_post, ret, raise_, trace_of.
  run_norm.
  repeat first
    [ split_step
    | match goal with
      | |- context [verification_polls ?r ?n ?k ?w0] =>
          let Hv := fresh "Hv" in
          pose proof (verification_polls_posts n k w0) as Hv;
          unfold trace_of in Hv;
          cbn [pop_network with_network data_dsr data_subtask] in Hv;
          destruct (verification_polls r n k w0) as [[[[|]|?] ?] ?];
          cbn [snd] in Hv; run_norm
      end ];
    cbn [snd]; posts_tac;
    (split; [eassumption|]; split; [reflexivity|]; left; split; [reflexivity|];
     eexists; repeat split; eassumption).
Qed.

Lemma update_attempts_posts subtask_id body n : forall a error w,
  py_getitem (data_subtask w) "subtask_id" = Ret subtask_id ->
  body = JObj [("status", JInt 5)] ->
  Forall (platform_post rt (data_dsr w) (data_subtask w))
    (trace_of (update_attempts rt
                 (GLOBAL_SECURITI_URL ++ "/privaci/v1/admin/dsr/subtasks/"
                    ++ py_str rt subtask_id ++ "/response/") body n a error w)).
Proof.
  induction n as [|n IH]; intros a error w Hsid Hbody.
  - simpl update_attempts. unfold bind, ret, trace_of. rewrite log_event_eq.
    destruct (loggable w); cbn [snd]; posts_tac.
  - cbn [update_attempts]. unfold bind, trace_of.
    pose proof (update_attempt_posts subtask_id body a error w Hsid Hbody) as Hposts.
    set (url := GLOBAL_SECURITI_URL ++ "/privaci/v1/admin/dsr/subtasks/"
                  ++ py_str rt subtask_id ++ "/response/") in *.
    destruct (inert_update_attempt rt TeamsCall eq_refl eq_refl url body a error w)
      as (Hd & Hs & _).
    unfold world_of, trace_of in Hposts, Hd, Hs.
    destruct (update_attempt rt url body a error w) as [[[[error'|result]|e] w1] t1];
      cbn [fst snd] in Hposts, Hd, Hs; run_norm.
    + assert (py_getitem (data_subtask w1) "subtask_id" = Ret subtask_id) as Hsid1
        by (rewrite Hs; exact Hsid).
      specialize (IH (S a) error' w1 Hsid1 Hbody). rewrite Hd, Hs in IH.
      unfold trace_of in IH.
      destruct (update_attempts rt url body n (S a) error' w1) as [[r2 w2] t2].
      cbn [snd] in IH. cbn [snd]. posts_tac.
    + unfold ret. cbn [snd]. posts_tac.
    + cbn [snd]. exact Hposts.
Qed.

Lemma update_subtask_posts w :
  Forall (platform_post rt (data_dsr w) (data_subtask w))
    (trace_of (update_subtask rt w)).
Proof.
  unfold update_subtask, bind, get_data_subtask, lift, trace_of. run_norm.
  destruct (py_getitem (data_subtask w) "subtask_id") as [sid|e] eqn:Hsid; run_norm;
    [|constructor].
  pose proof (update_attempts_posts sid (JObj [("status", JInt 5)])
                (Z.to_nat (RETRIES rt)) O EmptyString w Hsid eq_refl) as H.
  unfold trace_of in H.
  destruct (update_attempts rt _ _ (Z.to_nat (RETRIES rt)) O EmptyString w)
    as [[r1 w1] t1].
  cbn [snd] in H. cbn [snd]. posts_tac.
Qed.

End Posts.

(** X16 -- what [update_subtask] posts, whatever the network answers.
    Every HTTP post of every run carries the ticket's [secrets_header] as
    headers and [TIMEOUT] as timeout, and is one of two: the update, to
    the [response] path of the current subtask with the status 5 as
    body, or the verification query, to the reporting
    endpoint, with the payload built from the ticket id and the current
    subtask's task id. *)
Theorem update_subtask_posts_contract rt w site url headers b timeout :
  In (Post site url headers b timeout) (trace_of (update_subtask rt w)) ->
  py_getitem (data_dsr w) "secrets_header" = Ret headers
  /\ timeout = Some (TIMEOUT rt)
  /\ ((site = UpdateCall
       /\ exists subtask_id,
            py_getitem (data_subtask w) "subtask_id" = Ret subtask_id
            /\ url = JStr (GLOBAL_SECURITI_URL ++ "/privaci/v1/admin/dsr/subtasks/"
                             ++ py_str rt subtask_id ++ "/response/")
            /\ b = JsonBody (JObj [("status", JInt 5)]))
      \/ (site = VerifyCall
          /\ exists ticket_id task_id,
               py_getitem (data_dsr w) "ticketId" = Ret ticket_id
               /\ py_getitem (data_subtask w) "task_id" = Ret task_id
               /\ url = JStr (GLOBAL_SECURITI_URL ++ "/reporting/v1/sources/query")
               /\ b = JsonBody (verification_payload ticket_id task_id))).
Proof.
  intros Hin.
  pose proof (update_subtask_posts rt w) as H.
  rewrite Forall_forall in H. exact (H _ Hin).
Qed.

(** The update post of the first subtask of the demo ticket. *)
Lemma update_subtask_posts_contract_witness :
  py_getitem (data_dsr (resolving_world [update_ok; one_left])) "secrets_header"
  = Ret demo_headers
  /\ Some 30 = Some (TIMEOUT demo_runtime)
  /\ ((UpdateCall = UpdateCall
       /\ exists subtask_id,
            py_getitem (data_subtask (resolving_world [update_ok; one_left])) "subtask_id"
            = Ret subtask_id
            /\ JStr "https://app.securiti.ai/privaci/v1/admin/dsr/subtasks/501/response/"
               = JStr (GLOBAL_SECURITI_URL ++ "/privaci/v1/admin/dsr/subtasks/"
                         ++ py_str demo_runtime subtask_id ++ "/response/")
            /\ JsonBody (JObj [("status", JInt 5)]) = JsonBody (JObj [("status", JInt 5)]))
      \/ (UpdateCall = VerifyCall
          /\ exists ticket_id task_id,
               py_getitem (data_dsr (resolving_world [update_ok; one_left])) "ticketId"
               = Ret ticket_id
               /\ py_getitem (data_subtask (resolving_world [update_ok; one_left])) "task_id"
                  = Ret task_id
               /\ JStr "https://app.securiti.ai/privaci/v1/admin/dsr/subtasks/501/response/"
                  = JStr (GLOBAL_SECURITI_URL ++ "/reporting/v1/sources/query")
               /\ JsonBody (JObj [("status", JInt 5)])
                  = JsonBody (verification_payload ticket_id task_id))).
Proof.
  apply (update_subtask_posts_contract demo_runtime (resolving_world [update_ok; one_left])
           UpdateCall
           (JStr "https://app.securiti.ai/privaci/v1/admin/dsr/subtasks/501/response/")
           demo_headers (JsonBody (JObj [("status", JInt 5)])) (Some 30)).
  vm_compute. right. left. reflexivity.
Defined.
